(** * Device activity ingestion and daily energy balance

    A shallow embedding of [DeviceService] and [HealthKitService]
    (server/src/services), and of the route of the devices router that
    syncs all devices, over an explicit model of the three Prisma
    tables they touch: [connectedDevice], [dailyActivitySummary] and
    [meal].

    Conventions of the embedding.
    - A number written in a payload or held in a column is the rational
      it is written as ([Q]).  JavaScript holds the IEEE 754 binary64
      value nearest to it ([numQ]) and computes in binary64, so the
      arithmetic of [getDailyBalance], [getDeviceAnalytics] and
      [calculateTrend] is that of [double]: the standard library's
      [spec_float] at precision 53, rounding to nearest with ties to
      even, with its infinities, signed zeros and NaN.
    - A [Date] is its epoch time in milliseconds ([Z]), at most
      [maxTime] in absolute value; an Invalid Date is [None].  The
      server runs in UTC, so a calendar day is [msPerDay] milliseconds
      long and [getDate] is the day of the month in UTC.
    - Every service call reads the clock once ([now]); the loop of
      [performInitialSync] reads it once per iteration.
    - [Math.random] is an input: the sample drawn in each iteration.
    - An [async] method is a computation of the monad [M]: it threads
      the database and either returns or throws an [Error] message. *)

From Stdlib Require Import NArith ZArith QArith SpecFloat List String Ascii Bool Arith Lia
  Sorted Permutation.
Import ListNotations.

Local Open Scope string_scope.
Local Open Scope list_scope.
Local Open Scope Z_scope.

(** ** Host-language helpers *)

Definition msPerDay : Z := 86400000.

(** [new Date(d.toISOString().split("T")[0])]: midnight UTC of the day of [d]. *)
Definition utcMidnight (t : Z) : Z := (t / msPerDay) * msPerDay.

(** [x || 0] on an optional number: [undefined], [null] and [0] give [0]. *)
Definition orZero (x : option Q) : Q :=
  match x with
  | Some v => if Qeq_bool v 0 then 0%Q else v
  | None => 0%Q
  end.

(** ** Numbers

    A JavaScript number is an IEEE 754 binary64 value. *)

Definition double : Type := spec_float.

Definition prec : Z := 53.

Definition emax : Z := 1024.

(** The number nearest to an integer. *)
Definition numZ (z : Z) : double := binary_normalize prec emax z 0 false.

(** The number nearest to [n / d], with its sign. *)
Definition quotient (negative : bool) (n d : positive) : double :=
  let '(m, e, l) := SFdiv_core_binary prec emax (Zpos n) 0 (Zpos d) 0 in
  binary_round_aux prec emax negative m e l.

(** The number that a decimal literal or a JSON number denotes: the one
    nearest to the rational written. *)
Definition numQ (q : Q) : double :=
  match Qnum q with
  | Z0 => S754_zero false
  | Zpos n => quotient false n (Qden q)
  | Zneg n => quotient true n (Qden q)
  end.

Definition fadd : double -> double -> double := SFadd prec emax.

Definition fsub : double -> double -> double := SFsub prec emax.

Definition fmul : double -> double -> double := SFmul prec emax.

Definition fdiv : double -> double -> double := SFdiv prec emax.

Definition fopp : double -> double := SFopp.

Definition fltb : double -> double -> bool := SFltb.

Definition fleb : double -> double -> bool := SFleb.

Declare Scope double_scope.
Delimit Scope double_scope with D.

Infix "+" := fadd : double_scope.
Infix "-" := fsub : double_scope.
Infix "*" := fmul : double_scope.
Infix "/" := fdiv : double_scope.
Notation "- x" := (fopp x) : double_scope.
Infix "<?" := fltb : double_scope.
Infix "<=?" := fleb : double_scope.
Notation "x >? y" := (fltb y x) : double_scope.

(** [Math.abs]. *)
Definition mathAbs : double -> double := SFabs.

(** [Math.round]: an integral number, an infinity, a zero or NaN is
    returned as it is; any other number is [m * 2 ^ e] with [e < 0], and
    the result is the integer [floor (m * 2 ^ e + 1/2)], with the sign of
    the argument when that integer is zero. *)
Definition mathRound (x : double) : double :=
  match x with
  | S754_finite s m e =>
      if 0 <=? e then x
      else
        let n :=
          Z.shiftr ((if s then Zneg m else Zpos m) + Z.shiftl 1 (- e - 1)) (- e) in
        binary_normalize prec emax n 0 s
  | _ => x
  end.

(** [x || 0] on a nullable numeric column: [null], zero of either sign and
    NaN give [0]. *)
Definition numberOrZero (x : option Q) : double :=
  match x with
  | Some v =>
      match numQ v with
      | S754_zero _ | S754_nan => numZ 0
      | d => d
      end
  | None => numZ 0
  end.

(** The integer part of a finite number, as [MakeDay] takes it from its
    day argument; [None] for an infinity and for NaN. *)
Definition truncate (x : double) : option Z :=
  match x with
  | S754_zero _ => Some 0
  | S754_finite s m e =>
      let magnitude := Z.shiftl (Zpos m) e in
      Some (if s then - magnitude else magnitude)
  | _ => None
  end.

(** ** Dates *)

(** The largest time value of a [Date]. *)
Definition maxTime : Z := 8640000000000000.

(** [TimeClip]: a time value out of range makes the [Date] invalid. *)
Definition timeClip (t : Z) : option Z :=
  if (- maxTime <=? t) && (t <=? maxTime) then Some t else None.

(** The day of the month of a day of the 400-year cycle of the Gregorian
    calendar, the cycle starting on 1 March. *)
Definition dateOfCycle (dayOfCycle : Z) : Z :=
  let yearOfCycle :=
    (dayOfCycle - dayOfCycle / 1460 + dayOfCycle / 36524 - dayOfCycle / 146096)
    / 365 in
  let dayOfYear :=
    dayOfCycle - (365 * yearOfCycle + yearOfCycle / 4 - yearOfCycle / 100) in
  let month := (5 * dayOfYear + 2) / 153 in
  dayOfYear - (153 * month + 2) / 5 + 1.

(** [d.getDate()]: the day of the month, 1 to 31. *)
Definition getDate (t : Z) : Z :=
  dateOfCycle ((t / msPerDay + 719468) mod 146097).

(** [d.setDate(dt)]: the time of day is kept and the day becomes the one
    [dt - 1] days after the first of the month of [d], [dt] truncated to an
    integer; the result is an Invalid Date when [dt] is not finite or the
    new time is out of range. *)
Definition setDate (t : Z) (dt : double) : option Z :=
  match truncate dt with
  | Some n => timeClip ((t / msPerDay - getDate t + n) * msPerDay + t mod msPerDay)
  | None => None
  end.

(** Truthiness of an optional string argument: [undefined] and [""] are falsy. *)
Definition truthy (s : option string) : bool :=
  match s with
  | Some v => negb (v =? "")%string
  | None => false
  end.

(** What Prisma does with a field of [update.data]: [undefined] leaves the
    column as it is, a value overwrites it. *)
Definition setField {A : Type} (arg : option A) (old : A) : A :=
  match arg with
  | Some v => v
  | None => old
  end.

(** The same for a nullable column fed from an optional payload field. *)
Definition setNullable {A : Type} (arg : option A) (old : option A) : option A :=
  match arg with
  | Some v => Some v
  | None => old
  end.

(** ** Data model *)

(** Modelled from the spec: the type [ActivityData] of types/devices is not
    among the sources; its fields are the ones the services read, all
    optional numbers. *)
Module ActivityData.
Record t : Type := mk {
  steps : option Q;
  caloriesBurned : option Q;
  activeMinutes : option Q;
  bmr : option Q;
  heartRate : option Q;
  weight : option Q;
  bodyFat : option Q;
  sleepHours : option Q;
  distance : option Q
}.
Definition empty : t := mk None None None None None None None None None.
End ActivityData.

(** One element of the array of [bulkSyncDeviceData]:
    [ActivityData & { date: string }]. *)
Module DayData.
Record t : Type := mk {
  data : ActivityData.t;
  date : string
}.
End DayData.

Inductive ConnectionStatus : Type :=
  | CONNECTED
  | DISCONNECTED
  | SYNCING
  | ERROR.

(** Modelled from the spec: the Prisma schema is not among the sources; the
    columns are the ones the services write, and [connected_device_id] is
    generated by the database (a counter here). *)
Module Device.
Record t : Type := mk {
  connected_device_id : nat;
  user_id : string;
  device_name : string;
  device_type : string;
  connection_status : ConnectionStatus;
  last_sync_time : option Z;
  is_primary_device : bool;
  access_token_encrypted : option string;
  refresh_token_encrypted : option string;
  token_expires_at : option Z;
  created_at : Z;
  updated_at : Z
}.
End Device.

(** [interface HealthKitData]. *)
Module HealthKitData.
Record t : Type := mk {
  steps : Q;
  caloriesBurned : Q;
  activeMinutes : Q;
  heartRate : option Q;
  weight : option Q;
  distance : option Q;
  date : string
}.
End HealthKitData.

(** The argument [deviceData: any] of [syncWithDevice], as far as it is read. *)
Module DeviceData.
Record t : Type := mk {
  date : option string;
  steps : option Q;
  caloriesBurned : option Q;
  activeMinutes : option Q;
  heartRate : option Q;
  weight : option Q;
  distance : option Q
}.
End DeviceData.

(** What was stored in the [raw_data] column. *)
Inductive RawData : Type :=
  | RawActivity (a : ActivityData.t)
  | RawDay (d : DayData.t)
  | RawHealthKit (h : HealthKitData.t).

(** Modelled from the spec: a row of [dailyActivitySummary], unique on
    (user_id, device_id, date). *)
Module Summary.
Record t : Type := mk {
  user_id : string;
  device_id : nat;
  date : Z;
  steps : option Q;
  calories_burned : option Q;
  active_minutes : option Q;
  bmr_estimate : option Q;
  heart_rate_avg : option Q;
  weight_kg : option Q;
  body_fat_percentage : option Q;
  sleep_hours : option Q;
  distance_km : option Q;
  source_device : string;
  sync_timestamp : Z;
  updated_at : Z;
  raw_data : RawData
}.
End Summary.

(** Modelled from the spec: a row of [meal], as far as the balance reads it. *)
Module Meal.
Record t : Type := mk {
  user_id : string;
  created_at : Z;
  calories : option Q
}.
End Meal.

Record Db : Type := mkDb {
  connectedDevice : list Device.t;
  nextDeviceId : nat;
  dailyActivitySummary : list Summary.t;
  meal : list Meal.t
}.

Definition emptyDb : Db := mkDb [] 0 [] [].

(** ** Computations: database state and thrown errors *)

Inductive result (A : Type) : Type :=
  | Ok (a : A)
  | Throw (msg : string).
Arguments Ok {A} a.
Arguments Throw {A} msg.

Definition M (A : Type) : Type := Db -> result A * Db.

Definition ret {A : Type} (a : A) : M A := fun db => (Ok a, db).

Definition throw {A : Type} (msg : string) : M A := fun db => (Throw msg, db).

Definition bind {A B : Type} (m : M A) (k : A -> M B) : M B :=
  fun db =>
    match m db with
    | (Ok a, db') => k a db'
    | (Throw e, db') => (Throw e, db')
    end.

(** [try { m } catch (error) { h error }]. *)
Definition tryCatch {A : Type} (m : M A) (h : string -> M A) : M A :=
  fun db =>
    match m db with
    | (Ok a, db') => (Ok a, db')
    | (Throw e, db') => h e db'
    end.

Notation "x <- m ;; k" := (bind m (fun x => k))
  (at level 61, m at next level, right associativity).
Notation "m ;;; k" := (bind m (fun _ => k))
  (at level 61, right associativity).

Definition finalDb {A : Type} (r : result A * Db) : Db := snd r.
Definition outcome {A : Type} (r : result A * Db) : result A := fst r.

(** ** The persistence layer (Prisma client) *)

Definition isDevice (id : nat) (d : Device.t) : bool :=
  Nat.eqb (Device.connected_device_id d) id.

Definition ownedDevice (id : nat) (user : string) (d : Device.t) : bool :=
  isDevice id d && (Device.user_id d =? user)%string.

Definition deviceOfType (user ty : string) (d : Device.t) : bool :=
  (Device.user_id d =? user)%string && (Device.device_type d =? ty)%string.

(** [prisma.connectedDevice.findFirst({ where })]. *)
Definition deviceFindFirst (where_ : Device.t -> bool) : M (option Device.t) :=
  fun db => (Ok (find where_ (connectedDevice db)), db).

Definition withDevices (f : list Device.t -> list Device.t) (db : Db) : Db :=
  mkDb (f (connectedDevice db)) (nextDeviceId db)
       (dailyActivitySummary db) (meal db).

Definition withSummaries (f : list Summary.t -> list Summary.t) (db : Db) : Db :=
  mkDb (connectedDevice db) (nextDeviceId db)
       (f (dailyActivitySummary db)) (meal db).

Definition updateWhere {A : Type} (p : A -> bool) (f : A -> A) (l : list A) : list A :=
  map (fun x => if p x then f x else x) l.

(** [prisma.connectedDevice.update({ where: { connected_device_id }, data })]:
    throws when no row has the id. *)
Definition deviceUpdate (id : nat) (data : Device.t -> Device.t) : M Device.t :=
  fun db =>
    match find (isDevice id) (connectedDevice db) with
    | Some d => (Ok (data d), withDevices (updateWhere (isDevice id) data) db)
    | None => (Throw "Record to update not found", db)
    end.

(** [prisma.connectedDevice.updateMany({ where, data })]: never throws. *)
Definition deviceUpdateMany (where_ : Device.t -> bool) (data : Device.t -> Device.t)
  : M nat :=
  fun db =>
    (Ok (List.length (filter where_ (connectedDevice db))),
     withDevices (updateWhere where_ data) db).

(** [prisma.connectedDevice.create({ data })]: the database supplies the id. *)
Definition deviceCreate (data : nat -> Device.t) : M Device.t :=
  fun db =>
    let d := data (nextDeviceId db) in
    (Ok d,
     mkDb (connectedDevice db ++ [d]) (S (nextDeviceId db))
          (dailyActivitySummary db) (meal db)).

(** [prisma.connectedDevice.upsert({ where: { user_id_device_type }, update, create })]. *)
Definition deviceUpsert (user ty : string)
    (update : Device.t -> Device.t) (create : nat -> Device.t) : M Device.t :=
  fun db =>
    match find (deviceOfType user ty) (connectedDevice db) with
    | Some d =>
        (Ok (update d), withDevices (updateWhere (deviceOfType user ty) update) db)
    | None => deviceCreate create db
    end.

Definition summaryKey (user : string) (device : nat) (date : Z) (r : Summary.t) : bool :=
  (Summary.user_id r =? user)%string && Nat.eqb (Summary.device_id r) device
  && Z.eqb (Summary.date r) date.

(** An upsert on the rows of a table: the row the key selects is updated
    in place, and without one the created row is appended.  Returns the
    written row and the new rows. *)
Definition upsertRows {A : Type} (key : A -> bool) (update : A -> A) (created : A)
    (rows : list A) : A * list A :=
  match find key rows with
  | Some r => (update r, updateWhere key update rows)
  | None => (created, rows ++ [created])
  end.

(** [prisma.dailyActivitySummary.upsert({ where: { user_id_device_id_date }, update, create })].
    The key's date is a [Date] object; an Invalid Date is rejected by the
    client before anything is written. *)
Definition summaryUpsert (user : string) (device : nat) (date : option Z)
    (update : Summary.t -> Summary.t) (create : Z -> Summary.t) : M Summary.t :=
  fun db =>
    match date with
    | None => (Throw "Invalid value for argument date", db)
    | Some d =>
        let written :=
          upsertRows (summaryKey user device d) update (create d)
            (dailyActivitySummary db) in
        (Ok (fst written), withSummaries (fun _ => snd written) db)
    end.

(** The first row of [orderBy: { sync_timestamp: "desc" }]; among equal
    timestamps the earliest row of the table. *)
Fixpoint latestSynced (rows : list Summary.t) : option Summary.t :=
  match rows with
  | [] => None
  | r :: rest =>
      match latestSynced rest with
      | Some r' =>
          if Summary.sync_timestamp r <? Summary.sync_timestamp r'
          then Some r' else Some r
      | None => Some r
      end
  end.

(** [prisma.dailyActivitySummary.findFirst({ where, orderBy: { sync_timestamp: "desc" } })]. *)
Definition summaryFindLatest (where_ : Summary.t -> bool) : M (option Summary.t) :=
  fun db => (Ok (latestSynced (filter where_ (dailyActivitySummary db))), db).

Fixpoint insertByDate (r : Summary.t) (l : list Summary.t) : list Summary.t :=
  match l with
  | [] => [r]
  | x :: rest =>
      if Summary.date r <? Summary.date x then r :: l
      else x :: insertByDate r rest
  end.

(** [orderBy: { date: "asc" }]. *)
Definition sortByDate (l : list Summary.t) : list Summary.t :=
  fold_right insertByDate [] l.

(** [prisma.dailyActivitySummary.findMany({ where, orderBy: { date: "asc" } })]. *)
Definition summaryFindManyByDate (where_ : Summary.t -> bool) : M (list Summary.t) :=
  fun db => (Ok (sortByDate (filter where_ (dailyActivitySummary db))), db).

(** [prisma.meal.findMany({ where })]. *)
Definition mealFindMany (where_ : Meal.t -> bool) : M (list Meal.t) :=
  fun db => (Ok (filter where_ (meal db)), db).

(** ** Credential encoding *)

Definition base64Alphabet : string :=
  "ABCDEFGHIJKLMNOPQRSTUVWXYZabcdefghijklmnopqrstuvwxyz0123456789+/".

Definition base64Digit (n : N) : ascii :=
  match String.get (N.to_nat n) base64Alphabet with
  | Some c => c
  | None => "="%char
  end.

Fixpoint base64Bytes (bytes : list N) : string :=
  match bytes with
  | [] => ""
  | [a] =>
      String (base64Digit (a / 4))
        (String (base64Digit ((a mod 4) * 16)) "==")
  | [a; b] =>
      String (base64Digit (a / 4))
        (String (base64Digit ((a mod 4) * 16 + b / 16))
           (String (base64Digit ((b mod 16) * 4)) "="))
  | a :: b :: c :: rest =>
      String (base64Digit (a / 4))
        (String (base64Digit ((a mod 4) * 16 + b / 16))
           (String (base64Digit ((b mod 16) * 4 + c / 64))
              (String (base64Digit (c mod 64)) (base64Bytes rest))))
  end%N.

(** [Buffer.from(token).toString("base64")]. *)
Definition encryptToken (token : string) : string :=
  base64Bytes (map N_of_ascii (list_ascii_of_string token)).

(** ** DeviceService *)

Definition validDeviceTypes : list string :=
  [ "APPLE_HEALTH"; "GOOGLE_FIT"; "FITBIT"; "GARMIN"; "WHOOP";
    "SAMSUNG_HEALTH"; "POLAR"; "SUUNTO"; "WITHINGS"; "OURA"; "AMAZFIT";
    "HUAWEI_HEALTH" ].

Definition includes (l : list string) (s : string) : bool :=
  existsb (String.eqb s) l.

(** [token ? this.encryptToken(token) : null]. *)
Definition encryptOrNull (token : option string) : option string :=
  match token with
  | Some v => if truthy token then Some (encryptToken v) else None
  | None => None
  end.

(** [accessToken ? new Date(Date.now() + 3600000) : null]. *)
Definition expiryOrNull (now : Z) (token : option string) : option Z :=
  if truthy token then Some (now + 3600000) else None.

(** The [update] data of the upsert in [syncDeviceData] and
    [bulkSyncDeviceData]. *)
Definition summaryUpdate (now : Z) (a : ActivityData.t) (raw : RawData)
    (r : Summary.t) : Summary.t :=
  Summary.mk
    (Summary.user_id r) (Summary.device_id r) (Summary.date r)
    (Some (orZero (ActivityData.steps a)))
    (Some (orZero (ActivityData.caloriesBurned a)))
    (Some (orZero (ActivityData.activeMinutes a)))
    (Some (orZero (ActivityData.bmr a)))
    (setNullable (ActivityData.heartRate a) (Summary.heart_rate_avg r))
    (setNullable (ActivityData.weight a) (Summary.weight_kg r))
    (setNullable (ActivityData.bodyFat a) (Summary.body_fat_percentage r))
    (setNullable (ActivityData.sleepHours a) (Summary.sleep_hours r))
    (setNullable (ActivityData.distance a) (Summary.distance_km r))
    (Summary.source_device r)
    now now raw.

(** The [create] data of the same upsert. *)
Definition summaryCreate (now : Z) (user : string) (device : nat)
    (a : ActivityData.t) (raw : RawData) (source : string) (date : Z) : Summary.t :=
  Summary.mk
    user device date
    (Some (orZero (ActivityData.steps a)))
    (Some (orZero (ActivityData.caloriesBurned a)))
    (Some (orZero (ActivityData.activeMinutes a)))
    (Some (orZero (ActivityData.bmr a)))
    (ActivityData.heartRate a)
    (ActivityData.weight a)
    (ActivityData.bodyFat a)
    (ActivityData.sleepHours a)
    (ActivityData.distance a)
    source
    now now raw.

(** The data of the update that closes a sync: last sync time, status and
    update time. *)
Definition touchSynced (now : Z) (d : Device.t) : Device.t :=
  Device.mk
    (Device.connected_device_id d) (Device.user_id d) (Device.device_name d)
    (Device.device_type d) CONNECTED (Some now) (Device.is_primary_device d)
    (Device.access_token_encrypted d) (Device.refresh_token_encrypted d)
    (Device.token_expires_at d) (Device.created_at d) now.

Definition syncDeviceData (now : Z) (user_id : string) (deviceId : nat)
    (activityData : ActivityData.t) : M Summary.t :=
  tryCatch
    (device <- deviceFindFirst (ownedDevice deviceId user_id) ;;
     match device with
     | None => throw "Device not found"
     | Some device =>
         let today := utcMidnight now in
         activitySummary <-
           summaryUpsert user_id deviceId (Some today)
             (summaryUpdate now activityData (RawActivity activityData))
             (summaryCreate now user_id deviceId activityData
                (RawActivity activityData) (Device.device_name device)) ;;
         deviceUpdate deviceId (touchSynced now) ;;;
         ret activitySummary
     end)
    (fun _ => throw "Failed to sync device data").

(** What [performInitialSync] takes from its surroundings: the clock when
    it starts, the clock during the i-th iteration and the i-th sample. *)
Record SyncEnv : Type := mkSyncEnv {
  startTime : Z;
  tick : nat -> Z;
  sample : nat -> ActivityData.t
}.

(** The array [dates]: the last seven days, oldest first, each one the
    midnight that its [YYYY-MM-DD] string denotes. *)
Definition initialDates (now : Z) : list Z :=
  map (fun i => utcMidnight (now - Z.of_nat i * msPerDay))
      [6; 5; 4; 3; 2; 1; 0]%nat.

(** The loop [for (const date of dates)], counting [syncedDays]. *)
Fixpoint syncDates (env : SyncEnv) (user_id : string) (deviceId : nat)
    (i : nat) (dates : list Z) : M nat :=
  match dates with
  | [] => ret 0%nat
  | _date :: rest =>
      synced <-
        tryCatch
          (syncDeviceData (tick env i) user_id deviceId (sample env i) ;;;
           ret 1%nat)
          (fun _ => ret 0%nat) ;;
      more <- syncDates env user_id deviceId (S i) rest ;;
      ret (synced + more)%nat
  end.

Definition performInitialSync (env : SyncEnv) (user_id : string) (deviceId : nat)
    (deviceType : string) : M unit :=
  tryCatch
    (syncDates env user_id deviceId 0 (initialDates (startTime env)) ;;;
     ret tt)
    (fun _ => ret tt).

Definition connectDevice (now : Z) (env : SyncEnv) (user_id deviceType deviceName : string)
    (accessToken refreshToken : option string) : M Device.t :=
  tryCatch
    (if negb (includes validDeviceTypes deviceType)
     then throw ("Invalid device type: " ++ deviceType)%string
     else
       existingDevice <- deviceFindFirst (deviceOfType user_id deviceType) ;;
       match existingDevice with
       | Some existingDevice =>
           updatedDevice <-
             deviceUpdate (Device.connected_device_id existingDevice)
               (fun d =>
                  Device.mk
                    (Device.connected_device_id d) (Device.user_id d)
                    deviceName (Device.device_type d) CONNECTED (Some now)
                    (Device.is_primary_device d)
                    (encryptOrNull accessToken) (encryptOrNull refreshToken)
                    (expiryOrNull now accessToken)
                    (Device.created_at d) now) ;;
           performInitialSync env user_id
             (Device.connected_device_id updatedDevice) deviceType ;;;
           ret updatedDevice
       | None =>
           newDevice <-
             deviceCreate
               (fun id =>
                  Device.mk id user_id deviceName deviceType CONNECTED (Some now)
                    true
                    (encryptOrNull accessToken) (encryptOrNull refreshToken)
                    (expiryOrNull now accessToken)
                    now now) ;;
           performInitialSync env user_id
             (Device.connected_device_id newDevice) deviceType ;;;
           ret newDevice
       end)
    (fun _ => throw "Failed to connect device").

Definition disconnectDevice (now : Z) (user_id : string) (deviceId : nat) : M unit :=
  tryCatch
    (device <- deviceFindFirst (ownedDevice deviceId user_id) ;;
     match device with
     | None => throw "Device not found"
     | Some _ =>
         deviceUpdate deviceId
           (fun d =>
              Device.mk
                (Device.connected_device_id d) (Device.user_id d)
                (Device.device_name d) (Device.device_type d) DISCONNECTED
                (Device.last_sync_time d) (Device.is_primary_device d)
                None None None (Device.created_at d) now) ;;;
         ret tt
     end)
    (fun _ => throw "Failed to disconnect device").

(** [token ? this.encryptToken(token) : undefined]: [None] leaves the column. *)
Definition encryptOrSkip (token : option string) : option (option string) :=
  match token with
  | Some v => if truthy token then Some (Some (encryptToken v)) else None
  | None => None
  end.

(** [accessToken ? new Date(Date.now() + 3600000) : undefined]. *)
Definition expiryOrSkip (now : Z) (token : option string) : option (option Z) :=
  if truthy token then Some (Some (now + 3600000)) else None.

(** The [data] of [updateDeviceTokens]. *)
Definition tokenUpdate (now : Z) (accessToken refreshToken : option string)
    (d : Device.t) : Device.t :=
  Device.mk
    (Device.connected_device_id d) (Device.user_id d) (Device.device_name d)
    (Device.device_type d) (Device.connection_status d)
    (Device.last_sync_time d) (Device.is_primary_device d)
    (setField (encryptOrSkip accessToken) (Device.access_token_encrypted d))
    (setField (encryptOrSkip refreshToken) (Device.refresh_token_encrypted d))
    (setField (expiryOrSkip now accessToken) (Device.token_expires_at d))
    (Device.created_at d) now.

Definition updateDeviceTokens (now : Z) (user_id : string) (deviceId : nat)
    (accessToken refreshToken : option string) : M unit :=
  tryCatch
    (deviceUpdateMany (ownedDevice deviceId user_id)
       (tokenUpdate now accessToken refreshToken) ;;;
     ret tt)
    (fun _ => throw "Failed to update device tokens").

(** ** Balance and analytics results *)

Inductive BalanceStatus : Type :=
  | balanced
  | slight_imbalance
  | significant_imbalance.

Record DailyBalance : Type := mkDailyBalance {
  caloriesIn : double;
  caloriesOut : double;
  balance : double;
  balanceStatus : BalanceStatus
}.

Inductive Trend : Type :=
  | increasing
  | decreasing
  | stable.

Record Analytics : Type := mkAnalytics {
  an_device_id : nat;
  period_days : double;
  total_records : nat;
  avg_steps : double;
  avg_calories_burned : double;
  avg_active_minutes : double;
  steps_trend : Trend;
  calories_trend : Trend;
  daily_data : list Summary.t
}.

(** [values.reduce((sum, val) => sum + val, 0)]. *)
Definition sumOf (values : list double) : double :=
  fold_left (fun sum val => (sum + val)%D) values (numZ 0).

(** [l.length], as a number. *)
Definition lengthOf {A : Type} (l : list A) : double :=
  numZ (Z.of_nat (List.length l)).

Definition calculateTrend (values : list double) : Trend :=
  if (List.length values <? 2)%nat then stable
  else
    let firstHalf := firstn (List.length values / 2) values in
    let secondHalf := skipn (List.length values / 2) values in
    let firstAvg := (sumOf firstHalf / lengthOf firstHalf)%D in
    let secondAvg := (sumOf secondHalf / lengthOf secondHalf)%D in
    let difference := (secondAvg - firstAvg)%D in
    let threshold := (firstAvg * numQ (1 # 10))%D in
    if (difference >? threshold)%D then increasing
    else if (difference <? - threshold)%D then decreasing
    else stable.

(** [analytics.length > 0 ? Math.round(total / analytics.length) : 0]. *)
Definition roundedAverage (total : double) (rows : list Summary.t) : double :=
  if (0 <? List.length rows)%nat then mathRound (total / lengthOf rows)%D
  else numZ 0.

(** [days] is the number the caller passes (30 when the caller passes
    none).  Prisma refuses an Invalid Date in a filter. *)
Definition getDeviceAnalytics (now : Z) (user_id : string) (deviceId : nat)
    (days : double) : M Analytics :=
  tryCatch
    (let endDate := now in
     match setDate now (numZ (getDate endDate) - days)%D with
     | None => throw "Invalid value for argument gte"
     | Some startDate =>
         analytics <-
           summaryFindManyByDate
             (fun r =>
                (Summary.user_id r =? user_id)%string
                && Nat.eqb (Summary.device_id r) deviceId
                && (startDate <=? Summary.date r) && (Summary.date r <=? endDate)) ;;
         let totalSteps :=
           fold_left (fun sum day => (sum + numberOrZero (Summary.steps day))%D)
             analytics (numZ 0) in
         let totalCalories :=
           fold_left
             (fun sum day => (sum + numberOrZero (Summary.calories_burned day))%D)
             analytics (numZ 0) in
         let totalMinutes :=
           fold_left
             (fun sum day => (sum + numberOrZero (Summary.active_minutes day))%D)
             analytics (numZ 0) in
         ret (mkAnalytics deviceId days (List.length analytics)
                (roundedAverage totalSteps analytics)
                (roundedAverage totalCalories analytics)
                (roundedAverage totalMinutes analytics)
                (calculateTrend
                   (map (fun d => numberOrZero (Summary.steps d)) analytics))
                (calculateTrend
                   (map (fun d => numberOrZero (Summary.calories_burned d)) analytics))
                analytics)
     end)
    (fun _ => throw "Failed to get device analytics").

(** The three-way classification of [getDailyBalance]. *)
Definition classify (balancePercent : double) : BalanceStatus :=
  if (balancePercent <=? numQ (1 # 10))%D then balanced
  else if (balancePercent <=? numQ (25 # 100))%D then slight_imbalance
  else significant_imbalance.

Section DateParsing.

(** [new Date(s)] on a string: the epoch time, or [None] for an Invalid
    Date.  The constructor belongs to the host, so it stays abstract. *)
Variable parseDate : string -> option Z.

(** The body of the [try] around one element of the array. *)
Definition syncDay (now : Z) (user_id : string) (deviceId : nat) (device : Device.t)
    (dayData : DayData.t) : M Summary.t :=
  summaryUpsert user_id deviceId (parseDate (DayData.date dayData))
    (summaryUpdate now (DayData.data dayData) (RawDay dayData))
    (summaryCreate now user_id deviceId (DayData.data dayData)
       (RawDay dayData) (Device.device_name device)).

(** The loop [for (const dayData of activityDataArray)], pushing onto
    [results]. *)
Fixpoint syncDays (now : Z) (user_id : string) (deviceId : nat) (device : Device.t)
    (activityDataArray : list DayData.t) (results : list Summary.t)
  : M (list Summary.t) :=
  match activityDataArray with
  | [] => ret results
  | dayData :: rest =>
      results' <-
        tryCatch
          (activitySummary <- syncDay now user_id deviceId device dayData ;;
           ret (results ++ [activitySummary]))
          (fun _ => ret results) ;;
      syncDays now user_id deviceId device rest results'
  end.

Definition bulkSyncDeviceData (now : Z) (user_id : string) (deviceId : nat)
    (activityDataArray : list DayData.t) : M (list Summary.t) :=
  tryCatch
    (device <- deviceFindFirst (ownedDevice deviceId user_id) ;;
     match device with
     | None => throw "Device not found"
     | Some device =>
         results <- syncDays now user_id deviceId device activityDataArray [] ;;
         deviceUpdate deviceId (touchSynced now) ;;;
         ret results
     end)
    (fun _ => throw "Failed to bulk sync device data").

Definition getDailyBalance (user_id : string) (date : string)
  : M (option DailyBalance) :=
  tryCatch
    (match parseDate date with
     | None => throw "Invalid value for argument gte"
     | Some startDate =>
         match setDate startDate (numZ (getDate startDate) + numZ 1)%D with
         | None => throw "Invalid value for argument lt"
         | Some endDate =>
             meals <-
               mealFindMany
                 (fun m =>
                    (Meal.user_id m =? user_id)%string
                    && (startDate <=? Meal.created_at m)
                    && (Meal.created_at m <? endDate)) ;;
             let caloriesIn :=
               fold_left
                 (fun sum meal => (sum + numberOrZero (Meal.calories meal))%D)
                 meals (numZ 0) in
             activityData <-
               summaryFindLatest
                 (fun r =>
                    (Summary.user_id r =? user_id)%string
                    && (Summary.date r =? startDate)) ;;
             match activityData with
             | None => ret None
             | Some activityData =>
                 let caloriesOut :=
                   (numberOrZero (Summary.calories_burned activityData)
                    + numberOrZero (Summary.bmr_estimate activityData))%D in
                 let balance := (caloriesIn - caloriesOut)%D in
                 let balancePercent :=
                   if (caloriesOut >? numZ 0)%D
                   then (mathAbs balance / caloriesOut)%D else numZ 0 in
                 ret (Some (mkDailyBalance (mathRound caloriesIn)
                              (mathRound caloriesOut) (mathRound balance)
                              (classify balancePercent)))
             end
         end
     end)
    (fun _ => throw "Failed to calculate daily balance").

(** ** HealthKitService *)

Definition saveHealthData (now : Z) (userId : string) (deviceId : nat)
    (data : HealthKitData.t) : M Summary.t :=
  summaryUpsert userId deviceId (parseDate (HealthKitData.date data))
    (fun r =>
       Summary.mk
         (Summary.user_id r) (Summary.device_id r) (Summary.date r)
         (Some (HealthKitData.steps data))
         (Some (HealthKitData.caloriesBurned data))
         (Some (HealthKitData.activeMinutes data))
         (Summary.bmr_estimate r)
         (setNullable (HealthKitData.heartRate data) (Summary.heart_rate_avg r))
         (setNullable (HealthKitData.weight data) (Summary.weight_kg r))
         (Summary.body_fat_percentage r)
         (Summary.sleep_hours r)
         (setNullable (HealthKitData.distance data) (Summary.distance_km r))
         (Summary.source_device r)
         now now (Summary.raw_data r))
    (fun date =>
       Summary.mk userId deviceId date
         (Some (HealthKitData.steps data))
         (Some (HealthKitData.caloriesBurned data))
         (Some (HealthKitData.activeMinutes data))
         None
         (HealthKitData.heartRate data)
         (HealthKitData.weight data)
         None None
         (HealthKitData.distance data)
         "HealthKit"
         now now (RawHealthKit data)).

Definition syncWithDevice (now : Z) (userId deviceType : string)
    (deviceData : DeviceData.t) : M Device.t :=
  device <-
    deviceUpsert userId deviceType
      (touchSynced now)
      (fun id =>
         Device.mk id userId deviceType deviceType CONNECTED (Some now) true
           None None None now now) ;;
  match DeviceData.date deviceData, DeviceData.steps deviceData with
  | Some date, Some _ =>
      if truthy (Some date)
      then
        saveHealthData now userId (Device.connected_device_id device)
          (HealthKitData.mk
             (orZero (DeviceData.steps deviceData))
             (orZero (DeviceData.caloriesBurned deviceData))
             (orZero (DeviceData.activeMinutes deviceData))
             (DeviceData.heartRate deviceData)
             (DeviceData.weight deviceData)
             (DeviceData.distance deviceData)
             date) ;;;
        ret device
      else ret device
  | _, _ => ret device
  end.

End DateParsing.

(** * The remaining services *)

(** ** Credential decoding *)

(** The value of a base64 character, as the host's decoder reads it: the
    standard alphabet, and [-] and [_] for 62 and 63. *)
Definition unbase64 (c : ascii) : option N :=
  let n := N_of_ascii c in
  if ((65 <=? n) && (n <=? 90))%N then Some (n - 65)%N
  else if ((97 <=? n) && (n <=? 122))%N then Some (n - 71)%N
  else if ((48 <=? n) && (n <=? 57))%N then Some (n + 4)%N
  else if ((n =? 43) || (n =? 45))%N then Some 62%N
  else if ((n =? 47) || (n =? 95))%N then Some 63%N
  else None.

(** The six-bit values of a base64 text: characters that are none are
    skipped, and [=] ends the text. *)
Fixpoint sextets (s : string) : list N :=
  match s with
  | EmptyString => []
  | String c rest =>
      if (c =? "=")%char then []
      else
        match unbase64 c with
        | Some v => v :: sextets rest
        | None => sextets rest
        end
  end.

(** Four values give three bytes; a last group of three gives two, of two
    gives one, and a single left-over value gives none. *)
Fixpoint bytesOfSextets (values : list N) : list N :=
  match values with
  | a :: b :: c :: d :: rest =>
      (a * 4 + b / 16) :: ((b mod 16) * 16 + c / 4) :: ((c mod 4) * 64 + d)
      :: bytesOfSextets rest
  | [a; b; c] => [a * 4 + b / 16; (b mod 16) * 16 + c / 4]
  | [a; b] => [a * 4 + b / 16]
  | _ => []
  end%N.

(** [Buffer.from(encryptedToken, "base64").toString()]. *)
Definition decryptToken (encryptedToken : string) : string :=
  string_of_list_ascii (map ascii_of_N (bytesOfSextets (sextets encryptedToken))).

(** The result of [getDeviceTokens]; an absent field is [undefined]. *)
Record DeviceTokens : Type := mkDeviceTokens {
  tok_accessToken : option string;
  tok_refreshToken : option string
}.

(** [column ? this.decryptToken(column) : undefined]. *)
Definition decryptOrUndefined (column : option string) : option string :=
  match column with
  | Some v => if truthy column then Some (decryptToken v) else None
  | None => None
  end.

Definition getDeviceTokens (user_id : string) (deviceId : nat) : M DeviceTokens :=
  tryCatch
    (device <- deviceFindFirst (ownedDevice deviceId user_id) ;;
     match device with
     | None => ret (mkDeviceTokens None None)
     | Some device =>
         ret (mkDeviceTokens
                (decryptOrUndefined (Device.access_token_encrypted device))
                (decryptOrUndefined (Device.refresh_token_encrypted device)))
     end)
    (fun _ => ret (mkDeviceTokens None None)).

(** ** Listing devices and activity *)

Fixpoint insertNewest (d : Device.t) (l : list Device.t) : list Device.t :=
  match l with
  | [] => [d]
  | x :: rest =>
      if Device.created_at x <? Device.created_at d then d :: l
      else x :: insertNewest d rest
  end.

(** [orderBy: { created_at: "desc" }]. *)
Definition sortNewestFirst (l : list Device.t) : list Device.t :=
  fold_right insertNewest [] l.

Definition getUserDevices (user_id : string) : M (list Device.t) :=
  tryCatch
    (fun db =>
       (Ok (sortNewestFirst
              (filter (fun d => (Device.user_id d =? user_id)%string)
                 (connectedDevice db))),
        db))
    (fun _ => throw "Failed to fetch user devices").

Fixpoint insertLatestDate (r : Summary.t) (l : list Summary.t) : list Summary.t :=
  match l with
  | [] => [r]
  | x :: rest =>
      if Summary.date x <? Summary.date r then r :: l
      else x :: insertLatestDate r rest
  end.

(** [orderBy: { date: "desc" }]. *)
Definition sortByDateDesc (l : list Summary.t) : list Summary.t :=
  fold_right insertLatestDate [] l.

(** A ledger row with [include: { device: true }]: the device row that
    [device_id] refers to. *)
Definition withDevice (db : Db) (r : Summary.t) : Summary.t * option Device.t :=
  (r, find (isDevice (Summary.device_id r)) (connectedDevice db)).

(** The [findMany] that [getActivityData] and [getHealthDataForDateRange]
    share: the owner's rows with [gte <= date <= lte], newest date first,
    each with its device. *)
Definition summaryFindRange (user_id : string) (gte lte : option Z)
  : M (list (Summary.t * option Device.t)) :=
  fun db =>
    match gte, lte with
    | Some startDate, Some endDate =>
        (Ok (map (withDevice db)
               (sortByDateDesc
                  (filter
                     (fun r =>
                        (Summary.user_id r =? user_id)%string
                        && (startDate <=? Summary.date r)
                        && (Summary.date r <=? endDate))
                     (dailyActivitySummary db)))),
         db)
    | _, _ => (Throw "Invalid value for argument date", db)
    end.

(** The counts the sync-all route answers with. *)
Record SyncAllData : Type := mkSyncAllData {
  total_devices : nat;
  successful_syncs : nat;
  failed_syncs : nat
}.

(** A response of the router: the status and, on success, the data. *)
Inductive Response (A : Type) : Type :=
  | Json (data : A)
  | Status (code : nat) (error : string).
Arguments Json {A} data.
Arguments Status {A} code error.

(** The four fields the sync-all route sends for a device. *)
Definition syncAllPayload (a : ActivityData.t) : ActivityData.t :=
  ActivityData.mk (ActivityData.steps a) (ActivityData.caloriesBurned a)
    (ActivityData.activeMinutes a) (Some 1800%Q) None None None None None.

(** The loop [for (const device of connectedDevices)] of the sync-all
    route, returning [successCount] and [failedCount]. *)
Fixpoint syncEachDevice (env : SyncEnv) (user_id : string) (i : nat)
    (devices : list Device.t) : M (nat * nat) :=
  match devices with
  | [] => ret (0, 0)%nat
  | device :: rest =>
      counted <-
        tryCatch
          (syncDeviceData (tick env i) user_id (Device.connected_device_id device)
             (syncAllPayload (sample env i)) ;;;
           ret (1, 0)%nat)
          (fun _ => ret (0, 1)%nat) ;;
      more <- syncEachDevice env user_id (S i) rest ;;
      ret (fst counted + fst more, snd counted + snd more)%nat
  end.

Definition isConnected (d : Device.t) : bool :=
  match Device.connection_status d with
  | CONNECTED => true
  | _ => false
  end.

(** [router.post("/sync-all", ...)]. *)
Definition syncAllRoute (env : SyncEnv) (user_id : string)
  : Db -> Response SyncAllData * Db :=
  fun db =>
    match
      (devices <- getUserDevices user_id ;;
       let connectedDevices := filter isConnected devices in
       counts <- syncEachDevice env user_id 0 connectedDevices ;;
       ret (mkSyncAllData (List.length connectedDevices) (fst counts) (snd counts)))
        db
    with
    | (Ok data, db') => (Json data, db')
    | (Throw _, db') => (Status 500 "Failed to sync all devices", db')
    end.

Section MoreDateParsing.

Variable parseDate : string -> option Z.

Definition getActivityData (user_id startDate endDate : string)
  : M (list (Summary.t * option Device.t)) :=
  tryCatch
    (summaryFindRange user_id (parseDate startDate) (parseDate endDate))
    (fun _ => throw "Failed to fetch activity data").

Definition getHealthDataForDateRange (userId startDate endDate : string)
  : M (list (Summary.t * option Device.t)) :=
  summaryFindRange userId (parseDate startDate) (parseDate endDate).

End MoreDateParsing.

(** * Vocabulary of the properties *)

(** The average of a half, in the words of the analytics description: the
    values are added one after the other to a total that starts at zero,
    and the total is divided by the number of values. *)
Fixpoint totalFrom (sofar : double) (values : list double) : double :=
  match values with
  | [] => sofar
  | v :: rest => totalFrom (sofar + v)%D rest
  end.

Definition average (values : list double) : double :=
  (totalFrom (numZ 0) values / numZ (Z.of_nat (List.length values)))%D.

(** The rows of the ledger for an owner and a day. *)
Definition recordsOn (db : Db) (user_id : string) (day : Z) : list Summary.t :=
  filter
    (fun r => (Summary.user_id r =? user_id)%string && (Summary.date r =? day))
    (dailyActivitySummary db).

(** The meals of an owner over [day, day + 1), in the order of the table. *)
Definition mealsOn (db : Db) (user_id : string) (day : Z) : list Meal.t :=
  filter
    (fun m =>
       (Meal.user_id m =? user_id)%string
       && (day <=? Meal.created_at m)
       && (Meal.created_at m <? day + msPerDay))
    (meal db).

(** Their calories, added one meal after the other. *)
Fixpoint caloriesFrom (sofar : double) (meals : list Meal.t) : double :=
  match meals with
  | [] => sofar
  | m :: rest => caloriesFrom (sofar + numberOrZero (Meal.calories m))%D rest
  end.

(** The intake of an owner on a day. *)
Definition intakeOn (db : Db) (user_id : string) (day : Z) : double :=
  caloriesFrom (numZ 0) (mealsOn db user_id day).

(** Energy out of a row, as its columns are written: calories burned plus
    basal estimate. *)
Definition energyOut (r : Summary.t) : Q :=
  (orZero (Summary.calories_burned r) + orZero (Summary.bmr_estimate r))%Q.

(** Energy out of a row, as a number. *)
Definition energySpent (r : Summary.t) : double :=
  (numberOrZero (Summary.calories_burned r)
   + numberOrZero (Summary.bmr_estimate r))%D.

(** A time value from which the next day is still a [Date]. *)
Definition hasNextDay (day : Z) : Prop :=
  - maxTime <= day + msPerDay <= maxTime.

(** A host whose [Date] constructor is looked at on three strings only:
    two days of March 2024 and a string that is no date. *)
Definition knownDates (s : string) : option Z :=
  if (s =? "2024-03-10")%string then Some 1710028800000
  else if (s =? "2024-03-11")%string then Some 1710115200000
  else None.

(** An owner with one tracker, an activity row for 10 March 2024 (200 kcal
    burned, 1800 kcal basal) and two meals on that day and one the day after. *)
Definition marchDevice : Device.t :=
  Device.mk 0 "ana" "Charge 5" "FITBIT" CONNECTED (Some 1710028800000) true
    None None None 1710028800000 1710028800000.

Definition marchRow : Summary.t :=
  Summary.mk "ana" 0 1710028800000
    (Some 8000%Q) (Some 200%Q) (Some 45%Q) (Some 1800%Q)
    None None None None None "Charge 5" 1710061200000 1710061200000
    (RawActivity
       (ActivityData.mk (Some 8000%Q) (Some 200%Q) (Some 45%Q) (Some 1800%Q)
          None None None None None)).

Definition marchDb : Db :=
  mkDb [marchDevice] 1 [marchRow]
    [ Meal.mk "ana" 1710057600000 (Some 1500%Q);
      Meal.mk "ana" 1710075600000 (Some 1000%Q);
      Meal.mk "ana" 1710144000000 (Some 3000%Q) ].

(** The day after: the tracker reports an empty payload at noon, and the
    owner has eaten 3000 kcal. *)
Definition emptySyncDb : Db :=
  finalDb (syncDeviceData 1710158400000 "ana" 0 ActivityData.empty marchDb).

(** The same owner on a day with decimals: 200.8 kcal burned, 1800 kcal
    basal and one meal of 2501 kcal. *)
Definition decimalRow : Summary.t :=
  Summary.mk "ana" 0 1710028800000
    (Some 8000%Q) (Some (2008 # 10)%Q) (Some 45%Q) (Some 1800%Q)
    None None None None None "Charge 5" 1710061200000 1710061200000
    (RawActivity
       (ActivityData.mk (Some 8000%Q) (Some (2008 # 10)%Q) (Some 45%Q)
          (Some 1800%Q) None None None None None)).

Definition decimalDb : Db :=
  mkDb [marchDevice] 1 [decimalRow] [Meal.mk "ana" 1710057600000 (Some 2501%Q)].

(** The same owner on a day of deficit: 200 kcal burned, 1800 kcal basal
    and one meal of 1500 kcal. *)
Definition deficitDb : Db :=
  mkDb [marchDevice] 1 [marchRow] [Meal.mk "ana" 1710057600000 (Some 1500%Q)].

(** A tracker that reports a correction of -10 steps for each of two days. *)
Definition correction : ActivityData.t :=
  ActivityData.mk (Some (-10)%Q) None None None None None None None None.

Definition correctedDb : Db :=
  finalDb
    (bulkSyncDeviceData knownDates 1710158400000 "ana" 0
       [DayData.mk correction "2024-03-10"; DayData.mk correction "2024-03-11"]
       marchDb).

Definition tokensFramed (now : Z) (user_id : string) (deviceId : nat)
    (accessToken refreshToken : option string) (d d' : Device.t) : Prop :=
  (accessToken = None ->
   Device.access_token_encrypted d' = Device.access_token_encrypted d
   /\ Device.token_expires_at d' = Device.token_expires_at d)
  /\ (refreshToken = None ->
      Device.refresh_token_encrypted d' = Device.refresh_token_encrypted d)
  /\ (ownedDevice deviceId user_id d = true -> Device.updated_at d' = now)
  /\ (ownedDevice deviceId user_id d = false -> d' = d).

(** The upsert of [syncDeviceData] on the rows of the ledger. *)
Definition mergeToday (now : Z) (user_id : string) (deviceId : nat)
    (activityData : ActivityData.t) (source : string) (rows : list Summary.t)
  : Summary.t * list Summary.t :=
  upsertRows (summaryKey user_id deviceId (utcMidnight now))
    (summaryUpdate now activityData (RawActivity activityData))
    (summaryCreate now user_id deviceId activityData (RawActivity activityData)
       source (utcMidnight now))
    rows.

(** The row the ledger holds for a key. *)
Definition storedRecord (db : Db) (user_id : string) (deviceId : nat) (day : Z)
  : option Summary.t :=
  find (summaryKey user_id deviceId day) (dailyActivitySummary db).

(** A row with its two time columns set to [now], all else as it was. *)
Definition restamp (now : Z) (r : Summary.t) : Summary.t :=
  Summary.mk
    (Summary.user_id r) (Summary.device_id r) (Summary.date r)
    (Summary.steps r) (Summary.calories_burned r) (Summary.active_minutes r)
    (Summary.bmr_estimate r) (Summary.heart_rate_avg r) (Summary.weight_kg r)
    (Summary.body_fat_percentage r) (Summary.sleep_hours r)
    (Summary.distance_km r) (Summary.source_device r)
    now now (Summary.raw_data r).

(** An optional column of the row that was there before, if any. *)
Definition columnBefore (before : option Summary.t)
    (column : Summary.t -> option Q) : option Q :=
  match before with
  | Some r => column r
  | None => None
  end.

(** The upsert rule, column by column: the four counted columns take the
    payload's value or 0; an optional column takes the payload's value when
    it has one and otherwise stays as it was. *)
Definition mergedFrom (payload : ActivityData.t) (before : option Summary.t)
    (r : Summary.t) : Prop :=
  Summary.steps r = Some (orZero (ActivityData.steps payload))
  /\ Summary.calories_burned r = Some (orZero (ActivityData.caloriesBurned payload))
  /\ Summary.active_minutes r = Some (orZero (ActivityData.activeMinutes payload))
  /\ Summary.bmr_estimate r = Some (orZero (ActivityData.bmr payload))
  /\ Summary.heart_rate_avg r
     = setNullable (ActivityData.heartRate payload)
         (columnBefore before Summary.heart_rate_avg)
  /\ Summary.weight_kg r
     = setNullable (ActivityData.weight payload)
         (columnBefore before Summary.weight_kg)
  /\ Summary.body_fat_percentage r
     = setNullable (ActivityData.bodyFat payload)
         (columnBefore before Summary.body_fat_percentage)
  /\ Summary.sleep_hours r
     = setNullable (ActivityData.sleepHours payload)
         (columnBefore before Summary.sleep_hours)
  /\ Summary.distance_km r
     = setNullable (ActivityData.distance payload)
         (columnBefore before Summary.distance_km).

(** The database after one [syncDeviceData]. *)
Definition afterSync (now : Z) (user_id : string) (deviceId : nat)
    (payload : ActivityData.t) (db : Db) : Db :=
  finalDb (syncDeviceData now user_id deviceId payload db).

(** A payload reported at noon of 11 March 2024, and a later one without
    a heart rate. *)
Definition noonPayload : ActivityData.t :=
  ActivityData.mk (Some 6200%Q) (Some 310%Q) (Some 40%Q) (Some 1800%Q)
    (Some 72%Q) None None None (Some (31 # 10)%Q).

Definition eveningPayload : ActivityData.t :=
  ActivityData.mk (Some 9400%Q) (Some 480%Q) (Some 65%Q) (Some 1800%Q)
    None None None None None.

Definition noonDb : Db := afterSync 1710158400000 "ana" 0 noonPayload marchDb.

Definition noonAgainDb : Db := afterSync 1710158460000 "ana" 0 noonPayload noonDb.

Definition eveningDb : Db := afterSync 1710187200000 "ana" 0 eveningPayload noonDb.

(** A payload of the array fails when its date string is no date. *)
Definition mergeable (parseDate : string -> option Z) (dayData : DayData.t) : bool :=
  match parseDate (DayData.date dayData) with
  | Some _ => true
  | None => false
  end.

(** Bulk sync in the words of the orchestrator's description: the merge
    rule of one sync applied to each payload on its own, in order; a payload
    that fails is skipped; the merged rows are collected.  Returns the
    collected rows and the ledger. *)
Fixpoint mergeDays (parseDate : string -> option Z) (now : Z) (user_id : string)
    (deviceId : nat) (source : string) (payloads : list DayData.t)
    (rows : list Summary.t) : list Summary.t * list Summary.t :=
  match payloads with
  | [] => ([], rows)
  | dayData :: rest =>
      match parseDate (DayData.date dayData) with
      | None => mergeDays parseDate now user_id deviceId source rest rows
      | Some day =>
          let written :=
            upsertRows (summaryKey user_id deviceId day)
              (summaryUpdate now (DayData.data dayData) (RawDay dayData))
              (summaryCreate now user_id deviceId (DayData.data dayData)
                 (RawDay dayData) source day)
              rows in
          let merged :=
            mergeDays parseDate now user_id deviceId source rest (snd written) in
          (fst written :: fst merged, snd merged)
      end
  end.

(** What a collected row says about the payload it comes from. *)
Definition mergedDay (parseDate : string -> option Z) (user_id : string)
    (deviceId : nat) (dayData : DayData.t) (r : Summary.t) : Prop :=
  parseDate (DayData.date dayData) = Some (Summary.date r)
  /\ Summary.user_id r = user_id
  /\ Summary.device_id r = deviceId
  /\ Summary.raw_data r = RawDay dayData
  /\ exists before, mergedFrom (DayData.data dayData) before r.

(** Three payloads for the tracker of [marchDb]; the second has no date. *)
Definition threeDays : list DayData.t :=
  [ DayData.mk noonPayload "2024-03-10";
    DayData.mk eveningPayload "not-a-date";
    DayData.mk eveningPayload "2024-03-11" ].

(** The columns of a device row that no update of the services writes. *)
Definition deviceIdent (d : Device.t) : nat * string * string * bool :=
  (Device.connected_device_id d, Device.user_id d, Device.device_type d,
   Device.is_primary_device d).

(** The natural key of a ledger row. *)
Definition ledgerKey (r : Summary.t) : string * nat * Z :=
  (Summary.user_id r, Summary.device_id r, Summary.date r).

(** The writes the services perform, and their compositions: an update of
    device rows that keeps their identity, the creation of a device of a type
    the owner does not have yet, and an upsert on the ledger. *)
Inductive effect : Db -> Db -> Prop :=
  | effect_none (db : Db) : effect db db
  | effect_then (db1 db2 db3 : Db) :
      effect db1 db2 -> effect db2 db3 -> effect db1 db3
  | effect_update (db : Db) (p : Device.t -> bool) (f : Device.t -> Device.t) :
      (forall d, deviceIdent (f d) = deviceIdent d) ->
      effect db (withDevices (updateWhere p f) db)
  | effect_create (db : Db) (d : Device.t) :
      find (deviceOfType (Device.user_id d) (Device.device_type d))
        (connectedDevice db) = None ->
      effect db
        (mkDb (connectedDevice db ++ [d]) (S (nextDeviceId db))
           (dailyActivitySummary db) (meal db))
  | effect_upsert (db : Db) (user : string) (device : nat) (day : Z)
      (update : Summary.t -> Summary.t) (created : Summary.t) :
      (forall r, ledgerKey (update r) = ledgerKey r) ->
      ledgerKey created = (user, device, day) ->
      effect db
        (withSummaries
           (fun _ =>
              snd (upsertRows (summaryKey user device day) update created
                     (dailyActivitySummary db)))
           db).

(** A computation all of whose writes are of these kinds, however it ends. *)
Definition writes {A : Type} (m : M A) : Prop :=
  forall db, effect db (snd (m db)).

(** The number of devices of a type that an owner has. *)
Definition deviceCount (db : Db) (user_id deviceType : string) : nat :=
  List.length (filter (deviceOfType user_id deviceType) (connectedDevice db)).

(** At most one device per owner and type. *)
Definition registryUnique (db : Db) : Prop :=
  forall user_id deviceType, (deviceCount db user_id deviceType <= 1)%nat.

(** At most one ledger row per owner, device and day. *)
Definition ledgerUnique (db : Db) : Prop :=
  forall user_id deviceId day,
    (List.length
       (filter (summaryKey user_id deviceId day) (dailyActivitySummary db)) <= 1)%nat.

(** The identities of the device rows, in table order. *)
Definition registry (db : Db) : list (nat * string * string * bool) :=
  map deviceIdent (connectedDevice db).

Definition identOfType (user ty : string) (i : nat * string * string * bool) : bool :=
  let '(_, u, t, _) := i in ((u =? user)%string && (t =? ty)%string).

Inductive Call : Type :=
  | ConnectDevice (now : Z) (env : SyncEnv)
      (user_id deviceType deviceName : string)
      (accessToken refreshToken : option string)
  | DisconnectDevice (now : Z) (user_id : string) (deviceId : nat)
  | SyncDeviceData (now : Z) (user_id : string) (deviceId : nat)
      (activityData : ActivityData.t)
  | BulkSyncDeviceData (now : Z) (user_id : string) (deviceId : nat)
      (activityDataArray : list DayData.t)
  | UpdateDeviceTokens (now : Z) (user_id : string) (deviceId : nat)
      (accessToken refreshToken : option string)
  | SyncWithDevice (now : Z) (userId deviceType : string)
      (deviceData : DeviceData.t)
  | GetDailyBalance (user_id date : string)
  | GetDeviceAnalytics (now : Z) (user_id : string) (deviceId : nat)
      (days : double).

(** The database a call leaves behind, whether it returns or throws. *)
Definition run (parseDate : string -> option Z) (c : Call) (db : Db) : Db :=
  match c with
  | ConnectDevice now env user_id deviceType deviceName accessToken refreshToken =>
      finalDb (connectDevice now env user_id deviceType deviceName
                 accessToken refreshToken db)
  | DisconnectDevice now user_id deviceId =>
      finalDb (disconnectDevice now user_id deviceId db)
  | SyncDeviceData now user_id deviceId activityData =>
      finalDb (syncDeviceData now user_id deviceId activityData db)
  | BulkSyncDeviceData now user_id deviceId activityDataArray =>
      finalDb (bulkSyncDeviceData parseDate now user_id deviceId
                 activityDataArray db)
  | UpdateDeviceTokens now user_id deviceId accessToken refreshToken =>
      finalDb (updateDeviceTokens now user_id deviceId accessToken refreshToken db)
  | SyncWithDevice now userId deviceType deviceData =>
      finalDb (syncWithDevice parseDate now userId deviceType deviceData db)
  | GetDailyBalance user_id date =>
      finalDb (getDailyBalance parseDate user_id date db)
  | GetDeviceAnalytics now user_id deviceId days =>
      finalDb (getDeviceAnalytics now user_id deviceId days db)
  end.

Definition runAll (parseDate : string -> option Z) (calls : list Call) (db : Db) : Db :=
  fold_left (fun db c => run parseDate c db) calls db.

(** A connect on 11 March 2024 at noon: the backfill reads the clock a
    second apart in each iteration and draws a different sample each time. *)
Definition marchSample (i : nat) : ActivityData.t :=
  ActivityData.mk
    (Some (inject_Z (5000 + 100 * Z.of_nat i)))
    (Some (inject_Z (200 + 10 * Z.of_nat i)))
    (Some (inject_Z (30 + Z.of_nat i)))
    (Some 1800%Q)
    (Some (inject_Z (60 + Z.of_nat i)))
    (Some (inject_Z (70 + Z.of_nat i)))
    None None
    (Some (inject_Z (2 + Z.of_nat i))).

Definition marchEnv : SyncEnv :=
  mkSyncEnv 1710158400000
    (fun i => 1710158400000 + 1000 * Z.of_nat i)
    marchSample.

(** The database after connecting a GARMIN device to [marchDb]. *)
Definition garminDb : Db :=
  finalDb (connectDevice 1710158400000 marchEnv "ana" "GARMIN" "Forerunner"
             None None marchDb).

(** A database in which the owner's tracker holds both tokens. *)
Definition tokenDb : Db :=
  runAll knownDates
    [ConnectDevice 1710028800000 marchEnv "ana" "FITBIT" "Charge 5"
       (Some "access-1") (Some "refresh-1")]
    emptyDb.

(** ** Vocabulary of the further properties *)

(** The [data] of the update in [connectDevice]. *)
Definition reconnectData (now : Z) (deviceName : string)
    (accessToken refreshToken : option string) (d : Device.t) : Device.t :=
  Device.mk
    (Device.connected_device_id d) (Device.user_id d)
    deviceName (Device.device_type d) CONNECTED (Some now)
    (Device.is_primary_device d)
    (encryptOrNull accessToken) (encryptOrNull refreshToken)
    (expiryOrNull now accessToken)
    (Device.created_at d) now.

(** The [data] of the create in [connectDevice]. *)
Definition createdDevice (now : Z) (user_id deviceType deviceName : string)
    (accessToken refreshToken : option string) (id : nat) : Device.t :=
  Device.mk id user_id deviceName deviceType CONNECTED (Some now) true
    (encryptOrNull accessToken) (encryptOrNull refreshToken)
    (expiryOrNull now accessToken) now now.

(** The [data] of the update in [disconnectDevice]. *)
Definition disconnectData (now : Z) (d : Device.t) : Device.t :=
  Device.mk
    (Device.connected_device_id d) (Device.user_id d)
    (Device.device_name d) (Device.device_type d) DISCONNECTED
    (Device.last_sync_time d) (Device.is_primary_device d)
    None None None (Device.created_at d) now.

(** All of a device row but what the closing update of a sync writes. *)
Definition deviceCore (d : Device.t)
  : nat * string * string * string * bool
    * option string * option string * option Z * Z :=
  (Device.connected_device_id d, Device.user_id d, Device.device_name d,
   Device.device_type d, Device.is_primary_device d,
   Device.access_token_encrypted d, Device.refresh_token_encrypted d,
   Device.token_expires_at d, Device.created_at d).

(** No device row carries an id the database has yet to hand out. *)
Definition idsFresh (db : Db) : Prop :=
  Forall (fun d => (Device.connected_device_id d < nextDeviceId db)%nat)
    (connectedDevice db).

(** [token] as [getDeviceTokens] reports it after it was stored. *)
Definition reported (token : option string) : option string :=
  if truthy token then token else None.

(** A computation that, however it ends, leaves the database related to
    the one it started from. *)
Definition keeps (R : Db -> Db -> Prop) {A : Type} (m : M A) : Prop :=
  forall db, R db (snd (m db)).

(** The device rows differ at most in what the closing update of a sync
    writes, and no device was created. *)
Definition sameCore (db db' : Db) : Prop :=
  map deviceCore (connectedDevice db') = map deviceCore (connectedDevice db)
  /\ nextDeviceId db' = nextDeviceId db.

(** A ledger row as a sync at [now] with [payload] writes it, as far as
    the balance looks at it. *)
Definition writtenBy (now : Z) (user_id : string) (payload : ActivityData.t)
    (r : Summary.t) : Prop :=
  Summary.sync_timestamp r = now
  /\ Summary.user_id r = user_id
  /\ Summary.date r = utcMidnight now
  /\ Summary.calories_burned r = Some (orZero (ActivityData.caloriesBurned payload))
  /\ Summary.bmr_estimate r = Some (orZero (ActivityData.bmr payload)).

(** The energy out that a payload stands for. *)
Definition payloadEnergySpent (payload : ActivityData.t) : double :=
  (numberOrZero (ActivityData.caloriesBurned payload)
   + numberOrZero (ActivityData.bmr payload))%D.

(** What was in the database is still there: the device rows keep their
    identity and order, the ledger rows their key and order, rows are only
    ever appended, and the meals are as they were. *)
Definition extends (db db' : Db) : Prop :=
  (exists devices, registry db' = registry db ++ devices)
  /\ (exists keys,
         map ledgerKey (dailyActivitySummary db')
         = map ledgerKey (dailyActivitySummary db) ++ keys)
  /\ meal db' = meal db.

(** Device ids that are fresh stay fresh. *)
Definition keepsFresh (db db' : Db) : Prop := idsFresh db -> idsFresh db'.

(** The devices the sync-all route takes up, in its order. *)
Definition connectedDevicesOf (db : Db) (user_id : string) : list Device.t :=
  filter isConnected
    (sortNewestFirst
       (filter (fun d => (Device.user_id d =? user_id)%string)
          (connectedDevice db))).

(** How many device rows of an owner are marked CONNECTED. *)
Definition deviceCountConnected (db : Db) (user_id : string) : nat :=
  List.length
    (filter (fun d => (Device.user_id d =? user_id)%string && isConnected d)
       (connectedDevice db)).

(** The rows the analytics of a device look at: those of the owner and
    device dated from [startDate] to [now]. *)
Definition analyticsWindow (db : Db) (startDate now : Z) (user_id : string)
    (deviceId : nat) : list Summary.t :=
  filter
    (fun r =>
       (Summary.user_id r =? user_id)%string
       && Nat.eqb (Summary.device_id r) deviceId
       && (startDate <=? Summary.date r)
       && (Summary.date r <=? now))
    (dailyActivitySummary db).

(** * Properties *)

(** ** Comparisons of numbers *)

Lemma SFcompare_antisym (x y : double) (o : comparison) :
  SFcompare x y = Some o -> SFcompare y x = Some (CompOpp o).
Proof.
  destruct x as [sx|sx| |sx mx ex], y as [sy|sy| |sy my ey];
    simpl; try discriminate; intros H; injection H as <-;
    try (destruct sx; reflexivity);
    try (destruct sy; reflexivity);
    try (destruct sx, sy; reflexivity).
  destruct sx, sy; try reflexivity; f_equal;
    rewrite (Z.compare_antisym ex ey);
    destruct (ex ?= ey); simpl; try reflexivity.
  all: change (Pos.compare_cont Eq my mx)
         with (Pos.compare_cont (CompOpp Eq) my mx);
    rewrite <- (Pos.compare_cont_antisym mx my Eq); simpl;
    destruct (Pos.compare_cont Eq mx my); reflexivity.
Qed.

Lemma SFcompare_none (x y : double) :
  SFcompare x y = None -> x = S754_nan \/ y = S754_nan.
Proof.
  destruct x, y; simpl; try discriminate; auto.
Qed.

(** A number above another is not at most it. *)
Lemma fltb_not_fleb (a b : double) : (a >? b)%D = true -> (a <=? b)%D = false.
Proof.
  unfold fltb, fleb, SFltb, SFleb.
  destruct (SFcompare b a) as [o|] eqn:E; [|discriminate].
  destruct o; try discriminate. intros _.
  rewrite (SFcompare_antisym _ _ _ E). reflexivity.
Qed.

(** A number that compares, and is not at most another, is above it. *)
Lemma fleb_false_fltb (a b c : double) :
  b <> S754_nan ->
  (a <=? c)%D = true -> (a <=? b)%D = false -> (a >? b)%D = true.
Proof.
  unfold fltb, fleb, SFltb, SFleb. intros Hb Hc Hab.
  destruct (SFcompare a b) as [o|] eqn:E.
  - rewrite (SFcompare_antisym _ _ _ E).
    destruct o; try discriminate; reflexivity.
  - destruct (SFcompare_none _ _ E) as [Hnan | Hnan]; [subst a | contradiction].
    simpl in Hc. discriminate.
Qed.

(** ** Trend of a series *)

Lemma fold_totalFrom (values : list double) :
  forall sofar,
    fold_left (fun sum val => (sum + val)%D) values sofar = totalFrom sofar values.
Proof.
  induction values as [|v rest IH]; intros sofar; simpl; [reflexivity|apply IH].
Qed.

Lemma sumOf_average (values : list double) :
  (sumOf values / lengthOf values)%D = average values.
Proof.
  unfold sumOf, lengthOf, average. rewrite fold_totalFrom. reflexivity.
Qed.

(** C9. A series of fewer than two values is stable.  A longer series is
    split at [length / 2]; with the averages of the two halves, their
    difference and a tenth of the first average, all computed in binary64
    as the code computes them, the trend is increasing exactly when the
    difference is above the tenth; decreasing exactly when it is not, and
    the difference is below minus the tenth; stable exactly when neither
    holds.  The series of the description classify as stated; a series
    split 1 | 2 is averaged half by half; and two series whose difference
    is a tenth of the first average in exact arithmetic are classified by
    the rounded values. *)
Theorem calculateTrend_classification (values : list double) :
  ((List.length values < 2)%nat -> calculateTrend values = stable)
  /\ ((2 <= List.length values)%nat ->
      let firstAvg := average (firstn (List.length values / 2) values) in
      let secondAvg := average (skipn (List.length values / 2) values) in
      let difference := (secondAvg - firstAvg)%D in
      let tenth := (firstAvg * numQ (1 # 10))%D in
      (calculateTrend values = increasing <-> (difference >? tenth)%D = true)
      /\ (calculateTrend values = decreasing
          <-> (difference >? tenth)%D = false
              /\ (difference <? - tenth)%D = true)
      /\ (calculateTrend values = stable
          <-> (difference >? tenth)%D = false
              /\ (difference <? - tenth)%D = false))
  /\ calculateTrend (map numZ [1000; 1000; 1000; 2000; 2000; 2000]) = increasing
  /\ calculateTrend (map numZ [1000; 1000]) = stable
  /\ calculateTrend (map numZ [1000]) = stable
  /\ calculateTrend (map numZ [1000; 1000; 1000]) = stable
  /\ calculateTrend (map numZ [3000; 3000; 4000; 3000; 3000; 3000]) = decreasing
  /\ calculateTrend (map numZ [70; 0; 0; 77; 0; 0]) = increasing.
Proof.
  split; [|split; [|repeat split; vm_compute; reflexivity]].
  - intros Hlen. unfold calculateTrend.
    apply Nat.ltb_lt in Hlen. rewrite Hlen. reflexivity.
  - intros Hlen firstAvg secondAvg difference tenth.
    assert (Hcode :
              calculateTrend values
              = if (difference >? tenth)%D then increasing
                else if (difference <? - tenth)%D then decreasing else stable).
    { unfold calculateTrend.
      assert (Hge : (List.length values <? 2)%nat = false)
        by (apply Nat.ltb_ge; exact Hlen).
      rewrite Hge, !sumOf_average. reflexivity. }
    rewrite Hcode.
    destruct (difference >? tenth)%D; destruct (difference <? - tenth)%D;
      (split; [|split]); split;
      try discriminate; try reflexivity; try (intros [? ?]; discriminate);
      try (intros _; split; reflexivity).
Qed.

(** The classification at a series whose halves average 10000/3 and 3000. *)
Lemma calculateTrend_classification_witness :
  calculateTrend (map numZ [3000; 3000; 4000; 3000; 3000; 3000]) = decreasing.
Proof.
  destruct (calculateTrend_classification
              (map numZ [3000; 3000; 4000; 3000; 3000; 3000]))
    as [_ [Hlong _]].
  destruct Hlong as [_ [Hdown _]]; [simpl; lia|].
  apply Hdown. split; vm_compute; reflexivity.
Defined.

(** ** The analytics window *)

Lemma insertByDate_sorted (r : Summary.t) (l : list Summary.t) :
  Sorted (fun a b => Summary.date a <= Summary.date b) l ->
  Sorted (fun a b => Summary.date a <= Summary.date b) (insertByDate r l).
Proof.
  induction 1 as [|x rest Hrest IH Hhd]; simpl.
  - repeat constructor.
  - destruct (Summary.date r <? Summary.date x) eqn:E.
    + apply Z.ltb_lt in E. repeat constructor; auto; lia.
    + apply Z.ltb_ge in E. constructor; [exact IH|].
      destruct rest as [|y rest']; simpl.
      * constructor. exact E.
      * inversion Hhd; subst.
        destruct (Summary.date r <? Summary.date y); constructor; auto.
Qed.

Lemma sortByDate_sorted (l : list Summary.t) :
  Sorted (fun a b => Summary.date a <= Summary.date b) (sortByDate l).
Proof.
  unfold sortByDate. induction l as [|r rest IH]; simpl.
  - constructor.
  - apply insertByDate_sorted. exact IH.
Qed.

Lemma insertByDate_Forall (P : Summary.t -> Prop) (r : Summary.t)
    (l : list Summary.t) :
  P r -> Forall P l -> Forall P (insertByDate r l).
Proof.
  intros Hr. induction 1 as [|x rest Hx Hrest IH]; simpl.
  - repeat constructor. exact Hr.
  - destruct (Summary.date r <? Summary.date x); repeat constructor; auto.
Qed.

Lemma sortByDate_Forall (P : Summary.t -> Prop) (l : list Summary.t) :
  Forall P l -> Forall P (sortByDate l).
Proof.
  unfold sortByDate. induction 1 as [|x rest Hx Hrest IH]; simpl.
  - constructor.
  - apply insertByDate_Forall; assumption.
Qed.

(** The analytics call throws when the start of its window is no [Date];
    otherwise it returns, its rows are in date order and each trend is
    [calculateTrend] of the corresponding column of those rows. *)
Lemma getDeviceAnalytics_trends (now : Z) (user_id : string) (deviceId : nat)
    (days : double) (db : Db) :
  match setDate now (numZ (getDate now) - days)%D with
  | None =>
      getDeviceAnalytics now user_id deviceId days db
      = (Throw "Failed to get device analytics", db)
  | Some startDate =>
      exists a,
        getDeviceAnalytics now user_id deviceId days db = (Ok a, db)
        /\ Sorted (fun x y => Summary.date x <= Summary.date y) (daily_data a)
        /\ Forall (fun r => startDate <= Summary.date r <= now) (daily_data a)
        /\ steps_trend a
           = calculateTrend
               (map (fun d => numberOrZero (Summary.steps d)) (daily_data a))
        /\ calories_trend a
           = calculateTrend
               (map (fun d => numberOrZero (Summary.calories_burned d))
                  (daily_data a))
  end.
Proof.
  unfold getDeviceAnalytics, tryCatch, bind, summaryFindManyByDate, ret, throw.
  destruct (setDate now (numZ (getDate now) - days)%D) as [startDate|];
    [|reflexivity].
  eexists. split; [reflexivity|]. simpl.
  split; [apply sortByDate_sorted|].
  split; [|split; reflexivity].
  apply sortByDate_Forall. apply Forall_forall. intros r Hr.
  apply filter_In in Hr. destruct Hr as [_ Hr].
  apply andb_true_iff in Hr. destruct Hr as [Hr Hend].
  apply andb_true_iff in Hr. destruct Hr as [_ Hstart].
  apply Z.leb_le in Hstart. apply Z.leb_le in Hend. lia.
Qed.

(** A window of thirty days from noon of 11 March 2024 starts at noon of
    10 February; one of two hundred million days, or of a number of days
    that is NaN, has no start, and the call throws. *)
Lemma getDeviceAnalytics_window :
  setDate 1710158400000 (numZ (getDate 1710158400000) - numZ 30)%D
  = Some 1707566400000
  /\ getDeviceAnalytics 1710158400000 "ana" 0 (numZ 200000000) marchDb
     = (Throw "Failed to get device analytics", marchDb)
  /\ getDeviceAnalytics 1710158400000 "ana" 0 S754_nan marchDb
     = (Throw "Failed to get device analytics", marchDb).
Proof. repeat split; vm_compute; reflexivity. Qed.

(** A series of negative values, as the analytics of [correctedDb] draws
    it from the ledger: the difference of the averages is below minus a
    tenth of the first average, and the trend is increasing. *)
Lemma calculateTrend_negative_series :
  let values := map numZ [-10; -10] in
  let firstAvg := average (firstn 1 values) in
  let secondAvg := average (skipn 1 values) in
  (secondAvg - firstAvg <? - (firstAvg * numQ (1 # 10)))%D = true
  /\ calculateTrend values = increasing
  /\ exists a,
       getDeviceAnalytics 1710158400000 "ana" 0 (numZ 30) correctedDb
       = (Ok a, correctedDb)
       /\ map (fun d => numberOrZero (Summary.steps d)) (daily_data a) = values
       /\ steps_trend a = increasing.
Proof.
  split; [vm_compute; reflexivity|]. split; [vm_compute; reflexivity|].
  eexists. split; [vm_compute; reflexivity|].
  split; vm_compute; reflexivity.
Qed.

(** ** Daily balance *)

Lemma latestSynced_none (rows : list Summary.t) :
  latestSynced rows = None <-> rows = [].
Proof.
  destruct rows as [|r rest]; simpl; [tauto|].
  split; [|discriminate].
  destruct (latestSynced rest) as [r'|]; [|discriminate].
  destruct (Summary.sync_timestamp r <? Summary.sync_timestamp r'); discriminate.
Qed.

Lemma latestSynced_max (rows : list Summary.t) (r : Summary.t) :
  latestSynced rows = Some r ->
  In r rows
  /\ forall r', In r' rows -> Summary.sync_timestamp r' <= Summary.sync_timestamp r.
Proof.
  revert r. induction rows as [|x rest IH]; simpl; intros r H; [discriminate|].
  destruct (latestSynced rest) as [m|] eqn:E.
  - destruct (IH m eq_refl) as [Hin Hmax].
    destruct (Summary.sync_timestamp x <? Summary.sync_timestamp m) eqn:C;
      inversion H; subst.
    + apply Z.ltb_lt in C. split; [right; exact Hin|].
      intros r' [<-|Hr']; [lia | auto].
    + apply Z.ltb_ge in C. split; [left; reflexivity|].
      intros r' [<-|Hr']; [lia|]. specialize (Hmax r' Hr'). lia.
  - inversion H; subst. apply latestSynced_none in E. subst rest.
    split; [left; reflexivity|]. intros r' [<-|[]]. lia.
Qed.

Lemma classify_spec (p : double) :
  (classify p = balanced <-> (p <=? numQ (1 # 10))%D = true)
  /\ (classify p = slight_imbalance
      <-> (p >? numQ (1 # 10))%D = true /\ (p <=? numQ (25 # 100))%D = true)
  /\ (classify p = significant_imbalance
      <-> (p <=? numQ (1 # 10))%D = false /\ (p <=? numQ (25 # 100))%D = false).
Proof.
  unfold classify.
  destruct (p <=? numQ (1 # 10))%D eqn:E1.
  - split; [tauto|]. split; split; try discriminate.
    + intros [Habove _]. apply fltb_not_fleb in Habove. congruence.
    + intros [? _]. discriminate.
  - destruct (p <=? numQ (25 # 100))%D eqn:E2.
    + split; [split; discriminate|]. split; split; try discriminate.
      * intros _. split; [|reflexivity].
        apply (fleb_false_fltb p _ (numQ (25 # 100))); [discriminate|exact E2|exact E1].
      * intros _. reflexivity.
      * intros [_ ?]. discriminate.
    + split; [split; discriminate|]. split; split; try discriminate.
      * intros [_ ?]. discriminate.
      * intros _. split; reflexivity.
      * intros _. reflexivity.
Qed.

(** The balances of the description: 2000, 2500 and 3000 kcal in against
    2000 kcal out; and one whose ratio is 0.25 in exact arithmetic and
    above it once rounded: 2501 kcal in against 200.8 + 1800 kcal out. *)
Lemma classify_examples :
  classify (mathAbs (numZ 2000 - numZ 2000) / numZ 2000)%D = balanced
  /\ classify (mathAbs (numZ 2500 - numZ 2000) / numZ 2000)%D = slight_imbalance
  /\ classify (mathAbs (numZ 3000 - numZ 2000) / numZ 2000)%D
     = significant_imbalance
  /\ classify (mathAbs (numZ 1500 - numZ 2000) / numZ 2000)%D = slight_imbalance
  /\ classify
       (mathAbs (numZ 2501 - (numQ (2008 # 10) + numZ 1800))
        / (numQ (2008 # 10) + numZ 1800))%D
     = significant_imbalance.
Proof. repeat split; vm_compute; reflexivity. Qed.

(** ** The day after *)

Lemma dateOfCycle_range (d : Z) : 0 <= d < 146097 -> 1 <= dateOfCycle d <= 31.
Proof.
  intros H. unfold dateOfCycle. Z.div_mod_to_equations. lia.
Qed.

Lemma getDate_range (t : Z) : 1 <= getDate t <= 31.
Proof.
  unfold getDate. apply dateOfCycle_range. apply Z.mod_pos_bound. lia.
Qed.

Lemma truncate_succ (d : Z) :
  1 <= d <= 31 -> truncate (numZ d + numZ 1)%D = Some (d + 1).
Proof.
  intros H.
  assert (Hcases :
            d = 1 \/ d = 2 \/ d = 3 \/ d = 4 \/ d = 5 \/ d = 6 \/ d = 7 \/ d = 8
            \/ d = 9 \/ d = 10 \/ d = 11 \/ d = 12 \/ d = 13 \/ d = 14 \/ d = 15
            \/ d = 16 \/ d = 17 \/ d = 18 \/ d = 19 \/ d = 20 \/ d = 21 \/ d = 22
            \/ d = 23 \/ d = 24 \/ d = 25 \/ d = 26 \/ d = 27 \/ d = 28 \/ d = 29
            \/ d = 30 \/ d = 31) by lia.
  repeat (destruct Hcases as [->|Hcases]; [vm_compute; reflexivity|]).
  subst d. vm_compute. reflexivity.
Qed.

(** [d.setDate(d.getDate() + 1)] is the same time on the next day. *)
Lemma setDate_next_day (t : Z) :
  setDate t (numZ (getDate t) + numZ 1)%D = timeClip (t + msPerDay).
Proof.
  unfold setDate. rewrite (truncate_succ _ (getDate_range t)).
  f_equal. unfold msPerDay. Z.div_mod_to_equations. lia.
Qed.

Lemma timeClip_valid (t : Z) : - maxTime <= t <= maxTime -> timeClip t = Some t.
Proof.
  intros [Hlo Hhi]. unfold timeClip.
  apply Z.leb_le in Hlo. apply Z.leb_le in Hhi. rewrite Hlo, Hhi. reflexivity.
Qed.

Lemma timeClip_invalid (t : Z) : ~ - maxTime <= t <= maxTime -> timeClip t = None.
Proof.
  intros H. unfold timeClip.
  destruct (- maxTime <=? t) eqn:Hlo; [|reflexivity].
  destruct (t <=? maxTime) eqn:Hhi; [|reflexivity].
  apply Z.leb_le in Hlo. apply Z.leb_le in Hhi. exfalso. apply H. lia.
Qed.

Lemma fold_caloriesFrom (meals : list Meal.t) :
  forall sofar,
    fold_left (fun sum meal => (sum + numberOrZero (Meal.calories meal))%D)
      meals sofar
    = caloriesFrom sofar meals.
Proof.
  induction meals as [|m rest IH]; intros sofar; simpl; [reflexivity|apply IH].
Qed.

(** What the balance returns once a row has been picked. *)
Lemma getDailyBalance_found (parseDate : string -> option Z) (db : Db)
    (user_id date : string) (day : Z) (r : Summary.t) :
  parseDate date = Some day ->
  hasNextDay day ->
  latestSynced (recordsOn db user_id day) = Some r ->
  getDailyBalance parseDate user_id date db
  = (Ok (Some (mkDailyBalance
                 (mathRound (intakeOn db user_id day))
                 (mathRound (energySpent r))
                 (mathRound (intakeOn db user_id day - energySpent r)%D)
                 (classify
                    (if (energySpent r >? numZ 0)%D
                     then (mathAbs (intakeOn db user_id day - energySpent r)
                           / energySpent r)%D
                     else numZ 0)))),
     db).
Proof.
  intros Hdate Hnext Hrow.
  unfold getDailyBalance, tryCatch, bind, mealFindMany, summaryFindLatest, ret.
  rewrite Hdate, setDate_next_day, (timeClip_valid _ Hnext).
  fold (recordsOn db user_id day). rewrite Hrow.
  rewrite fold_caloriesFrom. reflexivity.
Qed.

(** A date whose next day is no [Date] has no balance: the call throws. *)
Lemma getDailyBalance_last_day (parseDate : string -> option Z) (db : Db)
    (user_id date : string) (day : Z) :
  parseDate date = Some day ->
  ~ hasNextDay day ->
  getDailyBalance parseDate user_id date db
  = (Throw "Failed to calculate daily balance", db).
Proof.
  intros Hdate Hnext.
  unfold getDailyBalance, tryCatch, throw.
  rewrite Hdate, setDate_next_day, (timeClip_invalid _ Hnext). reflexivity.
Qed.



(** The balance on [marchDb]: 2500 kcal in, 2000 kcal out. *)
Lemma getDailyBalance_march :
  getDailyBalance knownDates "ana" "2024-03-10" marchDb
  = (Ok (Some (mkDailyBalance (numZ 2500) (numZ 2000) (numZ 500)
                 slight_imbalance)),
     marchDb).
Proof. vm_compute. reflexivity. Qed.

(** Whatever the intake, a picked row without positive energy out is
    reported as balanced. *)
Lemma getDailyBalance_no_energy_out (parseDate : string -> option Z) (db : Db)
    (user_id date : string) (day : Z) (r : Summary.t) :
  parseDate date = Some day ->
  hasNextDay day ->
  latestSynced (recordsOn db user_id day) = Some r ->
  (energySpent r >? numZ 0)%D = false ->
  exists b,
    getDailyBalance parseDate user_id date db = (Ok (Some b), db)
    /\ balanceStatus b = balanced.
Proof.
  intros Hdate Hnext Hrow Hout.
  rewrite (getDailyBalance_found parseDate db user_id date day r Hdate Hnext Hrow).
  rewrite Hout. eexists. split; reflexivity.
Qed.

(** C2. On [emptySyncDb] a row exists for 11 March whose calories burned
    and basal estimate are both 0; the balance of that day is returned as
    balanced, with 3000 kcal in and 0 kcal out. *)
Theorem getDailyBalance_zero_energy_out :
  (exists r,
      latestSynced (recordsOn emptySyncDb "ana" 1710115200000) = Some r
      /\ (energyOut r == 0)%Q)
  /\ getDailyBalance knownDates "ana" "2024-03-11" emptySyncDb
     = (Ok (Some (mkDailyBalance (numZ 3000) (numZ 0) (numZ 3000) balanced)),
        emptySyncDb).
Proof.
  split.
  - eexists. split; [vm_compute; reflexivity|]. vm_compute. reflexivity.
  - vm_compute. reflexivity.
Qed.

(** ** Credentials *)

Lemma Forall2_map_self {A : Type} (R : A -> A -> Prop) (g : A -> A) (l : list A) :
  (forall x, R x (g x)) -> Forall2 R l (map g l).
Proof.
  intros H. induction l as [|x rest IH]; simpl; constructor; auto.
Qed.

(** What [tokenUpdate] keeps of a row when an argument is falsy. *)
Lemma tokenUpdate_keeps (now : Z) (accessToken refreshToken : option string)
    (d : Device.t) :
  (truthy accessToken = false ->
   Device.access_token_encrypted (tokenUpdate now accessToken refreshToken d)
   = Device.access_token_encrypted d
   /\ Device.token_expires_at (tokenUpdate now accessToken refreshToken d)
      = Device.token_expires_at d)
  /\ (truthy refreshToken = false ->
      Device.refresh_token_encrypted (tokenUpdate now accessToken refreshToken d)
      = Device.refresh_token_encrypted d).
Proof.
  unfold tokenUpdate, encryptOrSkip, expiryOrSkip; simpl. split.
  - intros H. rewrite H. destruct accessToken; split; reflexivity.
  - intros H. rewrite H. destruct refreshToken; reflexivity.
Qed.

(** C10. [updateDeviceTokens] returns, touches only the device table, and
    row by row: without an access token the stored access token and the
    expiry stay as they were; without a refresh token the stored refresh
    token stays as it was; the update time of the addressed row becomes
    [now]; every other row is untouched. *)
Theorem updateDeviceTokens_frame (now : Z) (user_id : string) (deviceId : nat)
    (accessToken refreshToken : option string) (db : Db) :
  exists db',
    updateDeviceTokens now user_id deviceId accessToken refreshToken db
    = (Ok tt, db')
    /\ dailyActivitySummary db' = dailyActivitySummary db
    /\ meal db' = meal db
    /\ Forall2 (tokensFramed now user_id deviceId accessToken refreshToken)
         (connectedDevice db) (connectedDevice db').
Proof.
  unfold updateDeviceTokens, tryCatch, bind, deviceUpdateMany, ret.
  eexists. split; [reflexivity|]. simpl.
  split; [reflexivity|]. split; [reflexivity|].
  unfold updateWhere. apply Forall2_map_self. intros d.
  unfold tokensFramed.
  destruct (ownedDevice deviceId user_id d) eqn:E.
  - destruct (tokenUpdate_keeps now accessToken refreshToken d) as [Ha Hr].
    split; [intros ->; apply Ha; reflexivity|].
    split; [intros ->; apply Hr; reflexivity|].
    split; [reflexivity | discriminate].
  - repeat split; auto. discriminate.
Qed.

(** A new refresh token alone on [tokenDb]. *)
Lemma updateDeviceTokens_frame_witness :
  exists db',
    updateDeviceTokens 1710200000000 "ana" 0 None (Some "refresh-2") tokenDb
    = (Ok tt, db')
    /\ map Device.access_token_encrypted (connectedDevice db')
       = [Some (encryptToken "access-1")]
    /\ map Device.token_expires_at (connectedDevice db')
       = map Device.token_expires_at (connectedDevice tokenDb)
    /\ map Device.refresh_token_encrypted (connectedDevice db')
       = [Some (encryptToken "refresh-2")].
Proof.
  destruct (updateDeviceTokens_frame 1710200000000 "ana" 0 None
              (Some "refresh-2") tokenDb) as [db' [Hcall _]].
  exists db'. split; [exact Hcall|].
  assert (Hdb : db' = snd (updateDeviceTokens 1710200000000 "ana" 0 None
                             (Some "refresh-2") tokenDb))
    by (rewrite Hcall; reflexivity).
  rewrite Hdb. repeat split; vm_compute; reflexivity.
Defined.

(** ** Lists of rows *)

Lemma find_none_filter {A : Type} (p : A -> bool) (l : list A) :
  find p l = None <-> filter p l = [].
Proof.
  induction l as [|x rest IH]; simpl; [tauto|].
  destruct (p x); [split; discriminate | exact IH].
Qed.

Lemma find_some_filter {A : Type} (p : A -> bool) (l : list A) (x : A) :
  find p l = Some x -> exists rest, filter p l = x :: rest.
Proof.
  induction l as [|y l' IH]; simpl; [discriminate|].
  destruct (p y).
  - intros H; inversion H; subst. eexists; reflexivity.
  - exact IH.
Qed.

Lemma find_weaken {A : Type} (p q : A -> bool) (l : list A) (x : A) :
  (forall y, p y = true -> q y = true) ->
  find p l = Some x -> exists z, find q l = Some z.
Proof.
  intros Hpq. induction l as [|y l' IH]; simpl; [discriminate|].
  destruct (p y) eqn:E.
  - intros _. rewrite (Hpq y E). eexists; reflexivity.
  - intros H. destruct (q y); [eexists; reflexivity | auto].
Qed.

Lemma updateWhere_none {A : Type} (p : A -> bool) (f : A -> A) (l : list A) :
  filter p l = [] -> updateWhere p f l = l.
Proof.
  unfold updateWhere. induction l as [|x rest IH]; simpl; [reflexivity|].
  destruct (p x); [discriminate|]. intros H. rewrite IH; auto.
Qed.

Lemma updateWhere_app {A : Type} (p : A -> bool) (f : A -> A) (l l' : list A) :
  updateWhere p f (l ++ l') = updateWhere p f l ++ updateWhere p f l'.
Proof. unfold updateWhere. apply map_app. Qed.

Lemma filter_updateWhere {A : Type} (p q : A -> bool) (f : A -> A) (l : list A) :
  (forall x, p (f x) = p x) ->
  filter p (updateWhere q f l) = updateWhere q f (filter p l).
Proof.
  intros Hp. unfold updateWhere. induction l as [|x rest IH]; simpl; [reflexivity|].
  destruct (q x) eqn:Eq.
  - rewrite Hp. destruct (p x); simpl; [rewrite Eq|]; rewrite IH; reflexivity.
  - destruct (p x); simpl; [rewrite Eq|]; rewrite IH; reflexivity.
Qed.

Lemma find_updateWhere {A : Type} (p q : A -> bool) (f : A -> A) (l : list A) :
  (forall x, p (f x) = p x) ->
  find p (updateWhere q f l)
  = option_map (fun x => if q x then f x else x) (find p l).
Proof.
  intros Hp. unfold updateWhere. induction l as [|x rest IH]; simpl; [reflexivity|].
  destruct (q x) eqn:Eq.
  - rewrite Hp. destruct (p x); simpl; [rewrite Eq; reflexivity | exact IH].
  - destruct (p x); simpl; [rewrite Eq; reflexivity | exact IH].
Qed.

Lemma updateWhere_twice {A : Type} (p : A -> bool) (f g : A -> A) (l : list A) :
  (forall x, p (f x) = p x) ->
  updateWhere p g (updateWhere p f l) = updateWhere p (fun x => g (f x)) l.
Proof.
  intros Hp. unfold updateWhere. rewrite map_map. apply map_ext.
  intros x. destruct (p x) eqn:E; [rewrite Hp, E | rewrite E]; reflexivity.
Qed.

Lemma length_updateWhere {A : Type} (p : A -> bool) (f : A -> A) (l : list A) :
  List.length (updateWhere p f l) = List.length l.
Proof. unfold updateWhere. apply length_map. Qed.

(** ** One sync *)

Lemma syncDeviceData_owned (now : Z) (user_id : string) (deviceId : nat)
    (activityData : ActivityData.t) (db : Db) (device : Device.t) :
  find (ownedDevice deviceId user_id) (connectedDevice db) = Some device ->
  syncDeviceData now user_id deviceId activityData db
  = (Ok (fst (mergeToday now user_id deviceId activityData
                (Device.device_name device) (dailyActivitySummary db))),
     mkDb (updateWhere (isDevice deviceId) (touchSynced now) (connectedDevice db))
       (nextDeviceId db)
       (snd (mergeToday now user_id deviceId activityData
               (Device.device_name device) (dailyActivitySummary db)))
       (meal db)).
Proof.
  intros Hfound.
  destruct (find_weaken (ownedDevice deviceId user_id) (isDevice deviceId)
              (connectedDevice db) device) as [d Hd]; auto.
  { intros y. unfold ownedDevice. rewrite andb_true_iff. tauto. }
  unfold syncDeviceData, tryCatch, bind, deviceFindFirst, summaryUpsert,
    deviceUpdate, ret.
  rewrite Hfound. simpl. rewrite Hd. reflexivity.
Qed.

Lemma syncDeviceData_unowned (now : Z) (user_id : string) (deviceId : nat)
    (activityData : ActivityData.t) (db : Db) :
  find (ownedDevice deviceId user_id) (connectedDevice db) = None ->
  syncDeviceData now user_id deviceId activityData db
  = (Throw "Failed to sync device data", db).
Proof.
  intros Hnone.
  unfold syncDeviceData, tryCatch, bind, deviceFindFirst, throw.
  rewrite Hnone. reflexivity.
Qed.

Lemma ownedDevice_touchSynced (now : Z) (deviceId : nat) (user_id : string)
    (d : Device.t) :
  ownedDevice deviceId user_id (touchSynced now d) = ownedDevice deviceId user_id d.
Proof. reflexivity. Qed.

(** A device that was found is found again after a sync, under the same name. *)
Lemma find_owned_touched (now : Z) (id deviceId : nat) (user_id : string)
    (l : list Device.t) (device : Device.t) :
  find (ownedDevice deviceId user_id) l = Some device ->
  exists device',
    find (ownedDevice deviceId user_id)
      (updateWhere (isDevice id) (touchSynced now) l) = Some device'
    /\ Device.device_name device' = Device.device_name device.
Proof.
  intros H. rewrite find_updateWhere by (intros; apply ownedDevice_touchSynced).
  rewrite H. simpl. eexists. split; [reflexivity|].
  destruct (isDevice id device); reflexivity.
Qed.

Lemma setNullable_again {A : Type} (arg old : option A) :
  setNullable arg (setNullable arg old) = setNullable arg old.
Proof. destruct arg; reflexivity. Qed.

Lemma setNullable_same {A : Type} (arg : option A) :
  setNullable arg arg = arg.
Proof. destruct arg; reflexivity. Qed.

Lemma setNullable_none {A : Type} (arg : option A) :
  setNullable arg None = arg.
Proof. destruct arg; reflexivity. Qed.

Lemma summaryKey_update (user : string) (device : nat) (day now : Z)
    (a : ActivityData.t) (raw : RawData) (r : Summary.t) :
  summaryKey user device day (summaryUpdate now a raw r) = summaryKey user device day r.
Proof. reflexivity. Qed.

Lemma summaryKey_create (user : string) (device : nat) (day now : Z)
    (a : ActivityData.t) (raw : RawData) (source : string) :
  summaryKey user device day (summaryCreate now user device a raw source day) = true.
Proof.
  unfold summaryKey, summaryCreate; simpl.
  rewrite String.eqb_refl, Nat.eqb_refl, Z.eqb_refl. reflexivity.
Qed.

Lemma summaryUpdate_again (now1 now2 : Z) (a : ActivityData.t) (raw : RawData)
    (r : Summary.t) :
  summaryUpdate now2 a raw (summaryUpdate now1 a raw r)
  = restamp now2 (summaryUpdate now1 a raw r).
Proof.
  unfold summaryUpdate, restamp; simpl.
  rewrite !setNullable_again. reflexivity.
Qed.

Lemma summaryUpdate_created (now1 now2 : Z) (user : string) (device : nat)
    (a : ActivityData.t) (raw : RawData) (source : string) (day : Z) :
  summaryUpdate now2 a raw (summaryCreate now1 user device a raw source day)
  = restamp now2 (summaryCreate now1 user device a raw source day).
Proof.
  unfold summaryUpdate, summaryCreate, restamp; simpl.
  rewrite !setNullable_same. reflexivity.
Qed.

Lemma find_app_last {A : Type} (p : A -> bool) (l : list A) (x : A) :
  find p l = None -> p x = true -> find p (l ++ [x]) = Some x.
Proof.
  intros Hl Hx. induction l as [|y rest IH]; simpl in *.
  - rewrite Hx. reflexivity.
  - destruct (p y); [discriminate | auto].
Qed.

Lemma updateWhere_ext_on {A : Type} (p : A -> bool) (f g : A -> A) (l : list A) :
  (forall x, In x l -> p x = true -> f x = g x) ->
  updateWhere p f l = updateWhere p g l.
Proof.
  intros H. unfold updateWhere. apply map_ext_in.
  intros x Hx. destruct (p x) eqn:E; auto.
Qed.

(** A second upsert on the same key finds the row the first one wrote; if
    its update agrees with [g] on what the first one writes, it acts as [g]. *)
Lemma upsertRows_again {A : Type} (key : A -> bool) (update1 update2 g : A -> A)
    (created1 created2 : A) (rows : list A) :
  (forall x, key (update1 x) = key x) ->
  key created1 = true ->
  (forall x, update2 (update1 x) = g (update1 x)) ->
  update2 created1 = g created1 ->
  let written := upsertRows key update1 created1 rows in
  find key (snd written) = Some (fst written)
  /\ upsertRows key update2 created2 (snd written)
     = (g (fst written), updateWhere key g (snd written)).
Proof.
  intros Hkey Hcreated Hupd Hcre written.
  assert (Hfind : find key (snd written) = Some (fst written)).
  { unfold written, upsertRows.
    destruct (find key rows) as [r|] eqn:E; simpl.
    - rewrite find_updateWhere by exact Hkey. rewrite E. simpl.
      apply find_some in E. destruct E as [_ E]. rewrite E. reflexivity.
    - apply find_app_last; assumption. }
  split; [exact Hfind|].
  unfold upsertRows at 1. rewrite Hfind.
  unfold written, upsertRows.
  destruct (find key rows) as [r|] eqn:E; simpl.
  - rewrite Hupd. f_equal.
    rewrite !updateWhere_twice by exact Hkey.
    apply updateWhere_ext_on. intros x _ _. apply Hupd.
  - rewrite Hcre. f_equal.
    rewrite !updateWhere_app. apply find_none_filter in E.
    rewrite !(updateWhere_none key _ rows E).
    unfold updateWhere; simpl. rewrite Hcreated, Hcre. reflexivity.
Qed.

Lemma upsertRows_single {A : Type} (key : A -> bool) (update : A -> A)
    (created : A) (rows : list A) :
  (forall x, key (update x) = key x) ->
  key created = true ->
  (List.length (filter key rows) <= 1)%nat ->
  filter key (snd (upsertRows key update created rows))
  = [fst (upsertRows key update created rows)].
Proof.
  intros Hkey Hcreated Hone. unfold upsertRows.
  destruct (find key rows) as [r|] eqn:E; simpl.
  - rewrite filter_updateWhere by exact Hkey.
    destruct (find_some_filter key rows r E) as [rest Hrest].
    rewrite Hrest in *. destruct rest; [|simpl in Hone; lia].
    apply find_some in E. destruct E as [_ E].
    unfold updateWhere; simpl. rewrite E. reflexivity.
  - rewrite filter_app. apply find_none_filter in E. rewrite E.
    simpl. rewrite Hcreated. reflexivity.
Qed.

Lemma mergeToday_mergedFrom (now : Z) (user_id : string) (deviceId : nat)
    (payload : ActivityData.t) (source : string) (rows : list Summary.t) :
  mergedFrom payload (find (summaryKey user_id deviceId (utcMidnight now)) rows)
    (fst (mergeToday now user_id deviceId payload source rows)).
Proof.
  unfold mergeToday, upsertRows, mergedFrom.
  destruct (find (summaryKey user_id deviceId (utcMidnight now)) rows); simpl;
    rewrite ?setNullable_none; repeat split; reflexivity.
Qed.

Section TwoSyncs.

Variables (now1 now2 : Z) (user_id : string) (deviceId : nat).
Variables (P1 P2 : ActivityData.t) (db : Db) (device : Device.t).

Hypothesis Hfound :
  find (ownedDevice deviceId user_id) (connectedDevice db) = Some device.
Hypothesis Hday : utcMidnight now2 = utcMidnight now1.

(** Two syncs on one day: the second acts on the ledger left by the
    first as any [g] that agrees with its update on the rows the first
    one writes. *)
Lemma syncDeviceData_twice_as (g : Summary.t -> Summary.t) :
  (forall x,
      summaryUpdate now2 P2 (RawActivity P2)
        (summaryUpdate now1 P1 (RawActivity P1) x)
      = g (summaryUpdate now1 P1 (RawActivity P1) x)) ->
  (forall source,
      summaryUpdate now2 P2 (RawActivity P2)
        (summaryCreate now1 user_id deviceId P1 (RawActivity P1) source
           (utcMidnight now1))
      = g (summaryCreate now1 user_id deviceId P1 (RawActivity P1) source
             (utcMidnight now1))) ->
  exists r1,
    syncDeviceData now1 user_id deviceId P1 db
    = (Ok r1, afterSync now1 user_id deviceId P1 db)
    /\ r1 = fst (mergeToday now1 user_id deviceId P1 (Device.device_name device)
                   (dailyActivitySummary db))
    /\ dailyActivitySummary (afterSync now1 user_id deviceId P1 db)
       = snd (mergeToday now1 user_id deviceId P1 (Device.device_name device)
                (dailyActivitySummary db))
    /\ storedRecord (afterSync now1 user_id deviceId P1 db)
         user_id deviceId (utcMidnight now1) = Some r1
    /\ syncDeviceData now2 user_id deviceId P2 (afterSync now1 user_id deviceId P1 db)
       = (Ok (g r1),
          afterSync now2 user_id deviceId P2 (afterSync now1 user_id deviceId P1 db))
    /\ dailyActivitySummary
         (afterSync now2 user_id deviceId P2 (afterSync now1 user_id deviceId P1 db))
       = updateWhere (summaryKey user_id deviceId (utcMidnight now1)) g
           (dailyActivitySummary (afterSync now1 user_id deviceId P1 db)).
Proof.
  intros Hupd Hcre.
  unfold afterSync, storedRecord.
  rewrite (syncDeviceData_owned now1 user_id deviceId P1 db device Hfound).
  destruct (find_owned_touched now1 deviceId deviceId user_id
              (connectedDevice db) device Hfound) as [device' [Hfound' Hname]].
  unfold finalDb; simpl.
  erewrite (syncDeviceData_owned now2 user_id deviceId P2 _ device')
    by (simpl; exact Hfound').
  simpl. rewrite Hname. unfold mergeToday. rewrite Hday.
  destruct (upsertRows_again
              (summaryKey user_id deviceId (utcMidnight now1))
              (summaryUpdate now1 P1 (RawActivity P1))
              (summaryUpdate now2 P2 (RawActivity P2)) g
              (summaryCreate now1 user_id deviceId P1 (RawActivity P1)
                 (Device.device_name device) (utcMidnight now1))
              (summaryCreate now2 user_id deviceId P2 (RawActivity P2)
                 (Device.device_name device) (utcMidnight now1))
              (dailyActivitySummary db)) as [Hstored Hsecond].
  - intros x. apply summaryKey_update.
  - apply summaryKey_create.
  - exact Hupd.
  - apply Hcre.
  - eexists. split; [reflexivity|]. split; [reflexivity|].
    split; [reflexivity|]. split; [exact Hstored|].
    rewrite Hsecond. simpl. split; reflexivity.
Qed.

End TwoSyncs.

(** C5. Two syncs of one payload by the device's owner on one day: the
    row stored after the second call is the row stored after the first one
    with its sync and update times set to the time of the second call, every
    other column as it was; the rest of the ledger is untouched. *)
Theorem syncDeviceData_twice_restamps (now1 now2 : Z) (user_id : string)
    (deviceId : nat) (payload : ActivityData.t) (db : Db) (device : Device.t)
    (Hfound : find (ownedDevice deviceId user_id) (connectedDevice db) = Some device)
    (Hday : utcMidnight now2 = utcMidnight now1) :
  exists r1,
    storedRecord (afterSync now1 user_id deviceId payload db)
      user_id deviceId (utcMidnight now1) = Some r1
    /\ storedRecord
         (afterSync now2 user_id deviceId payload
            (afterSync now1 user_id deviceId payload db))
         user_id deviceId (utcMidnight now1) = Some (restamp now2 r1)
    /\ dailyActivitySummary
         (afterSync now2 user_id deviceId payload
            (afterSync now1 user_id deviceId payload db))
       = updateWhere (summaryKey user_id deviceId (utcMidnight now1))
           (restamp now2)
           (dailyActivitySummary (afterSync now1 user_id deviceId payload db)).
Proof.
  destruct (syncDeviceData_twice_as now1 now2 user_id deviceId payload payload
              db device Hfound Hday (restamp now2))
    as [r1 [_ [_ [_ [Hstored [_ Hledger]]]]]].
  - intros x. apply summaryUpdate_again.
  - intros source. apply summaryUpdate_created.
  - exists r1. split; [exact Hstored|]. split; [|exact Hledger].
    unfold storedRecord in *. rewrite Hledger.
    rewrite find_updateWhere by reflexivity.
    rewrite Hstored. simpl.
    apply find_some in Hstored. destruct Hstored as [_ Hkey].
    rewrite Hkey. reflexivity.
Qed.

(** The same payload a minute later on [marchDb]. *)
Lemma syncDeviceData_twice_restamps_witness :
  storedRecord noonAgainDb "ana" 0 1710115200000
  = option_map (restamp 1710158460000)
      (storedRecord noonDb "ana" 0 1710115200000).
Proof.
  destruct (syncDeviceData_twice_restamps 1710158400000 1710158460000 "ana" 0
              noonPayload marchDb marchDevice eq_refl eq_refl)
    as [r1 [Hfirst [Hsecond _]]].
  change (utcMidnight 1710158400000) with 1710115200000 in Hfirst, Hsecond.
  unfold noonAgainDb, noonDb. rewrite Hsecond, Hfirst. reflexivity.
Defined.

(** The same payload a minute later: the stored row is not what it was. *)
Lemma syncDeviceData_twice_changes_record :
  find (ownedDevice 0 "ana") (connectedDevice marchDb) = Some marchDevice
  /\ utcMidnight 1710158460000 = utcMidnight 1710158400000
  /\ storedRecord noonAgainDb "ana" 0 (utcMidnight 1710158400000)
     <> storedRecord noonDb "ana" 0 (utcMidnight 1710158400000).
Proof.
  split; [reflexivity|]. split; [reflexivity|].
  intros H. vm_compute in H. discriminate H.
Qed.

(** C6. Two syncs by the device's owner on one day, on a ledger with at
    most one row for the key: afterwards the key has exactly one row.  Its
    steps, calories burned, active minutes and basal estimate are those of
    the second payload, 0 where it has none.  Each optional column (heart
    rate, weight, body fat, sleep, distance) is the second payload's value
    where it has one, and otherwise what the first sync left there. *)
Theorem syncDeviceData_last_write (now1 now2 : Z) (user_id : string)
    (deviceId : nat) (P1 P2 : ActivityData.t) (db : Db) (device : Device.t)
    (Hfound : find (ownedDevice deviceId user_id) (connectedDevice db) = Some device)
    (Hday : utcMidnight now2 = utcMidnight now1)
    (Hunique :
       (List.length
          (filter (summaryKey user_id deviceId (utcMidnight now1))
             (dailyActivitySummary db)) <= 1)%nat) :
  exists r1 r2,
    storedRecord (afterSync now1 user_id deviceId P1 db)
      user_id deviceId (utcMidnight now1) = Some r1
    /\ mergedFrom P1 (storedRecord db user_id deviceId (utcMidnight now1)) r1
    /\ filter (summaryKey user_id deviceId (utcMidnight now1))
         (dailyActivitySummary
            (afterSync now2 user_id deviceId P2
               (afterSync now1 user_id deviceId P1 db)))
       = [r2]
    /\ mergedFrom P2 (Some r1) r2.
Proof.
  destruct (syncDeviceData_twice_as now1 now2 user_id deviceId P1 P2
              db device Hfound Hday (summaryUpdate now2 P2 (RawActivity P2)))
    as [r1 [_ [Hr1 [Hrows1 [Hstored [_ Hledger]]]]]]; try reflexivity.
  exists r1, (summaryUpdate now2 P2 (RawActivity P2) r1).
  split; [exact Hstored|]. split; [|split].
  - rewrite Hr1. apply mergeToday_mergedFrom.
  - rewrite Hledger, filter_updateWhere by reflexivity.
    rewrite Hrows1, Hr1. unfold mergeToday.
    rewrite upsertRows_single;
      [| reflexivity | apply summaryKey_create | exact Hunique].
    unfold updateWhere; simpl.
    match goal with
    | |- (if ?c then _ else _) :: _ = _ =>
        assert (Hkey : c = true); [|rewrite Hkey; reflexivity]
    end.
    unfold upsertRows.
    destruct (find (summaryKey user_id deviceId (utcMidnight now1))
                (dailyActivitySummary db)) eqn:E; simpl.
    + apply find_some in E. destruct E as [_ E]. exact E.
    + apply summaryKey_create.
  - unfold mergedFrom; simpl. repeat split; reflexivity.
Qed.

Lemma syncDeviceData_last_write_witness :
  exists r2,
    filter (summaryKey "ana" 0 1710115200000) (dailyActivitySummary eveningDb) = [r2]
    /\ Summary.steps r2 = Some 9400%Q
    /\ Summary.heart_rate_avg r2 = Some 72%Q.
Proof.
  assert (Hunique :
            (List.length
               (filter (summaryKey "ana" 0 (utcMidnight 1710158400000))
                  (dailyActivitySummary marchDb)) <= 1)%nat)
    by (vm_compute; lia).
  destruct (syncDeviceData_last_write 1710158400000 1710187200000 "ana" 0
              noonPayload eveningPayload marchDb marchDevice eq_refl eq_refl
              Hunique)
    as [r1 [r2 [Hr1 [Hm1 [Hrow Hm2]]]]].
  exists r2. split; [exact Hrow|].
  destruct Hm2 as [Hsteps [_ [_ [_ [Hheart _]]]]].
  destruct Hm1 as [_ [_ [_ [_ [Hheart1 _]]]]].
  split; [exact Hsteps|].
  rewrite Hheart. simpl. rewrite Hheart1. reflexivity.
Defined.

(** A heart rate synced at noon survives an evening payload without one:
    the stored column is not the second payload's. *)
Lemma syncDeviceData_keeps_omitted :
  exists r,
    storedRecord eveningDb "ana" 0 (utcMidnight 1710187200000) = Some r
    /\ ActivityData.heartRate eveningPayload = None
    /\ Summary.heart_rate_avg r = Some 72%Q
    /\ Summary.heart_rate_avg r <> ActivityData.heartRate eveningPayload.
Proof.
  eexists. split; [vm_compute; reflexivity|].
  split; [reflexivity|]. split; [reflexivity|]. simpl. discriminate.
Qed.

(** ** Bulk sync *)

Section BulkSync.

Variable parseDate : string -> option Z.
Variables (now : Z) (user_id : string) (deviceId : nat).

Lemma syncDays_mergeDays (device : Device.t) (payloads : list DayData.t) :
  forall (results : list Summary.t) (db : Db),
    syncDays parseDate now user_id deviceId device payloads results db
    = (Ok (results
           ++ fst (mergeDays parseDate now user_id deviceId
                     (Device.device_name device) payloads
                     (dailyActivitySummary db))),
       withSummaries
         (fun _ =>
            snd (mergeDays parseDate now user_id deviceId
                   (Device.device_name device) payloads
                   (dailyActivitySummary db)))
         db).
Proof.
  induction payloads as [|dayData rest IH]; intros results db; simpl.
  - unfold ret. rewrite app_nil_r. destruct db; reflexivity.
  - unfold bind at 1. unfold tryCatch, syncDay, summaryUpsert.
    destruct (parseDate (DayData.date dayData)) as [day|] eqn:E.
    + unfold bind at 1. unfold ret. rewrite IH. simpl.
      rewrite <- app_assoc. reflexivity.
    + unfold bind at 1. unfold ret. apply IH.
Qed.

Lemma mergeDays_skips (source : string) (payloads : list DayData.t) :
  forall rows,
    mergeDays parseDate now user_id deviceId source payloads rows
    = mergeDays parseDate now user_id deviceId source
        (filter (mergeable parseDate) payloads) rows.
Proof.
  induction payloads as [|dayData rest IH]; intros rows; simpl; [reflexivity|].
  unfold mergeable at 1.
  destruct (parseDate (DayData.date dayData)) as [day|] eqn:E; simpl.
  - rewrite E. rewrite (IH (snd _)). reflexivity.
  - apply IH.
Qed.

Lemma mergeDays_merged (source : string) (payloads : list DayData.t) :
  forall rows,
    Forall2 (mergedDay parseDate user_id deviceId)
      (filter (mergeable parseDate) payloads)
      (fst (mergeDays parseDate now user_id deviceId source payloads rows)).
Proof.
  induction payloads as [|dayData rest IH]; intros rows; simpl; [constructor|].
  unfold mergeable at 1.
  destruct (parseDate (DayData.date dayData)) as [day|] eqn:E; simpl.
  - constructor; [|apply IH].
    unfold mergedDay, upsertRows.
    destruct (find (summaryKey user_id deviceId day) rows) as [r|] eqn:F; simpl.
    + apply find_some in F. destruct F as [_ F].
      unfold summaryKey in F. rewrite !andb_true_iff in F.
      destruct F as [[Hu Hd] Hday].
      apply String.eqb_eq in Hu. apply Nat.eqb_eq in Hd. apply Z.eqb_eq in Hday.
      rewrite E, Hday. repeat split; auto.
      exists (Some r). unfold mergedFrom; simpl. repeat split; reflexivity.
    + rewrite E. repeat split; auto.
      exists None. unfold mergedFrom; simpl.
      rewrite !setNullable_none. repeat split; reflexivity.
  - apply IH.
Qed.

End BulkSync.

(** C8. For a device of the caller, [bulkSyncDeviceData] returns whatever
    the array holds: a payload that fails is skipped as if it were not in
    the array, every other payload is merged by the rule of one sync, in
    order, and the result is the list of the rows merged, one for each
    payload that did not fail. *)
Theorem bulkSyncDeviceData_isolates (parseDate : string -> option Z) (now : Z)
    (user_id : string) (deviceId : nat) (payloads : list DayData.t) (db : Db)
    (device : Device.t)
    (Hfound : find (ownedDevice deviceId user_id) (connectedDevice db) = Some device) :
  exists results db',
    bulkSyncDeviceData parseDate now user_id deviceId payloads db = (Ok results, db')
    /\ (results, dailyActivitySummary db')
       = mergeDays parseDate now user_id deviceId (Device.device_name device)
           payloads (dailyActivitySummary db)
    /\ mergeDays parseDate now user_id deviceId (Device.device_name device)
         payloads (dailyActivitySummary db)
       = mergeDays parseDate now user_id deviceId (Device.device_name device)
           (filter (mergeable parseDate) payloads) (dailyActivitySummary db)
    /\ Forall2 (mergedDay parseDate user_id deviceId)
         (filter (mergeable parseDate) payloads) results.
Proof.
  destruct (find_weaken (ownedDevice deviceId user_id) (isDevice deviceId)
              (connectedDevice db) device) as [d Hd]; auto.
  { intros y. unfold ownedDevice. rewrite andb_true_iff. tauto. }
  unfold bulkSyncDeviceData, tryCatch.
  unfold bind at 1. unfold deviceFindFirst. rewrite Hfound.
  unfold bind at 1. rewrite syncDays_mergeDays. simpl.
  unfold bind, deviceUpdate, ret. simpl. rewrite Hd.
  eexists. eexists. split; [reflexivity|]. simpl.
  split; [symmetry; apply surjective_pairing|].
  split; [apply mergeDays_skips | apply mergeDays_merged].
Qed.

Lemma bulkSyncDeviceData_isolates_witness :
  exists first second db',
    bulkSyncDeviceData knownDates 1710187200000 "ana" 0 threeDays marchDb
    = (Ok [first; second], db')
    /\ Summary.date first = 1710028800000
    /\ Summary.date second = 1710115200000.
Proof.
  destruct (bulkSyncDeviceData_isolates knownDates 1710187200000 "ana" 0
              threeDays marchDb marchDevice eq_refl)
    as [results [db' [Hcall [_ [_ Hmerged]]]]].
  change (filter (mergeable knownDates) threeDays)
    with [DayData.mk noonPayload "2024-03-10";
          DayData.mk eveningPayload "2024-03-11"] in Hmerged.
  inversion Hmerged as [|x first l rest Hfirst Hrest]; subst.
  inversion Hrest as [|y second l' rest' Hsecond Hnil]; subst.
  inversion Hnil; subst.
  exists first, second, db'. split; [exact Hcall|].
  destruct Hfirst as [Hd1 _]. destruct Hsecond as [Hd2 _].
  change (Some 1710028800000 = Some (Summary.date first)) in Hd1.
  change (Some 1710115200000 = Some (Summary.date second)) in Hd2.
  split; congruence.
Defined.

(** ** What a service call may do to the database *)

Lemma writes_ret {A : Type} (a : A) : writes (ret a).
Proof. intros db. apply effect_none. Qed.

Lemma writes_throw {A : Type} (msg : string) : writes (@throw A msg).
Proof. intros db. apply effect_none. Qed.

Lemma writes_bind {A B : Type} (m : M A) (k : A -> M B) :
  writes m -> (forall a, writes (k a)) -> writes (bind m k).
Proof.
  intros Hm Hk db. unfold bind. specialize (Hm db).
  destruct (m db) as [[a|e] db']; simpl in *; [|exact Hm].
  eapply effect_then; [exact Hm | apply Hk].
Qed.

Lemma writes_tryCatch {A : Type} (m : M A) (h : string -> M A) :
  writes m -> (forall e, writes (h e)) -> writes (tryCatch m h).
Proof.
  intros Hm Hh db. unfold tryCatch. specialize (Hm db).
  destruct (m db) as [[a|e] db']; simpl in *; [exact Hm|].
  eapply effect_then; [exact Hm | apply Hh].
Qed.

Lemma writes_deviceFindFirst (p : Device.t -> bool) : writes (deviceFindFirst p).
Proof. intros db. apply effect_none. Qed.

Lemma writes_deviceUpdate (id : nat) (f : Device.t -> Device.t) :
  (forall d, deviceIdent (f d) = deviceIdent d) -> writes (deviceUpdate id f).
Proof.
  intros Hf db. unfold deviceUpdate.
  destruct (find (isDevice id) (connectedDevice db)); simpl.
  - apply effect_update. exact Hf.
  - apply effect_none.
Qed.

Lemma writes_deviceUpdateMany (p : Device.t -> bool) (f : Device.t -> Device.t) :
  (forall d, deviceIdent (f d) = deviceIdent d) -> writes (deviceUpdateMany p f).
Proof. intros Hf db. apply effect_update. exact Hf. Qed.

Lemma writes_deviceUpsert (user ty : string) (f : Device.t -> Device.t)
    (create : nat -> Device.t) :
  (forall d, deviceIdent (f d) = deviceIdent d) ->
  (forall id, Device.user_id (create id) = user
              /\ Device.device_type (create id) = ty) ->
  writes (deviceUpsert user ty f create).
Proof.
  intros Hf Hcreate db. unfold deviceUpsert.
  destruct (find (deviceOfType user ty) (connectedDevice db)) eqn:E; simpl.
  - apply effect_update. exact Hf.
  - apply effect_create.
    destruct (Hcreate (nextDeviceId db)) as [-> ->]. exact E.
Qed.

Lemma writes_summaryUpsert (user : string) (device : nat) (date : option Z)
    (update : Summary.t -> Summary.t) (create : Z -> Summary.t) :
  (forall r, ledgerKey (update r) = ledgerKey r) ->
  (forall day, ledgerKey (create day) = (user, device, day)) ->
  writes (summaryUpsert user device date update create).
Proof.
  intros Hupdate Hcreate db. unfold summaryUpsert.
  destruct date as [day|]; simpl.
  - apply effect_upsert; auto.
  - apply effect_none.
Qed.

Lemma writes_syncDeviceData (now : Z) (user_id : string) (deviceId : nat)
    (activityData : ActivityData.t) :
  writes (syncDeviceData now user_id deviceId activityData).
Proof.
  unfold syncDeviceData.
  apply writes_tryCatch; [|intros; apply writes_throw].
  apply writes_bind; [apply writes_deviceFindFirst|].
  intros [device|]; [|apply writes_throw].
  apply writes_bind; [apply writes_summaryUpsert; reflexivity|].
  intros r. apply writes_bind; [apply writes_deviceUpdate; reflexivity|].
  intros _. apply writes_ret.
Qed.

Lemma writes_syncDates (env : SyncEnv) (user_id : string) (deviceId : nat)
    (dates : list Z) :
  forall i, writes (syncDates env user_id deviceId i dates).
Proof.
  induction dates as [|date rest IH]; intros i; simpl.
  - apply writes_ret.
  - apply writes_bind.
    + apply writes_tryCatch; [|intros; apply writes_ret].
      apply writes_bind; [apply writes_syncDeviceData|].
      intros _. apply writes_ret.
    + intros synced. apply writes_bind; [apply IH|].
      intros more. apply writes_ret.
Qed.

Lemma writes_performInitialSync (env : SyncEnv) (user_id : string)
    (deviceId : nat) (deviceType : string) :
  writes (performInitialSync env user_id deviceId deviceType).
Proof.
  unfold performInitialSync.
  apply writes_tryCatch; [|intros; apply writes_ret].
  apply writes_bind; [apply writes_syncDates|].
  intros _. apply writes_ret.
Qed.

Lemma writes_connectDevice (now : Z) (env : SyncEnv)
    (user_id deviceType deviceName : string)
    (accessToken refreshToken : option string) :
  writes (connectDevice now env user_id deviceType deviceName accessToken refreshToken).
Proof.
  unfold connectDevice.
  apply writes_tryCatch; [|intros; apply writes_throw].
  destruct (negb (includes validDeviceTypes deviceType)); [apply writes_throw|].
  intros db. unfold bind at 1. unfold deviceFindFirst.
  destruct (find (deviceOfType user_id deviceType) (connectedDevice db))
    as [existing|] eqn:E.
  - revert db E. intros db _.
    apply (writes_bind
             (deviceUpdate (Device.connected_device_id existing) _)).
    + apply writes_deviceUpdate. reflexivity.
    + intros updated. apply writes_bind; [apply writes_performInitialSync|].
      intros _. apply writes_ret.
  - unfold bind at 1. unfold deviceCreate.
    eapply effect_then.
    + apply (effect_create db
               (Device.mk (nextDeviceId db) user_id deviceName deviceType
                  CONNECTED (Some now) true (encryptOrNull accessToken)
                  (encryptOrNull refreshToken) (expiryOrNull now accessToken)
                  now now)).
      exact E.
    + apply (writes_bind (performInitialSync env user_id _ deviceType)).
      * apply writes_performInitialSync.
      * intros _. apply writes_ret.
Qed.

Lemma writes_disconnectDevice (now : Z) (user_id : string) (deviceId : nat) :
  writes (disconnectDevice now user_id deviceId).
Proof.
  unfold disconnectDevice.
  apply writes_tryCatch; [|intros; apply writes_throw].
  apply writes_bind; [apply writes_deviceFindFirst|].
  intros [device|]; [|apply writes_throw].
  apply writes_bind; [apply writes_deviceUpdate; reflexivity|].
  intros _. apply writes_ret.
Qed.

Lemma writes_updateDeviceTokens (now : Z) (user_id : string) (deviceId : nat)
    (accessToken refreshToken : option string) :
  writes (updateDeviceTokens now user_id deviceId accessToken refreshToken).
Proof.
  unfold updateDeviceTokens.
  apply writes_tryCatch; [|intros; apply writes_throw].
  apply writes_bind; [apply writes_deviceUpdateMany; reflexivity|].
  intros _. apply writes_ret.
Qed.

Section WritesWithDates.

Variable parseDate : string -> option Z.

Lemma writes_syncDays (now : Z) (user_id : string) (deviceId : nat)
    (device : Device.t) (payloads : list DayData.t) :
  forall results,
    writes (syncDays parseDate now user_id deviceId device payloads results).
Proof.
  induction payloads as [|dayData rest IH]; intros results; simpl.
  - apply writes_ret.
  - apply writes_bind; [|intros; apply IH].
    apply writes_tryCatch; [|intros; apply writes_ret].
    apply writes_bind; [|intros; apply writes_ret].
    unfold syncDay. apply writes_summaryUpsert; reflexivity.
Qed.

Lemma writes_bulkSyncDeviceData (now : Z) (user_id : string) (deviceId : nat)
    (payloads : list DayData.t) :
  writes (bulkSyncDeviceData parseDate now user_id deviceId payloads).
Proof.
  unfold bulkSyncDeviceData.
  apply writes_tryCatch; [|intros; apply writes_throw].
  apply writes_bind; [apply writes_deviceFindFirst|].
  intros [device|]; [|apply writes_throw].
  apply writes_bind; [apply writes_syncDays|].
  intros results. apply writes_bind; [apply writes_deviceUpdate; reflexivity|].
  intros _. apply writes_ret.
Qed.

Lemma writes_saveHealthData (now : Z) (userId : string) (deviceId : nat)
    (data : HealthKitData.t) :
  writes (saveHealthData parseDate now userId deviceId data).
Proof.
  unfold saveHealthData. apply writes_summaryUpsert; reflexivity.
Qed.

Lemma writes_syncWithDevice (now : Z) (userId deviceType : string)
    (deviceData : DeviceData.t) :
  writes (syncWithDevice parseDate now userId deviceType deviceData).
Proof.
  unfold syncWithDevice.
  apply writes_bind.
  - apply writes_deviceUpsert; [reflexivity|]. intros id. split; reflexivity.
  - intros device.
    destruct (DeviceData.date deviceData) as [date|]; [|apply writes_ret].
    destruct (DeviceData.steps deviceData); [|apply writes_ret].
    destruct (truthy (Some date)); [|apply writes_ret].
    apply writes_bind; [apply writes_saveHealthData|].
    intros _. apply writes_ret.
Qed.

Lemma writes_getDailyBalance (user_id date : string) :
  writes (getDailyBalance parseDate user_id date).
Proof.
  unfold getDailyBalance.
  apply writes_tryCatch; [|intros; apply writes_throw].
  destruct (parseDate date) as [startDate|]; [|apply writes_throw].
  destruct (setDate startDate (numZ (getDate startDate) + numZ 1)%D);
    [|apply writes_throw].
  apply writes_bind; [intros db; apply effect_none|].
  intros meals. apply writes_bind; [intros db; apply effect_none|].
  intros [activityData|]; apply writes_ret.
Qed.

End WritesWithDates.

Lemma writes_getDeviceAnalytics (now : Z) (user_id : string) (deviceId : nat)
    (days : double) :
  writes (getDeviceAnalytics now user_id deviceId days).
Proof.
  unfold getDeviceAnalytics.
  apply writes_tryCatch; [|intros; apply writes_throw].
  destruct (setDate now (numZ (getDate now) - days)%D); [|apply writes_throw].
  apply writes_bind; [intros db; apply effect_none|].
  intros analytics. apply writes_ret.
Qed.

(** *** The two uniqueness invariants *)

Lemma deviceOfType_ident (user ty : string) (d d' : Device.t) :
  deviceIdent d' = deviceIdent d -> deviceOfType user ty d' = deviceOfType user ty d.
Proof.
  unfold deviceIdent, deviceOfType. intros H. inversion H. reflexivity.
Qed.

Lemma summaryKey_ledgerKey (user : string) (device : nat) (day : Z) (r r' : Summary.t) :
  ledgerKey r' = ledgerKey r ->
  summaryKey user device day r' = summaryKey user device day r.
Proof.
  unfold ledgerKey, summaryKey. intros H. inversion H. reflexivity.
Qed.

Lemma summaryKey_iff (user : string) (device : nat) (day : Z) (r : Summary.t) :
  summaryKey user device day r = true <-> ledgerKey r = (user, device, day).
Proof.
  unfold summaryKey, ledgerKey. rewrite !andb_true_iff.
  rewrite String.eqb_eq, Nat.eqb_eq, Z.eqb_eq. split.
  - intros [[-> ->] ->]. reflexivity.
  - intros H. inversion H. auto.
Qed.

Lemma deviceOfType_iff (user ty : string) (d : Device.t) :
  deviceOfType user ty d = true
  <-> Device.user_id d = user /\ Device.device_type d = ty.
Proof.
  unfold deviceOfType. rewrite andb_true_iff, !String.eqb_eq. tauto.
Qed.

Lemma effect_registryUnique (db db' : Db) :
  effect db db' -> registryUnique db -> registryUnique db'.
Proof.
  induction 1 as [db | db1 db2 db3 _ IH12 _ IH23 | db p f Hf | db d Hnone
                 | db user device day update created Hupdate Hcreated];
    intros Hinv; auto.
  - intros user ty. unfold deviceCount; simpl.
    rewrite filter_updateWhere by (intros; apply deviceOfType_ident, Hf).
    rewrite length_updateWhere. apply Hinv.
  - intros user ty. unfold deviceCount; simpl.
    rewrite filter_app, length_app; simpl.
    destruct (deviceOfType user ty d) eqn:E; simpl.
    + apply deviceOfType_iff in E. destruct E as [<- <-].
      apply find_none_filter in Hnone. rewrite Hnone. simpl. lia.
    + specialize (Hinv user ty). unfold deviceCount in Hinv. lia.
Qed.

Lemma effect_ledgerUnique (db db' : Db) :
  effect db db' -> ledgerUnique db -> ledgerUnique db'.
Proof.
  induction 1 as [db | db1 db2 db3 _ IH12 _ IH23 | db p f Hf | db d Hnone
                 | db user device day update created Hupdate Hcreated];
    intros Hinv; auto.
  intros user' device' day'. simpl. unfold upsertRows.
  destruct (find (summaryKey user device day) (dailyActivitySummary db)) eqn:E;
    simpl.
  - rewrite filter_updateWhere
      by (intros; apply summaryKey_ledgerKey, Hupdate).
    rewrite length_updateWhere. apply Hinv.
  - rewrite filter_app, length_app; simpl.
    destruct (summaryKey user' device' day' created) eqn:K; simpl.
    + apply summaryKey_iff in K. rewrite Hcreated in K. inversion K; subst.
      apply find_none_filter in E. rewrite E. simpl. lia.
    + specialize (Hinv user' device' day'). lia.
Qed.

(** ** Connecting a device *)

Lemma deviceCount_registry (db : Db) (user ty : string) :
  deviceCount db user ty = List.length (filter (identOfType user ty) (registry db)).
Proof.
  unfold deviceCount, registry.
  induction (connectedDevice db) as [|d rest IH]; [reflexivity|].
  cbn [map filter].
  change (identOfType user ty (deviceIdent d)) with (deviceOfType user ty d).
  destruct (deviceOfType user ty d); cbn [List.length]; rewrite IH; reflexivity.
Qed.

Lemma registry_updateWhere (p : Device.t -> bool) (f : Device.t -> Device.t)
    (l : list Device.t) :
  (forall d, deviceIdent (f d) = deviceIdent d) ->
  map deviceIdent (updateWhere p f l) = map deviceIdent l.
Proof.
  intros Hf. unfold updateWhere. rewrite map_map. apply map_ext.
  intros d. destruct (p d); [apply Hf | reflexivity].
Qed.

Lemma syncDeviceData_registry (now : Z) (user_id : string) (deviceId : nat)
    (activityData : ActivityData.t) (db : Db) :
  registry (snd (syncDeviceData now user_id deviceId activityData db)) = registry db.
Proof.
  destruct (find (ownedDevice deviceId user_id) (connectedDevice db)) as [device|] eqn:E.
  - rewrite (syncDeviceData_owned now user_id deviceId activityData db device E).
    unfold registry; simpl. apply registry_updateWhere. reflexivity.
  - rewrite (syncDeviceData_unowned now user_id deviceId activityData db E).
    reflexivity.
Qed.

Lemma syncDates_returns (env : SyncEnv) (user_id : string) (deviceId : nat)
    (dates : list Z) :
  forall i db,
    exists n db',
      syncDates env user_id deviceId i dates db = (Ok n, db')
      /\ registry db' = registry db.
Proof.
  induction dates as [|date rest IH]; intros i db; simpl.
  - exists 0%nat, db. split; reflexivity.
  - unfold bind at 1. unfold tryCatch. unfold bind at 1.
    pose proof (syncDeviceData_registry (tick env i) user_id deviceId
                  (sample env i) db) as Hreg.
    destruct (syncDeviceData (tick env i) user_id deviceId (sample env i) db)
      as [[r|e] db1]; simpl in Hreg; unfold ret at 1;
      unfold bind at 1;
      destruct (IH (S i) db1) as [n [db' [Hrest Hreg']]];
      rewrite Hrest; unfold ret;
      eexists; eexists; (split; [reflexivity | congruence]).
Qed.

(** The backfill returns, whatever happens inside, and leaves the
    identities of the device rows alone. *)
Lemma performInitialSync_returns (env : SyncEnv) (user_id : string)
    (deviceId : nat) (deviceType : string) (db : Db) :
  exists db',
    performInitialSync env user_id deviceId deviceType db = (Ok tt, db')
    /\ registry db' = registry db.
Proof.
  unfold performInitialSync, tryCatch. unfold bind at 1.
  destruct (syncDates_returns env user_id deviceId
              (initialDates (startTime env)) 0 db) as [n [db' [Hcall Hreg]]].
  rewrite Hcall. unfold ret. exists db'. split; [reflexivity | exact Hreg].
Qed.

Lemma find_isDevice_of_found (p : Device.t -> bool) (l : list Device.t)
    (d : Device.t) :
  find p l = Some d ->
  exists d', find (isDevice (Device.connected_device_id d)) l = Some d'.
Proof.
  intros H. apply find_some in H. destruct H as [Hin _].
  destruct (find (isDevice (Device.connected_device_id d)) l) as [d'|] eqn:E.
  - exists d'. reflexivity.
  - pose proof (find_none _ _ E d Hin) as Hno.
    unfold isDevice in Hno. rewrite Nat.eqb_refl in Hno. discriminate.
Qed.

(** Reconnecting: the owner has a device of the type already. *)
Lemma connectDevice_existing (now : Z) (env : SyncEnv)
    (user_id deviceType deviceName : string)
    (accessToken refreshToken : option string) (db : Db) (existing : Device.t) :
  includes validDeviceTypes deviceType = true ->
  find (deviceOfType user_id deviceType) (connectedDevice db) = Some existing ->
  exists d db',
    connectDevice now env user_id deviceType deviceName accessToken refreshToken db
    = (Ok d, db')
    /\ registry db' = registry db.
Proof.
  intros Hvalid Hfound.
  destruct (find_isDevice_of_found _ _ _ Hfound) as [d0 Hd0].
  unfold connectDevice, tryCatch. rewrite Hvalid. cbn [negb].
  unfold bind at 1. unfold deviceFindFirst. cbv beta. rewrite Hfound.
  unfold bind at 1. unfold deviceUpdate. rewrite Hd0.
  unfold bind at 1.
  match goal with
  | |- context [performInitialSync env user_id ?id deviceType ?db1] =>
      destruct (performInitialSync_returns env user_id id deviceType db1)
        as [db' [Hsync Hreg]]
  end.
  rewrite Hsync. unfold ret.
  eexists. exists db'. split; [reflexivity|].
  rewrite Hreg. unfold registry; simpl. apply registry_updateWhere. reflexivity.
Qed.

(** Connecting a type the owner does not have: a row is created, with the
    next id, and it is marked primary. *)
Lemma connectDevice_created (now : Z) (env : SyncEnv)
    (user_id deviceType deviceName : string)
    (accessToken refreshToken : option string) (db : Db) :
  includes validDeviceTypes deviceType = true ->
  find (deviceOfType user_id deviceType) (connectedDevice db) = None ->
  exists d db',
    connectDevice now env user_id deviceType deviceName accessToken refreshToken db
    = (Ok d, db')
    /\ registry db' = registry db ++ [deviceIdent d]
    /\ deviceIdent d = (nextDeviceId db, user_id, deviceType, true).
Proof.
  intros Hvalid Hnone.
  unfold connectDevice, tryCatch. rewrite Hvalid. cbn [negb].
  unfold bind at 1. unfold deviceFindFirst. cbv beta. rewrite Hnone.
  unfold bind at 1. unfold deviceCreate.
  unfold bind at 1.
  match goal with
  | |- context [performInitialSync env user_id ?id deviceType ?db1] =>
      destruct (performInitialSync_returns env user_id id deviceType db1)
        as [db' [Hsync Hreg]]
  end.
  rewrite Hsync. unfold ret.
  eexists. exists db'. split; [reflexivity|].
  rewrite Hreg. unfold registry; simpl. rewrite map_app. simpl.
  split; reflexivity.
Qed.

(** ** Sequences of service calls *)

Lemma run_effect (parseDate : string -> option Z) (c : Call) (db : Db) :
  effect db (run parseDate c db).
Proof.
  destruct c; unfold run, finalDb.
  - apply writes_connectDevice.
  - apply writes_disconnectDevice.
  - apply writes_syncDeviceData.
  - apply writes_bulkSyncDeviceData.
  - apply writes_updateDeviceTokens.
  - apply writes_syncWithDevice.
  - apply writes_getDailyBalance.
  - apply writes_getDeviceAnalytics.
Qed.

Lemma runAll_effect (parseDate : string -> option Z) (calls : list Call) :
  forall db, effect db (runAll parseDate calls db).
Proof.
  unfold runAll. induction calls as [|c rest IH]; intros db; simpl.
  - apply effect_none.
  - eapply effect_then; [apply run_effect | apply IH].
Qed.

Lemma emptyDb_registryUnique : registryUnique emptyDb.
Proof. intros user ty. unfold deviceCount; simpl. lia. Qed.

Lemma emptyDb_ledgerUnique : ledgerUnique emptyDb.
Proof. intros user device day. simpl. lia. Qed.

(** Every ledger reached from the empty database has one row per key. *)
Lemma runAll_ledgerUnique (parseDate : string -> option Z) (calls : list Call) :
  ledgerUnique (runAll parseDate calls emptyDb).
Proof.
  eapply effect_ledgerUnique; [apply runAll_effect | apply emptyDb_ledgerUnique].
Qed.

Lemma deviceCount_found (db : Db) (user ty : string) :
  (1 <= deviceCount db user ty)%nat ->
  exists d, find (deviceOfType user ty) (connectedDevice db) = Some d.
Proof.
  unfold deviceCount. intros H.
  destruct (find (deviceOfType user ty) (connectedDevice db)) as [d|] eqn:E.
  - exists d. reflexivity.
  - apply find_none_filter in E. rewrite E in H. simpl in H. lia.
Qed.

(** One connect of a supported type: it returns, and the owner then has
    a device of the type. *)
Lemma connectDevice_returns (now : Z) (env : SyncEnv)
    (user_id deviceType deviceName : string)
    (accessToken refreshToken : option string) (db : Db) :
  includes validDeviceTypes deviceType = true ->
  exists d db',
    connectDevice now env user_id deviceType deviceName accessToken refreshToken db
    = (Ok d, db')
    /\ (1 <= deviceCount db' user_id deviceType)%nat
    /\ ((1 <= deviceCount db user_id deviceType)%nat ->
        registry db' = registry db).
Proof.
  intros Hvalid.
  destruct (find (deviceOfType user_id deviceType) (connectedDevice db))
    as [existing|] eqn:E.
  - destruct (connectDevice_existing now env user_id deviceType deviceName
                accessToken refreshToken db existing Hvalid E)
      as [d [db' [Hcall Hreg]]].
    exists d, db'. split; [exact Hcall|]. split; [|intros _; exact Hreg].
    rewrite deviceCount_registry, Hreg, <- deviceCount_registry.
    unfold deviceCount.
    destruct (find_some_filter _ _ _ E) as [rest ->]. simpl. lia.
  - destruct (connectDevice_created now env user_id deviceType deviceName
                accessToken refreshToken db Hvalid E)
      as [d [db' [Hcall [Hreg Hident]]]].
    exists d, db'. split; [exact Hcall|]. split.
    + rewrite deviceCount_registry, Hreg, filter_app, length_app, Hident.
      simpl. rewrite !String.eqb_refl. simpl. lia.
    + unfold deviceCount. apply find_none_filter in E. rewrite E. simpl. lia.
Qed.



(** C4. [marchDb] holds a primary FITBIT device of the owner.  Connecting
    a GARMIN device creates a second row for the same owner, and that row
    is marked primary as well. *)
Theorem connectDevice_second_is_primary :
  map (fun d => (Device.device_type d, Device.is_primary_device d))
    (filter (fun d => (Device.user_id d =? "ana")%string) (connectedDevice marchDb))
  = [("FITBIT", true)]
  /\ exists d db',
      connectDevice 1710158400000 marchEnv "ana" "GARMIN" "Forerunner" None None
        marchDb = (Ok d, db')
      /\ Device.connected_device_id d = 1%nat
      /\ Device.is_primary_device d = true
      /\ map (fun d => (Device.device_type d, Device.is_primary_device d))
           (filter (fun d => (Device.user_id d =? "ana")%string)
              (connectedDevice db'))
         = [("FITBIT", true); ("GARMIN", true)].
Proof.
  split; [reflexivity|].
  eexists. eexists. split; [vm_compute; reflexivity|].
  split; [reflexivity|]. split; reflexivity.
Qed.

(** ** The initial backfill *)

(** C1. The backfill of the freshly connected GARMIN device (id 1)
    generates the seven days up to 11 March 2024, yet the ledger afterwards
    holds a single row of that device: the one of 11 March, carrying the
    last of the seven samples.  None of the six earlier days has a row. *)
Theorem performInitialSync_single_day :
  initialDates (startTime marchEnv)
  = [1709596800000; 1709683200000; 1709769600000; 1709856000000;
     1709942400000; 1710028800000; 1710115200000]
  /\ filter (fun r => Nat.eqb (Summary.device_id r) 1) (dailyActivitySummary marchDb)
     = []
  /\ map (fun r => (Summary.date r, Summary.steps r))
       (filter (fun r => Nat.eqb (Summary.device_id r) 1)
          (dailyActivitySummary garminDb))
     = [(1710115200000, ActivityData.steps (marchSample 6))]
  /\ map (fun day =>
            match storedRecord garminDb "ana" 1 day with
            | Some _ => true
            | None => false
            end)
       (initialDates (startTime marchEnv))
     = [false; false; false; false; false; false; true].
Proof.
  split; [reflexivity|]. split; [reflexivity|].
  split; vm_compute; reflexivity.
Qed.

Lemma upsertRows_keys (key : Summary.t -> bool) (update : Summary.t -> Summary.t)
    (created : Summary.t) (rows : list Summary.t) (r : Summary.t) :
  (forall x, ledgerKey (update x) = ledgerKey x) ->
  In r (snd (upsertRows key update created rows)) ->
  In (ledgerKey r) (map ledgerKey rows) \/ r = created.
Proof.
  intros Hupdate. unfold upsertRows.
  destruct (find key rows); simpl.
  - unfold updateWhere. rewrite in_map_iff. intros [x [Hx Hin]].
    left. apply in_map_iff. exists x. split; [|exact Hin].
    subst r. destruct (key x); [symmetry; apply Hupdate | reflexivity].
  - rewrite in_app_iff. intros [Hin | [Heq | []]].
    + left. apply in_map. exact Hin.
    + right. symmetry. exact Heq.
Qed.

(** A sync adds no key to the ledger but the one of the day of its clock. *)
Lemma syncDeviceData_keys (now : Z) (user_id : string) (deviceId : nat)
    (activityData : ActivityData.t) (db : Db) (r : Summary.t) :
  In r (dailyActivitySummary (afterSync now user_id deviceId activityData db)) ->
  In (ledgerKey r) (map ledgerKey (dailyActivitySummary db))
  \/ ledgerKey r = (user_id, deviceId, utcMidnight now).
Proof.
  unfold afterSync, finalDb.
  destruct (find (ownedDevice deviceId user_id) (connectedDevice db)) as [device|] eqn:E.
  - rewrite (syncDeviceData_owned now user_id deviceId activityData db device E).
    simpl. unfold mergeToday. intros Hin.
    apply upsertRows_keys in Hin; [|reflexivity].
    destruct Hin as [Hin | ->]; [left; exact Hin | right; reflexivity].
  - rewrite (syncDeviceData_unowned now user_id deviceId activityData db E).
    simpl. intros Hin. left. apply in_map. exact Hin.
Qed.

Lemma syncDates_keys (env : SyncEnv) (user_id : string) (deviceId : nat)
    (dates : list Z) :
  forall i db r,
    In r (dailyActivitySummary (snd (syncDates env user_id deviceId i dates db))) ->
    In (ledgerKey r) (map ledgerKey (dailyActivitySummary db))
    \/ exists j,
        (i <= j < i + List.length dates)%nat
        /\ ledgerKey r = (user_id, deviceId, utcMidnight (tick env j)).
Proof.
  induction dates as [|date rest IH]; intros i db r; simpl.
  - intros Hin. left. apply in_map. exact Hin.
  - unfold bind at 1. unfold tryCatch. unfold bind at 1.
    pose proof (fun x => syncDeviceData_keys (tick env i) user_id deviceId
                           (sample env i) db x) as Hstep.
    unfold afterSync, finalDb in Hstep.
    destruct (syncDeviceData (tick env i) user_id deviceId (sample env i) db)
      as [[row|e] db1]; simpl in Hstep; unfold ret at 1;
      unfold bind at 1;
      specialize (IH (S i) db1 r);
      destruct (syncDates env user_id deviceId (S i) rest db1) as [[n|e'] db2];
      simpl in *; intros Hin; specialize (IH Hin);
      (destruct IH as [Hold | [j [Hj Hkey]]];
       [ apply in_map_iff in Hold; destruct Hold as [x [Hx Hinx]];
         destruct (Hstep x Hinx) as [Hdb | Hnew];
         [ left; rewrite <- Hx; exact Hdb
         | right; exists i; split; [lia | congruence] ]
       | right; exists j; split; [lia | exact Hkey] ]).
Qed.

(** Whatever the clock and the samples: a key that the backfill adds to the
    ledger is the day of one of its seven clock readings. *)
Lemma performInitialSync_keys (env : SyncEnv) (user_id : string) (deviceId : nat)
    (deviceType : string) (db : Db) (r : Summary.t) :
  In r (dailyActivitySummary
          (snd (performInitialSync env user_id deviceId deviceType db))) ->
  In (ledgerKey r) (map ledgerKey (dailyActivitySummary db))
  \/ exists j,
      (j < 7)%nat
      /\ ledgerKey r = (user_id, deviceId, utcMidnight (tick env j)).
Proof.
  unfold performInitialSync, tryCatch. unfold bind at 1.
  pose proof (syncDates_keys env user_id deviceId (initialDates (startTime env))
                0 db r) as Hkeys.
  destruct (syncDates env user_id deviceId 0 (initialDates (startTime env)) db)
    as [[n|e] db']; simpl in *; intros Hin;
    (destruct (Hkeys Hin) as [Hold | [j [Hj Hkey]]];
     [left; exact Hold | right; exists j; split; [lia | exact Hkey]]).
Qed.

(** * Further properties *)

(** ** The credential round trip *)

Lemma list_ind3 {A : Type} (P : list A -> Prop) :
  P [] ->
  (forall a, P [a]) ->
  (forall a b, P [a; b]) ->
  (forall a b c l, P l -> P (a :: b :: c :: l)) ->
  forall l, P l.
Proof.
  intros H0 H1 H2 H3.
  fix IH 1.
  intros [|a [|b [|c l]]]; [apply H0 | apply H1 | apply H2 | apply H3, IH].
Qed.

Lemma base64Digit_legal (n : N) :
  (n < 64)%N ->
  unbase64 (base64Digit n) = Some n /\ (base64Digit n =? "=")%char = false.
Proof.
  intros Hn.
  assert (Hall :
            forallb
              (fun k =>
                 match unbase64 (base64Digit (N.of_nat k)) with
                 | Some m => (m =? N.of_nat k)%N
                 | None => false
                 end
                 && negb (base64Digit (N.of_nat k) =? "=")%char)
              (seq 0 64) = true)
    by (vm_compute; reflexivity).
  rewrite forallb_forall in Hall.
  specialize (Hall (N.to_nat n)).
  rewrite N2Nat.id in Hall.
  assert (Hin : In (N.to_nat n) (seq 0 64)) by (apply in_seq; lia).
  specialize (Hall Hin). apply andb_true_iff in Hall. destruct Hall as [Hv Hp].
  split.
  - destruct (unbase64 (base64Digit n)) as [m|]; [|discriminate].
    apply N.eqb_eq in Hv. congruence.
  - apply negb_true_iff in Hp. exact Hp.
Qed.

Lemma sextets_digit (n : N) (rest : string) :
  (n < 64)%N -> sextets (String (base64Digit n) rest) = n :: sextets rest.
Proof.
  intros Hn. destruct (base64Digit_legal n Hn) as [Hv Hp].
  simpl. rewrite Hp, Hv. reflexivity.
Qed.

Ltac Zify.zify_post_hook ::= Z.to_euclidean_division_equations.

Lemma base64_group (a b c : N) :
  (a < 256)%N -> (b < 256)%N -> (c < 256)%N ->
  ((a / 4 < 64) /\ ((a mod 4) * 16 + b / 16 < 64)
   /\ ((b mod 16) * 4 + c / 64 < 64) /\ (c mod 64 < 64)
   /\ (a / 4 * 4 + ((a mod 4) * 16 + b / 16) / 16 = a)
   /\ ((((a mod 4) * 16 + b / 16) mod 16) * 16 + ((b mod 16) * 4 + c / 64) / 4 = b)
   /\ ((((b mod 16) * 4 + c / 64) mod 4) * 64 + c mod 64 = c))%N.
Proof.
  intros Ha Hb Hc.
  repeat split; lia.
Qed.

Lemma base64_decodes (bytes : list N) :
  Forall (fun b => (b < 256)%N) bytes ->
  bytesOfSextets (sextets (base64Bytes bytes)) = bytes.
Proof.
  induction bytes as [|a|a b|a b c rest IH] using list_ind3; intros Hall.
  - reflexivity.
  - inversion Hall as [|x l Ha _]; subst.
    destruct (base64_group a 0 0 Ha) as [H1 [H2 [_ [_ [E1 _]]]]];
      [reflexivity | reflexivity |].
    cbn [base64Bytes]. rewrite N.add_0_r in H2, E1.
    rewrite !sextets_digit by assumption.
    cbn [sextets Ascii.eqb Bool.eqb andb bytesOfSextets].
    rewrite E1. reflexivity.
  - inversion Hall as [|x l Ha Hrest]; subst.
    inversion Hrest as [|y l' Hb _]; subst.
    destruct (base64_group a b 0 Ha Hb) as [H1 [H2 [H3 [_ [E1 [E2 _]]]]]];
      [reflexivity |].
    cbn [base64Bytes]. rewrite N.add_0_r in H3, E2.
    rewrite !sextets_digit by assumption.
    cbn [sextets Ascii.eqb Bool.eqb andb bytesOfSextets].
    rewrite E1, E2. reflexivity.
  - inversion Hall as [|x l Ha Hrest]; subst.
    inversion Hrest as [|y l' Hb Hrest']; subst.
    inversion Hrest' as [|z l'' Hc Hrest'']; subst.
    destruct (base64_group a b c Ha Hb Hc)
      as [H1 [H2 [H3 [H4 [E1 [E2 E3]]]]]].
    cbn [base64Bytes].
    rewrite !sextets_digit by assumption.
    cbn [bytesOfSextets]. rewrite E1, E2, E3, (IH Hrest''). reflexivity.
Qed.

Lemma bytes_of_string_bounded (s : string) :
  Forall (fun b => (b < 256)%N) (map N_of_ascii (list_ascii_of_string s)).
Proof.
  apply Forall_forall. intros b Hb. apply in_map_iff in Hb.
  destruct Hb as [c [<- _]]. apply N_ascii_bounded.
Qed.

Lemma base64_round_trip (token : string) :
  decryptToken (encryptToken token) = token.
Proof.
  unfold decryptToken, encryptToken.
  rewrite base64_decodes by apply bytes_of_string_bounded.
  rewrite map_map.
  rewrite (map_ext _ (fun c => c)) by (intros c; apply ascii_N_embedding).
  rewrite map_id. apply string_of_list_ascii_of_string.
Qed.

(** Decoding what was encoded gives the token back, byte for byte. *)
Theorem decryptToken_encryptToken (token : string) :
  decryptToken (encryptToken token) = token.
Proof. apply base64_round_trip. Qed.

Lemma base64Bytes_nonempty (bytes : list N) :
  bytes <> [] -> base64Bytes bytes <> "".
Proof.
  destruct bytes as [|a [|b [|c rest]]]; [congruence | | |];
    intros _; cbn [base64Bytes]; discriminate.
Qed.

(** A token that is not empty has an encoding that is not empty. *)
Lemma encryptToken_truthy (token : string) :
  token <> "" -> (encryptToken token =? "")%string = false.
Proof.
  intros Htoken. apply String.eqb_neq. unfold encryptToken.
  apply base64Bytes_nonempty. destruct token; [congruence | discriminate].
Qed.

(** What was stored at a connect reads back as what was passed, an empty
    or absent token as [undefined]. *)
Lemma decryptOrUndefined_encryptOrNull (token : option string) :
  decryptOrUndefined (encryptOrNull token)
  = if truthy token then token else None.
Proof.
  destruct token as [v|]; [|reflexivity].
  unfold encryptOrNull, decryptOrUndefined.
  destruct (truthy (Some v)) eqn:E; [|reflexivity].
  simpl in E. apply negb_true_iff, String.eqb_neq in E.
  simpl. rewrite (encryptToken_truthy v E). simpl.
  rewrite base64_round_trip. reflexivity.
Qed.

(** ** What a sync leaves of the device rows *)

Lemma map_updateWhere_kept {A B : Type} (proj : A -> B) (p : A -> bool)
    (f : A -> A) (l : list A) :
  (forall x, proj (f x) = proj x) ->
  map proj (updateWhere p f l) = map proj l.
Proof.
  intros Hf. unfold updateWhere. rewrite map_map. apply map_ext.
  intros x. destruct (p x); [apply Hf | reflexivity].
Qed.

Section Keeping.

Variable R : Db -> Db -> Prop.
Hypothesis R_refl : forall db, R db db.
Hypothesis R_trans : forall db1 db2 db3, R db1 db2 -> R db2 db3 -> R db1 db3.

Lemma keeps_ret {A : Type} (a : A) : keeps R (ret a).
Proof. intros db. apply R_refl. Qed.

Lemma keeps_throw {A : Type} (msg : string) : keeps R (@throw A msg).
Proof. intros db. apply R_refl. Qed.

Lemma keeps_bind {A B : Type} (m : M A) (k : A -> M B) :
  keeps R m -> (forall a, keeps R (k a)) -> keeps R (bind m k).
Proof.
  intros Hm Hk db. unfold bind. specialize (Hm db).
  destruct (m db) as [[a|e] db']; simpl in *; [|exact Hm].
  eapply R_trans; [exact Hm | apply Hk].
Qed.

Lemma keeps_tryCatch {A : Type} (m : M A) (h : string -> M A) :
  keeps R m -> (forall e, keeps R (h e)) -> keeps R (tryCatch m h).
Proof.
  intros Hm Hh db. unfold tryCatch. specialize (Hm db).
  destruct (m db) as [[a|e] db']; simpl in *; [exact Hm|].
  eapply R_trans; [exact Hm | apply Hh].
Qed.

(** The backfill keeps whatever each of its syncs keeps. *)
Lemma keeps_syncDates (env : SyncEnv) (user_id : string) (deviceId : nat)
    (dates : list Z) :
  (forall now a, keeps R (syncDeviceData now user_id deviceId a)) ->
  forall i, keeps R (syncDates env user_id deviceId i dates).
Proof.
  intros Hsync. induction dates as [|date rest IH]; intros i; simpl.
  - apply keeps_ret.
  - apply keeps_bind.
    + apply keeps_tryCatch; [|intros; apply keeps_ret].
      apply keeps_bind; [apply Hsync | intros; apply keeps_ret].
    + intros synced. apply keeps_bind; [apply IH | intros; apply keeps_ret].
Qed.

Lemma keeps_performInitialSync (env : SyncEnv) (user_id : string)
    (deviceId : nat) (deviceType : string) :
  (forall now a, keeps R (syncDeviceData now user_id deviceId a)) ->
  keeps R (performInitialSync env user_id deviceId deviceType).
Proof.
  intros Hsync. unfold performInitialSync.
  apply keeps_tryCatch; [|intros; apply keeps_ret].
  apply keeps_bind; [apply keeps_syncDates, Hsync | intros; apply keeps_ret].
Qed.

End Keeping.

Lemma sameCore_refl (db : Db) : sameCore db db.
Proof. split; reflexivity. Qed.

Lemma sameCore_trans (db1 db2 db3 : Db) :
  sameCore db1 db2 -> sameCore db2 db3 -> sameCore db1 db3.
Proof. intros [H1 H2] [H3 H4]. split; congruence. Qed.

Lemma syncDeviceData_core (now : Z) (user_id : string) (deviceId : nat)
    (activityData : ActivityData.t) :
  keeps sameCore (syncDeviceData now user_id deviceId activityData).
Proof.
  intros db.
  destruct (find (ownedDevice deviceId user_id) (connectedDevice db)) as [device|] eqn:E.
  - rewrite (syncDeviceData_owned now user_id deviceId activityData db device E).
    split; simpl; [|reflexivity]. apply map_updateWhere_kept. reflexivity.
  - rewrite (syncDeviceData_unowned now user_id deviceId activityData db E).
    apply sameCore_refl.
Qed.

(** The backfill leaves the device rows as they are, up to what the
    closing update of a sync writes; credentials are not among that. *)
Lemma performInitialSync_core (env : SyncEnv) (user_id : string)
    (deviceId : nat) (deviceType : string) :
  keeps sameCore (performInitialSync env user_id deviceId deviceType).
Proof.
  apply keeps_performInitialSync;
    [apply sameCore_refl | apply sameCore_trans |].
  intros now a. apply syncDeviceData_core.
Qed.

Lemma find_by_projection {A B : Type} (proj : A -> B) (p : A -> bool)
    (l l' : list A) :
  (forall d d', proj d = proj d' -> p d = p d') ->
  map proj l' = map proj l ->
  option_map proj (find p l') = option_map proj (find p l).
Proof.
  intros Hp. revert l'.
  induction l as [|d rest IH]; intros [|d' rest'] Hmap; try discriminate.
  - reflexivity.
  - simpl in Hmap. inversion Hmap as [[Hd Hrest]].
    simpl. rewrite (Hp d' d Hd). destruct (p d); simpl.
    + rewrite Hd. reflexivity.
    + apply IH. exact Hrest.
Qed.

Lemma ownedDevice_core (deviceId : nat) (user_id : string) (d d' : Device.t) :
  deviceCore d = deviceCore d' ->
  ownedDevice deviceId user_id d = ownedDevice deviceId user_id d'.
Proof.
  unfold deviceCore, ownedDevice, isDevice. intros H. inversion H. reflexivity.
Qed.

(** [getDeviceTokens] reads the database only, and reports the stored
    credentials of the first row of the device and owner. *)
Lemma getDeviceTokens_reads (user_id : string) (deviceId : nat) (db : Db) :
  getDeviceTokens user_id deviceId db
  = (Ok (match find (ownedDevice deviceId user_id) (connectedDevice db) with
         | Some device =>
             mkDeviceTokens
               (decryptOrUndefined (Device.access_token_encrypted device))
               (decryptOrUndefined (Device.refresh_token_encrypted device))
         | None => mkDeviceTokens None None
         end),
     db).
Proof.
  unfold getDeviceTokens, tryCatch, bind, deviceFindFirst, ret.
  destruct (find (ownedDevice deviceId user_id) (connectedDevice db));
    reflexivity.
Qed.

Lemma getDeviceTokens_core (user_id : string) (deviceId : nat) (db db' : Db) :
  map deviceCore (connectedDevice db') = map deviceCore (connectedDevice db) ->
  fst (getDeviceTokens user_id deviceId db')
  = fst (getDeviceTokens user_id deviceId db).
Proof.
  intros Hcore. rewrite !getDeviceTokens_reads. simpl.
  pose proof (find_by_projection deviceCore (ownedDevice deviceId user_id) _ _
                (ownedDevice_core deviceId user_id) Hcore) as Hfind.
  destruct (find (ownedDevice deviceId user_id) (connectedDevice db')) as [d'|];
    destruct (find (ownedDevice deviceId user_id) (connectedDevice db)) as [d|];
    simpl in Hfind; try discriminate; [|reflexivity].
  inversion Hfind as [Hd]. unfold deviceCore in Hd. inversion Hd.
  repeat f_equal; congruence.
Qed.

(** ** Connecting, in steps *)

Lemma connectDevice_invalid (now : Z) (env : SyncEnv)
    (user_id deviceType deviceName : string)
    (accessToken refreshToken : option string) (db : Db) :
  includes validDeviceTypes deviceType = false ->
  connectDevice now env user_id deviceType deviceName accessToken refreshToken db
  = (Throw "Failed to connect device", db).
Proof.
  intros Hinvalid. unfold connectDevice, tryCatch. rewrite Hinvalid.
  reflexivity.
Qed.

Lemma connectDevice_reconnects (now : Z) (env : SyncEnv)
    (user_id deviceType deviceName : string)
    (accessToken refreshToken : option string) (db : Db) (existing : Device.t) :
  includes validDeviceTypes deviceType = true ->
  find (deviceOfType user_id deviceType) (connectedDevice db) = Some existing ->
  exists d0,
    find (isDevice (Device.connected_device_id existing)) (connectedDevice db)
    = Some d0
    /\ connectDevice now env user_id deviceType deviceName accessToken
         refreshToken db
       = (Ok (reconnectData now deviceName accessToken refreshToken d0),
          snd (performInitialSync env user_id (Device.connected_device_id d0)
                 deviceType
                 (withDevices
                    (updateWhere (isDevice (Device.connected_device_id existing))
                       (reconnectData now deviceName accessToken refreshToken))
                    db))).
Proof.
  intros Hvalid Hfound.
  destruct (find_isDevice_of_found _ _ _ Hfound) as [d0 Hd0].
  exists d0. split; [exact Hd0|].
  unfold connectDevice, tryCatch. rewrite Hvalid. cbn [negb].
  unfold bind at 1. unfold deviceFindFirst. cbv beta. rewrite Hfound.
  unfold bind at 1. unfold deviceUpdate. rewrite Hd0.
  unfold bind at 1. unfold reconnectData.
  cbn [Device.connected_device_id].
  match goal with
  | |- context [performInitialSync env user_id ?id deviceType ?db1] =>
      destruct (performInitialSync_returns env user_id id deviceType db1)
        as [db' [Hsync _]]
  end.
  rewrite Hsync. reflexivity.
Qed.

Lemma connectDevice_creates (now : Z) (env : SyncEnv)
    (user_id deviceType deviceName : string)
    (accessToken refreshToken : option string) (db : Db) :
  includes validDeviceTypes deviceType = true ->
  find (deviceOfType user_id deviceType) (connectedDevice db) = None ->
  connectDevice now env user_id deviceType deviceName accessToken refreshToken db
  = (Ok (createdDevice now user_id deviceType deviceName accessToken
           refreshToken (nextDeviceId db)),
     snd (performInitialSync env user_id (nextDeviceId db) deviceType
            (mkDb
               (connectedDevice db
                ++ [createdDevice now user_id deviceType deviceName accessToken
                      refreshToken (nextDeviceId db)])
               (S (nextDeviceId db)) (dailyActivitySummary db) (meal db)))).
Proof.
  intros Hvalid Hnone.
  unfold connectDevice, tryCatch. rewrite Hvalid. cbn [negb].
  unfold bind at 1. unfold deviceFindFirst. cbv beta. rewrite Hnone.
  unfold bind at 1. unfold deviceCreate.
  unfold bind at 1. unfold createdDevice.
  cbn [Device.connected_device_id].
  match goal with
  | |- context [performInitialSync env user_id ?id deviceType ?db1] =>
      destruct (performInitialSync_returns env user_id id deviceType db1)
        as [db' [Hsync _]]
  end.
  rewrite Hsync. reflexivity.
Qed.

Lemma find_owned_fresh (db : Db) (user_id : string) :
  idsFresh db ->
  find (ownedDevice (nextDeviceId db) user_id) (connectedDevice db) = None.
Proof.
  unfold idsFresh. intros Hfresh.
  induction (connectedDevice db) as [|d rest IH]; [reflexivity|].
  inversion Hfresh as [|x l Hd Hrest]; subst. simpl.
  unfold ownedDevice at 1. unfold isDevice.
  destruct (Nat.eqb_spec (Device.connected_device_id d) (nextDeviceId db));
    [lia|]. simpl. apply IH. exact Hrest.
Qed.

(** What the credentials read back as right after a connect: exactly the
    tokens that were passed, whether the device existed or not. *)
Theorem connectDevice_then_getDeviceTokens (now : Z) (env : SyncEnv)
    (user_id deviceType deviceName : string)
    (accessToken refreshToken : option string) (db db' : Db) (d : Device.t)
    (Hfresh : idsFresh db)
    (Hconnect :
       connectDevice now env user_id deviceType deviceName accessToken
         refreshToken db = (Ok d, db')) :
  getDeviceTokens user_id (Device.connected_device_id d) db'
  = (Ok (mkDeviceTokens (reported accessToken) (reported refreshToken)), db').
Proof.
  destruct (includes validDeviceTypes deviceType) eqn:Hvalid;
    [|rewrite connectDevice_invalid in Hconnect by exact Hvalid; discriminate].
  assert (Hgoal :
            forall db1,
              db' = snd (performInitialSync env user_id
                           (Device.connected_device_id d) deviceType db1) ->
              (exists row,
                  find (ownedDevice (Device.connected_device_id d) user_id)
                    (connectedDevice db1) = Some row
                  /\ Device.access_token_encrypted row = encryptOrNull accessToken
                  /\ Device.refresh_token_encrypted row
                     = encryptOrNull refreshToken) ->
              getDeviceTokens user_id (Device.connected_device_id d) db'
              = (Ok (mkDeviceTokens (reported accessToken)
                       (reported refreshToken)), db')).
  { intros db1 Hdb' [row [Hrow [Ha Hr]]].
    pose proof (performInitialSync_core env user_id
                  (Device.connected_device_id d) deviceType db1) as [Hcore _].
    rewrite <- Hdb' in Hcore.
    pose proof (getDeviceTokens_core user_id (Device.connected_device_id d)
                  db1 db' Hcore) as Hsame.
    rewrite !getDeviceTokens_reads in Hsame. simpl in Hsame.
    rewrite getDeviceTokens_reads. rewrite Hsame, Hrow, Ha, Hr.
    rewrite !decryptOrUndefined_encryptOrNull. reflexivity. }
  destruct (find (deviceOfType user_id deviceType) (connectedDevice db))
    as [existing|] eqn:E.
  - destruct (connectDevice_reconnects now env user_id deviceType deviceName
                accessToken refreshToken db existing Hvalid E)
      as [d0 [Hd0 Hcall]].
    rewrite Hcall in Hconnect. injection Hconnect as Hd Hdb'.
    rewrite <- Hd in *.
    change (Device.connected_device_id
              (reconnectData now deviceName accessToken refreshToken d0))
      with (Device.connected_device_id d0) in *.
    apply (Hgoal _ (eq_sym Hdb')). simpl.
    rewrite find_updateWhere by reflexivity.
    assert (Hid : Device.connected_device_id d0
                  = Device.connected_device_id existing).
    { apply find_some in Hd0. destruct Hd0 as [_ Hd0].
      unfold isDevice in Hd0. apply Nat.eqb_eq in Hd0. exact Hd0. }
    rewrite Hid.
    destruct (find (ownedDevice (Device.connected_device_id existing) user_id)
                (connectedDevice db)) as [x|] eqn:F.
    + simpl. eexists. split; [reflexivity|].
      apply find_some in F. destruct F as [_ F].
      unfold ownedDevice in F. apply andb_true_iff in F. destruct F as [F _].
      rewrite F. split; reflexivity.
    + exfalso. apply find_some in E. destruct E as [Hin Htype].
      pose proof (find_none _ _ F existing Hin) as Hno.
      apply deviceOfType_iff in Htype. destruct Htype as [Hu _].
      unfold ownedDevice, isDevice in Hno.
      rewrite Nat.eqb_refl, Hu, String.eqb_refl in Hno. discriminate.
  - rewrite (connectDevice_creates now env user_id deviceType deviceName
               accessToken refreshToken db Hvalid E) in Hconnect.
    injection Hconnect as Hd Hdb'.
    rewrite <- Hd in *.
    change (Device.connected_device_id
              (createdDevice now user_id deviceType deviceName accessToken
                 refreshToken (nextDeviceId db)))
      with (nextDeviceId db) in *.
    apply (Hgoal _ (eq_sym Hdb')). simpl.
    exists (createdDevice now user_id deviceType deviceName accessToken
              refreshToken (nextDeviceId db)).
    split; [|split; reflexivity].
    apply find_app_last; [apply find_owned_fresh; exact Hfresh|].
    unfold ownedDevice, isDevice; simpl.
    rewrite Nat.eqb_refl, String.eqb_refl. reflexivity.
Qed.

Lemma marchDb_idsFresh : idsFresh marchDb.
Proof. repeat constructor. Qed.

Lemma connectDevice_then_getDeviceTokens_witness :
  exists d db',
    connectDevice 1710158400000 marchEnv "ana" "GARMIN" "Forerunner"
      (Some "secret") None marchDb = (Ok d, db')
    /\ getDeviceTokens "ana" (Device.connected_device_id d) db'
       = (Ok (mkDeviceTokens (Some "secret") None), db').
Proof.
  eexists. eexists.
  assert (Hcall := connectDevice_creates 1710158400000 marchEnv "ana" "GARMIN"
                     "Forerunner" (Some "secret") None marchDb eq_refl eq_refl).
  split; [exact Hcall|].
  exact (connectDevice_then_getDeviceTokens 1710158400000 marchEnv "ana"
           "GARMIN" "Forerunner" (Some "secret") None marchDb _ _
           marchDb_idsFresh Hcall).
Defined.

(** ** Disconnecting *)

Lemma disconnectDevice_owned (now : Z) (user_id : string) (deviceId : nat)
    (db : Db) (device : Device.t) :
  find (ownedDevice deviceId user_id) (connectedDevice db) = Some device ->
  disconnectDevice now user_id deviceId db
  = (Ok tt, withDevices (updateWhere (isDevice deviceId) (disconnectData now)) db).
Proof.
  intros Hfound.
  destruct (find_weaken (ownedDevice deviceId user_id) (isDevice deviceId)
              (connectedDevice db) device) as [d Hd]; auto.
  { intros y. unfold ownedDevice. rewrite andb_true_iff. tauto. }
  unfold disconnectDevice, tryCatch, bind, deviceFindFirst, deviceUpdate, ret.
  rewrite Hfound, Hd. reflexivity.
Qed.

Lemma disconnectDevice_unowned (now : Z) (user_id : string) (deviceId : nat)
    (db : Db) :
  find (ownedDevice deviceId user_id) (connectedDevice db) = None ->
  disconnectDevice now user_id deviceId db
  = (Throw "Failed to disconnect device", db).
Proof.
  intros Hnone.
  unfold disconnectDevice, tryCatch, bind, deviceFindFirst, throw.
  rewrite Hnone. reflexivity.
Qed.

(** The first row of a device and owner after an update by id. *)
Lemma find_owned_updated (f : Device.t -> Device.t) (deviceId : nat)
    (user_id : string) (l : list Device.t) (device : Device.t) :
  (forall d, ownedDevice deviceId user_id (f d) = ownedDevice deviceId user_id d) ->
  find (ownedDevice deviceId user_id) l = Some device ->
  find (ownedDevice deviceId user_id) (updateWhere (isDevice deviceId) f l)
  = Some (f device).
Proof.
  intros Hf Hfound. rewrite find_updateWhere by exact Hf.
  rewrite Hfound. simpl.
  apply find_some in Hfound. destruct Hfound as [_ Hown].
  unfold ownedDevice in Hown. apply andb_true_iff in Hown.
  destruct Hown as [Hid _]. rewrite Hid. reflexivity.
Qed.

(** Disconnecting a device of someone else, or one that does not exist,
    throws and changes nothing.  Disconnecting one's own device returns; the
    row stays, marked DISCONNECTED and without credentials, so that
    [getDeviceTokens] reports none; the other rows keep their identity, and
    the ledger and the meals are untouched. *)
Theorem disconnectDevice_outcome (now : Z) (user_id : string) (deviceId : nat)
    (db : Db) :
  (find (ownedDevice deviceId user_id) (connectedDevice db) = None ->
   disconnectDevice now user_id deviceId db
   = (Throw "Failed to disconnect device", db))
  /\ (forall device,
         find (ownedDevice deviceId user_id) (connectedDevice db) = Some device ->
         exists db' row,
           disconnectDevice now user_id deviceId db = (Ok tt, db')
           /\ find (ownedDevice deviceId user_id) (connectedDevice db') = Some row
           /\ Device.connection_status row = DISCONNECTED
           /\ Device.access_token_encrypted row = None
           /\ Device.refresh_token_encrypted row = None
           /\ Device.token_expires_at row = None
           /\ getDeviceTokens user_id deviceId db'
              = (Ok (mkDeviceTokens None None), db')
           /\ registry db' = registry db
           /\ dailyActivitySummary db' = dailyActivitySummary db
           /\ meal db' = meal db).
Proof.
  split; [apply disconnectDevice_unowned|].
  intros device Hfound.
  rewrite (disconnectDevice_owned now user_id deviceId db device Hfound).
  assert (Hrow :
            find (ownedDevice deviceId user_id)
              (updateWhere (isDevice deviceId) (disconnectData now)
                 (connectedDevice db))
            = Some (disconnectData now device))
    by (apply find_owned_updated; [reflexivity | exact Hfound]).
  eexists. exists (disconnectData now device).
  split; [reflexivity|]. simpl.
  split; [exact Hrow|].
  repeat (split; [reflexivity|]).
  split; [|split; [|split; reflexivity]].
  - rewrite getDeviceTokens_reads. simpl. rewrite Hrow. reflexivity.
  - unfold registry; simpl. apply registry_updateWhere. reflexivity.
Qed.

(** ** Syncing whatever the status *)

(** A sync of one's own device does not look at its status: the row is
    marked CONNECTED with the time of the sync, and its name, type,
    primary mark, credentials and expiry are what they were. *)
Theorem syncDeviceData_marks_connected (now : Z) (user_id : string)
    (deviceId : nat) (payload : ActivityData.t) (db : Db) (device : Device.t)
    (Hfound : find (ownedDevice deviceId user_id) (connectedDevice db) = Some device) :
  exists r db' row,
    syncDeviceData now user_id deviceId payload db = (Ok r, db')
    /\ find (ownedDevice deviceId user_id) (connectedDevice db') = Some row
    /\ Device.connection_status row = CONNECTED
    /\ Device.last_sync_time row = Some now
    /\ deviceCore row = deviceCore device.
Proof.
  rewrite (syncDeviceData_owned now user_id deviceId payload db device Hfound).
  eexists. eexists. exists (touchSynced now device).
  split; [reflexivity|]. simpl.
  split; [apply find_owned_updated; [reflexivity | exact Hfound]|].
  repeat split; reflexivity.
Qed.

(** A device disconnected in the morning and synced at noon. *)
Lemma syncDeviceData_marks_connected_witness :
  exists r db' row,
    syncDeviceData 1710158400000 "ana" 0 noonPayload
      (snd (disconnectDevice 1710144000000 "ana" 0 marchDb)) = (Ok r, db')
    /\ find (ownedDevice 0 "ana") (connectedDevice db') = Some row
    /\ Device.connection_status row = CONNECTED
    /\ Device.access_token_encrypted row = None.
Proof.
  destruct (syncDeviceData_marks_connected 1710158400000 "ana" 0 noonPayload
              (snd (disconnectDevice 1710144000000 "ana" 0 marchDb))
              (disconnectData 1710144000000 marchDevice) eq_refl)
    as [r [db' [row [Hcall [Hrow [Hstatus [_ Hcore]]]]]]].
  exists r, db', row. split; [exact Hcall|]. split; [exact Hrow|].
  split; [exact Hstatus|].
  unfold deviceCore in Hcore. inversion Hcore. reflexivity.
Defined.

(** ** Replacing credentials *)

Lemma decryptOrUndefined_kept (stored : option string) (token : option string) :
  decryptOrUndefined (setField (encryptOrSkip token) stored)
  = if truthy token then token else decryptOrUndefined stored.
Proof.
  destruct token as [v|]; [|reflexivity].
  unfold encryptOrSkip.
  destruct (truthy (Some v)) eqn:E; [|reflexivity].
  simpl in E. apply negb_true_iff, String.eqb_neq in E.
  simpl. rewrite (encryptToken_truthy v E). simpl.
  rewrite base64_round_trip. reflexivity.
Qed.

(** After [updateDeviceTokens] on one's own device the credentials read
    back as the tokens that were passed; where none was passed (or an empty
    one), as what was readable before. *)
Theorem updateDeviceTokens_then_getDeviceTokens (now : Z) (user_id : string)
    (deviceId : nat) (accessToken refreshToken : option string) (db : Db)
    (device : Device.t)
    (Hfound : find (ownedDevice deviceId user_id) (connectedDevice db) = Some device) :
  exists old db',
    getDeviceTokens user_id deviceId db = (Ok old, db)
    /\ updateDeviceTokens now user_id deviceId accessToken refreshToken db
       = (Ok tt, db')
    /\ getDeviceTokens user_id deviceId db'
       = (Ok (mkDeviceTokens
                (if truthy accessToken then accessToken else tok_accessToken old)
                (if truthy refreshToken then refreshToken else tok_refreshToken old)),
          db').
Proof.
  eexists. eexists.
  split; [apply getDeviceTokens_reads|].
  split; [reflexivity|].
  rewrite getDeviceTokens_reads. rewrite Hfound. simpl.
  rewrite find_updateWhere by reflexivity.
  rewrite Hfound. simpl.
  apply find_some in Hfound. destruct Hfound as [_ Hown]. rewrite Hown.
  simpl. rewrite !decryptOrUndefined_kept. reflexivity.
Qed.

(** A new access token for the tracker of [tokenDb]. *)
Lemma updateDeviceTokens_then_getDeviceTokens_witness :
  exists db',
    updateDeviceTokens 1710200000000 "ana" 0 (Some "access-2") None tokenDb
    = (Ok tt, db')
    /\ getDeviceTokens "ana" 0 db'
       = (Ok (mkDeviceTokens (Some "access-2") (Some "refresh-1")), db').
Proof.
  assert (Hfound :
            exists device,
              find (ownedDevice 0 "ana") (connectedDevice tokenDb) = Some device)
    by (eexists; vm_compute; reflexivity).
  destruct Hfound as [device Hfound].
  destruct (updateDeviceTokens_then_getDeviceTokens 1710200000000 "ana" 0
              (Some "access-2") None tokenDb device Hfound)
    as [old [db' [Hold [Hcall Hread]]]].
  exists db'. split; [exact Hcall|].
  rewrite Hread.
  assert (Hrefresh : tok_refreshToken old = Some "refresh-1").
  { assert (Hval : outcome (getDeviceTokens "ana" 0 tokenDb)
                   = Ok (mkDeviceTokens (Some "access-1") (Some "refresh-1")))
      by (vm_compute; reflexivity).
    rewrite Hold in Hval. unfold outcome in Hval. cbn [fst] in Hval.
    injection Hval as Hval. rewrite Hval. reflexivity. }
  rewrite Hrefresh. reflexivity.
Defined.

(** ** What a sync leaves alone *)

Lemma filter_filter_both_none {A : Type} (p : A -> bool) (l : list A) :
  filter p (filter (fun x => negb (p x)) l) = [].
Proof.
  induction l as [|x rest IH]; simpl; [reflexivity|].
  destruct (p x) eqn:E; simpl; [exact IH|]. rewrite E. exact IH.
Qed.

Lemma syncDeviceData_meal (now : Z) (user_id : string) (deviceId : nat)
    (payload : ActivityData.t) (db : Db) :
  meal (afterSync now user_id deviceId payload db) = meal db.
Proof.
  unfold afterSync, finalDb.
  destruct (find (ownedDevice deviceId user_id) (connectedDevice db)) as [device|] eqn:E.
  - rewrite (syncDeviceData_owned now user_id deviceId payload db device E).
    reflexivity.
  - rewrite (syncDeviceData_unowned now user_id deviceId payload db E).
    reflexivity.
Qed.

(** A sync that finds no device of the caller throws and changes nothing.
    Any sync leaves the meals, the ledger rows of every other key and the
    device rows of every other id exactly as they were, in their order. *)
Theorem syncDeviceData_frame (now : Z) (user_id : string) (deviceId : nat)
    (payload : ActivityData.t) (db : Db) :
  (find (ownedDevice deviceId user_id) (connectedDevice db) = None ->
   syncDeviceData now user_id deviceId payload db
   = (Throw "Failed to sync device data", db))
  /\ meal (afterSync now user_id deviceId payload db) = meal db
  /\ nextDeviceId (afterSync now user_id deviceId payload db) = nextDeviceId db
  /\ filter (fun r => negb (summaryKey user_id deviceId (utcMidnight now) r))
       (dailyActivitySummary (afterSync now user_id deviceId payload db))
     = filter (fun r => negb (summaryKey user_id deviceId (utcMidnight now) r))
         (dailyActivitySummary db)
  /\ filter (fun d => negb (isDevice deviceId d))
       (connectedDevice (afterSync now user_id deviceId payload db))
     = filter (fun d => negb (isDevice deviceId d)) (connectedDevice db).
Proof.
  split; [apply syncDeviceData_unowned|].
  unfold afterSync, finalDb.
  destruct (find (ownedDevice deviceId user_id) (connectedDevice db)) as [device|] eqn:E.
  - rewrite (syncDeviceData_owned now user_id deviceId payload db device E).
    simpl. split; [reflexivity|]. split; [reflexivity|]. split.
    + unfold mergeToday, upsertRows.
      destruct (find (summaryKey user_id deviceId (utcMidnight now))
                  (dailyActivitySummary db)) eqn:F; simpl.
      * rewrite filter_updateWhere by reflexivity.
        apply updateWhere_none.
        apply filter_filter_both_none.
      * rewrite filter_app. simpl. rewrite summaryKey_create. simpl.
        apply app_nil_r.
    + rewrite filter_updateWhere by reflexivity.
      apply updateWhere_none. apply filter_filter_both_none.
  - rewrite (syncDeviceData_unowned now user_id deviceId payload db E).
    repeat split; reflexivity.
Qed.

(** ** From a sync to the balance *)

(** A column written as [x || 0] reads as the number [x || 0]. *)
Lemma numberOrZero_orZero (x : option Q) :
  numberOrZero (Some (orZero x)) = numberOrZero x.
Proof.
  destruct x as [v|]; simpl; [|reflexivity].
  destruct (Qeq_bool v 0) eqn:E; [|reflexivity].
  apply Qeq_bool_iff in E. unfold Qeq in E. simpl in E.
  assert (Hnum : Qnum v = 0) by lia.
  unfold numberOrZero, numQ. rewrite Hnum. reflexivity.
Qed.

Lemma writtenBy_energyOut (now : Z) (user_id : string) (payload : ActivityData.t)
    (r : Summary.t) :
  writtenBy now user_id payload r -> energySpent r = payloadEnergySpent payload.
Proof.
  intros [_ [_ [_ [Hc Hb]]]]. unfold energySpent, payloadEnergySpent.
  rewrite Hc, Hb, !numberOrZero_orZero. reflexivity.
Qed.

(** The ledger after a sync at [now] that comes after every earlier sync:
    a row is either older than [now] or written by this sync, and the row
    of the key is one of the latter. *)
Lemma mergeToday_rows (now : Z) (user_id : string) (deviceId : nat)
    (payload : ActivityData.t) (source : string) (rows : list Summary.t) :
  Forall (fun r => Summary.sync_timestamp r < now) rows ->
  Forall (fun r => Summary.sync_timestamp r < now
                   \/ writtenBy now user_id payload r)
    (snd (mergeToday now user_id deviceId payload source rows))
  /\ In (fst (mergeToday now user_id deviceId payload source rows))
       (snd (mergeToday now user_id deviceId payload source rows))
  /\ writtenBy now user_id payload
       (fst (mergeToday now user_id deviceId payload source rows)).
Proof.
  intros Hold. unfold mergeToday, upsertRows.
  destruct (find (summaryKey user_id deviceId (utcMidnight now)) rows)
    as [r|] eqn:E; simpl.
  - apply find_some in E. destruct E as [Hin Hkey].
    pose proof Hkey as Hk. apply summaryKey_iff in Hk.
    unfold ledgerKey in Hk. injection Hk as Hu Hd Hday.
    split; [|split].
    + apply Forall_forall. intros x Hx.
      unfold updateWhere in Hx. apply in_map_iff in Hx.
      destruct Hx as [y [Hy Hiny]].
      destruct (summaryKey user_id deviceId (utcMidnight now) y) eqn:K.
      * right. subst x. apply summaryKey_iff in K. unfold ledgerKey in K.
        injection K as Ku Kd Kday.
        unfold writtenBy; simpl. repeat split; assumption.
      * left. subst x. rewrite Forall_forall in Hold. apply Hold. exact Hiny.
    + unfold updateWhere. apply in_map_iff. exists r.
      rewrite Hkey. split; [reflexivity | exact Hin].
    + unfold writtenBy; simpl. repeat split; assumption.
  - split; [|split].
    + apply Forall_app. split.
      * eapply Forall_impl; [|exact Hold]. intros x Hx. left. exact Hx.
      * constructor; [|constructor]. right.
        unfold writtenBy; simpl. repeat split; reflexivity.
    + apply in_or_app. right. left. reflexivity.
    + unfold writtenBy; simpl. repeat split; reflexivity.
Qed.

(** A sync of one's own device that comes after every sync recorded so
    far decides the balance of its day: the balance is not [null], its
    energy out is the payload's calories burned plus basal estimate, rounded,
    and intake, difference and status follow from the meals of the day. *)
Theorem syncDeviceData_then_getDailyBalance (parseDate : string -> option Z)
    (now : Z) (user_id : string) (deviceId : nat) (payload : ActivityData.t)
    (date : string) (db : Db) (device : Device.t)
    (Hfound : find (ownedDevice deviceId user_id) (connectedDevice db) = Some device)
    (Hdate : parseDate date = Some (utcMidnight now))
    (Hnext : hasNextDay (utcMidnight now))
    (Hlater :
       Forall (fun r => Summary.sync_timestamp r < now) (dailyActivitySummary db)) :
  getDailyBalance parseDate user_id date (afterSync now user_id deviceId payload db)
  = (Ok (Some (mkDailyBalance
                 (mathRound (intakeOn db user_id (utcMidnight now)))
                 (mathRound (payloadEnergySpent payload))
                 (mathRound (intakeOn db user_id (utcMidnight now)
                             - payloadEnergySpent payload)%D)
                 (classify
                    (if (payloadEnergySpent payload >? numZ 0)%D
                     then (mathAbs (intakeOn db user_id (utcMidnight now)
                                    - payloadEnergySpent payload)
                           / payloadEnergySpent payload)%D
                     else numZ 0)))),
     afterSync now user_id deviceId payload db).
Proof.
  unfold afterSync, finalDb.
  rewrite (syncDeviceData_owned now user_id deviceId payload db device Hfound).
  cbn [snd].
  destruct (mergeToday_rows now user_id deviceId payload
              (Device.device_name device) (dailyActivitySummary db) Hlater)
    as [Hrows [Hin Hwritten]].
  set (db' := mkDb _ _ _ _).
  assert (Hfiltered :
            In (fst (mergeToday now user_id deviceId payload
                       (Device.device_name device) (dailyActivitySummary db)))
              (recordsOn db' user_id (utcMidnight now))).
  { unfold recordsOn. apply filter_In. split; [exact Hin|].
    destruct Hwritten as [_ [Hu [Hday _]]].
    rewrite Hu, Hday, String.eqb_refl, Z.eqb_refl. reflexivity. }
  destruct (latestSynced (recordsOn db' user_id (utcMidnight now)))
    as [r|] eqn:Hlatest;
    [|apply latestSynced_none in Hlatest; rewrite Hlatest in Hfiltered;
      contradiction].
  destruct (latestSynced_max _ _ Hlatest) as [Hr Hmax].
  assert (Hw : writtenBy now user_id payload r).
  { specialize (Hmax _ Hfiltered).
    destruct Hwritten as [Hts _]. rewrite Hts in Hmax.
    unfold recordsOn in Hr. apply filter_In in Hr. destruct Hr as [Hr _].
    rewrite Forall_forall in Hrows. destruct (Hrows r Hr) as [Hless | Hw];
      [lia | exact Hw]. }
  rewrite (getDailyBalance_found parseDate db' user_id date (utcMidnight now) r
             Hdate Hnext Hlatest).
  rewrite (writtenBy_energyOut now user_id payload r Hw).
  reflexivity.
Qed.

(** The noon sync of [noonDb] and the balance of 11 March. *)
Lemma syncDeviceData_then_getDailyBalance_witness :
  exists b,
    getDailyBalance knownDates "ana" "2024-03-11" noonDb = (Ok (Some b), noonDb)
    /\ caloriesIn b = numZ 3000
    /\ caloriesOut b = numZ 2110
    /\ balanceStatus b = significant_imbalance.
Proof.
  assert (Hlater :
            Forall (fun r => Summary.sync_timestamp r < 1710158400000)
              (dailyActivitySummary marchDb))
    by (repeat constructor).
  assert (Hnext : hasNextDay (utcMidnight 1710158400000))
    by (unfold hasNextDay; vm_compute; split; discriminate).
  unfold noonDb.
  rewrite (syncDeviceData_then_getDailyBalance knownDates 1710158400000 "ana" 0
             noonPayload "2024-03-11" marchDb marchDevice eq_refl eq_refl
             Hnext Hlater).
  eexists. split; [reflexivity|]. split; [|split]; vm_compute; reflexivity.
Defined.

(** ** The outcome of a connect *)

(** A connect throws exactly when the type is not a supported one, and
    then changes nothing; the reason given is always the same.  Otherwise it
    returns, whatever the backfill does, a device that carries the name
    passed, is marked CONNECTED and last synced at the time of the call, and
    the owner has a device of that type afterwards. *)
Theorem connectDevice_outcome (now : Z) (env : SyncEnv)
    (user_id deviceType deviceName : string)
    (accessToken refreshToken : option string) (db : Db) :
  (includes validDeviceTypes deviceType = false ->
   connectDevice now env user_id deviceType deviceName accessToken refreshToken db
   = (Throw "Failed to connect device", db))
  /\ (includes validDeviceTypes deviceType = true ->
      exists d db',
        connectDevice now env user_id deviceType deviceName accessToken
          refreshToken db = (Ok d, db')
        /\ Device.device_name d = deviceName
        /\ Device.connection_status d = CONNECTED
        /\ Device.last_sync_time d = Some now
        /\ Device.token_expires_at d = expiryOrNull now accessToken
        /\ (1 <= deviceCount db' user_id deviceType)%nat
        /\ meal db' = meal db).
Proof.
  split; [apply connectDevice_invalid|].
  intros Hvalid.
  destruct (connectDevice_returns now env user_id deviceType deviceName
              accessToken refreshToken db Hvalid) as [d [db' [Hcall [Hcount _]]]].
  exists d, db'. split; [exact Hcall|].
  assert (Hmeal : forall id db1,
             meal (snd (performInitialSync env user_id id deviceType db1))
             = meal db1).
  { intros id db1.
    apply (keeps_performInitialSync (fun a b => meal b = meal a)); try congruence.
    intros t a db2.
    apply (syncDeviceData_meal t user_id id a db2). }
  destruct (find (deviceOfType user_id deviceType) (connectedDevice db))
    as [existing|] eqn:E.
  - destruct (connectDevice_reconnects now env user_id deviceType deviceName
                accessToken refreshToken db existing Hvalid E)
      as [d0 [_ Hsteps]].
    rewrite Hsteps in Hcall. injection Hcall as Hd Hdb'. subst d db'.
    repeat (split; [reflexivity|]). split; [exact Hcount|].
    rewrite Hmeal. reflexivity.
  - rewrite (connectDevice_creates now env user_id deviceType deviceName
               accessToken refreshToken db Hvalid E) in Hcall.
    injection Hcall as Hd Hdb'. subst d db'.
    repeat (split; [reflexivity|]). split; [exact Hcount|].
    rewrite Hmeal. reflexivity.
Qed.

(** ** Nothing is ever deleted *)

Lemma extends_refl (db : Db) : extends db db.
Proof.
  split; [exists []; rewrite app_nil_r; reflexivity|].
  split; [exists []; rewrite app_nil_r; reflexivity | reflexivity].
Qed.

Lemma extends_trans (db1 db2 db3 : Db) :
  extends db1 db2 -> extends db2 db3 -> extends db1 db3.
Proof.
  intros [[d1 Hd1] [[k1 Hk1] Hm1]] [[d2 Hd2] [[k2 Hk2] Hm2]].
  split; [exists (d1 ++ d2); rewrite Hd2, Hd1, app_assoc; reflexivity|].
  split; [exists (k1 ++ k2); rewrite Hk2, Hk1, app_assoc; reflexivity|].
  congruence.
Qed.

Lemma effect_extends (db db' : Db) : effect db db' -> extends db db'.
Proof.
  induction 1 as [db | db1 db2 db3 _ IH12 _ IH23 | db p f Hf | db d Hnone
                 | db user device day update created Hupdate Hcreated].
  - apply extends_refl.
  - eapply extends_trans; eassumption.
  - split; [exists []|split; [exists []|reflexivity]];
      rewrite app_nil_r; [|reflexivity].
    unfold registry; simpl. apply registry_updateWhere. exact Hf.
  - split; [exists [deviceIdent d]|split; [exists []|reflexivity]];
      [|rewrite app_nil_r; reflexivity].
    unfold registry; simpl. apply map_app.
  - split; [exists []; rewrite app_nil_r; reflexivity|].
    split; [|reflexivity]. simpl. unfold upsertRows.
    destruct (find (summaryKey user device day) (dailyActivitySummary db)); simpl.
    + exists []. rewrite app_nil_r. apply map_updateWhere_kept. exact Hupdate.
    + exists [ledgerKey created]. apply map_app.
Qed.

(** Whatever calls are made, in whatever order and with whatever outcome:
    every device row that was there is still there, with its id, owner, type
    and primary mark, in its place; every ledger row that was there is still
    there, with its key, in its place; and the meals are untouched. *)
Theorem runAll_extends (parseDate : string -> option Z) (calls : list Call)
    (db : Db) :
  extends db (runAll parseDate calls db).
Proof. apply effect_extends, runAll_effect. Qed.

(** ** Device ids stay fresh *)

Lemma keepsFresh_refl (db : Db) : keepsFresh db db.
Proof. intros H. exact H. Qed.

Lemma keepsFresh_trans (db1 db2 db3 : Db) :
  keepsFresh db1 db2 -> keepsFresh db2 db3 -> keepsFresh db1 db3.
Proof. unfold keepsFresh. auto. Qed.

Lemma idsFresh_updateWhere (p : Device.t -> bool) (f : Device.t -> Device.t)
    (db : Db) :
  (forall d, Device.connected_device_id (f d) = Device.connected_device_id d) ->
  keepsFresh db (withDevices (updateWhere p f) db).
Proof.
  intros Hf Hfresh. unfold idsFresh in *; simpl.
  unfold updateWhere. apply Forall_map.
  eapply Forall_impl; [|exact Hfresh].
  intros d Hd. destruct (p d); [rewrite Hf|]; exact Hd.
Qed.

Lemma fresh_deviceUpdate (id : nat) (f : Device.t -> Device.t) :
  (forall d, Device.connected_device_id (f d) = Device.connected_device_id d) ->
  keeps keepsFresh (deviceUpdate id f).
Proof.
  intros Hf db. unfold deviceUpdate.
  destruct (find (isDevice id) (connectedDevice db)); simpl.
  - apply idsFresh_updateWhere. exact Hf.
  - apply keepsFresh_refl.
Qed.

Lemma fresh_deviceUpdateMany (p : Device.t -> bool) (f : Device.t -> Device.t) :
  (forall d, Device.connected_device_id (f d) = Device.connected_device_id d) ->
  keeps keepsFresh (deviceUpdateMany p f).
Proof. intros Hf db. apply idsFresh_updateWhere. exact Hf. Qed.

Lemma fresh_deviceCreate (data : nat -> Device.t) :
  (forall id, Device.connected_device_id (data id) = id) ->
  keeps keepsFresh (deviceCreate data).
Proof.
  intros Hdata db Hfresh. unfold idsFresh in *; simpl.
  apply Forall_app. split.
  - eapply Forall_impl; [|exact Hfresh]. intros d Hd. simpl in Hd. lia.
  - constructor; [|constructor]. rewrite Hdata. lia.
Qed.

Lemma fresh_deviceUpsert (user ty : string) (f : Device.t -> Device.t)
    (data : nat -> Device.t) :
  (forall d, Device.connected_device_id (f d) = Device.connected_device_id d) ->
  (forall id, Device.connected_device_id (data id) = id) ->
  keeps keepsFresh (deviceUpsert user ty f data).
Proof.
  intros Hf Hdata db. unfold deviceUpsert.
  destruct (find (deviceOfType user ty) (connectedDevice db)); simpl.
  - apply idsFresh_updateWhere. exact Hf.
  - apply fresh_deviceCreate. exact Hdata.
Qed.

Lemma fresh_summaryUpsert (user : string) (device : nat) (date : option Z)
    (update : Summary.t -> Summary.t) (create : Z -> Summary.t) :
  keeps keepsFresh (summaryUpsert user device date update create).
Proof.
  intros db. unfold summaryUpsert. destruct date; simpl; intros H; exact H.
Qed.

Lemma fresh_read {A : Type} (f : Db -> A) :
  keeps keepsFresh (fun db => (Ok (f db), db)).
Proof. intros db H. exact H. Qed.

(** One step of a proof that a service keeps device ids fresh. *)
Ltac fresh_step :=
  first
    [ apply (keeps_ret keepsFresh keepsFresh_refl)
    | apply (keeps_throw keepsFresh keepsFresh_refl)
    | apply (keeps_tryCatch keepsFresh keepsFresh_trans)
    | apply (keeps_bind keepsFresh keepsFresh_trans)
    | apply fresh_summaryUpsert
    | apply fresh_deviceUpdate; reflexivity
    | apply fresh_deviceUpdateMany; reflexivity
    | apply fresh_deviceCreate; reflexivity
    | apply fresh_deviceUpsert; reflexivity
    | apply fresh_read
    | intros [?|]
    | intros ? ].

Lemma fresh_syncDeviceData (now : Z) (user_id : string) (deviceId : nat)
    (activityData : ActivityData.t) :
  keeps keepsFresh (syncDeviceData now user_id deviceId activityData).
Proof. unfold syncDeviceData, deviceFindFirst. repeat fresh_step. Qed.

Lemma fresh_performInitialSync (env : SyncEnv) (user_id : string)
    (deviceId : nat) (deviceType : string) :
  keeps keepsFresh (performInitialSync env user_id deviceId deviceType).
Proof.
  apply keeps_performInitialSync;
    [apply keepsFresh_refl | apply keepsFresh_trans |].
  intros now a. apply fresh_syncDeviceData.
Qed.

Lemma fresh_connectDevice (now : Z) (env : SyncEnv)
    (user_id deviceType deviceName : string)
    (accessToken refreshToken : option string) :
  keeps keepsFresh
    (connectDevice now env user_id deviceType deviceName accessToken refreshToken).
Proof.
  unfold connectDevice, deviceFindFirst.
  fresh_step; [|repeat fresh_step].
  destruct (negb (includes validDeviceTypes deviceType)); [fresh_step|].
  fresh_step; [fresh_step|]. intros [existing|].
  - fresh_step; [fresh_step|]. intros updated.
    fresh_step; [apply fresh_performInitialSync | repeat fresh_step].
  - fresh_step; [fresh_step|]. intros created.
    fresh_step; [apply fresh_performInitialSync | repeat fresh_step].
Qed.

Lemma fresh_disconnectDevice (now : Z) (user_id : string) (deviceId : nat) :
  keeps keepsFresh (disconnectDevice now user_id deviceId).
Proof. unfold disconnectDevice, deviceFindFirst. repeat fresh_step. Qed.

Lemma fresh_updateDeviceTokens (now : Z) (user_id : string) (deviceId : nat)
    (accessToken refreshToken : option string) :
  keeps keepsFresh
    (updateDeviceTokens now user_id deviceId accessToken refreshToken).
Proof. unfold updateDeviceTokens. repeat fresh_step. Qed.

Lemma fresh_syncDays (parseDate : string -> option Z) (now : Z)
    (user_id : string) (deviceId : nat) (device : Device.t)
    (payloads : list DayData.t) :
  forall results,
    keeps keepsFresh
      (syncDays parseDate now user_id deviceId device payloads results).
Proof.
  induction payloads as [|dayData rest IH]; intros results; simpl.
  - fresh_step.
  - fresh_step; [|intros; apply IH]. unfold syncDay. repeat fresh_step.
Qed.

Lemma fresh_bulkSyncDeviceData (parseDate : string -> option Z) (now : Z)
    (user_id : string) (deviceId : nat) (payloads : list DayData.t) :
  keeps keepsFresh (bulkSyncDeviceData parseDate now user_id deviceId payloads).
Proof.
  unfold bulkSyncDeviceData, deviceFindFirst.
  fresh_step; [|repeat fresh_step].
  fresh_step; [fresh_step|]. intros [device|]; [|fresh_step].
  fresh_step; [apply fresh_syncDays | repeat fresh_step].
Qed.

Lemma fresh_syncWithDevice (parseDate : string -> option Z) (now : Z)
    (userId deviceType : string) (deviceData : DeviceData.t) :
  keeps keepsFresh (syncWithDevice parseDate now userId deviceType deviceData).
Proof.
  unfold syncWithDevice, saveHealthData.
  fresh_step; [fresh_step|]. intros device.
  destruct (DeviceData.date deviceData) as [date|]; [|fresh_step].
  destruct (DeviceData.steps deviceData); [|fresh_step].
  destruct (truthy (Some date)); repeat fresh_step.
Qed.

Lemma fresh_getDailyBalance (parseDate : string -> option Z)
    (user_id date : string) :
  keeps keepsFresh (getDailyBalance parseDate user_id date).
Proof.
  unfold getDailyBalance, mealFindMany, summaryFindLatest.
  fresh_step; [|repeat fresh_step].
  destruct (parseDate date) as [startDate|]; [|fresh_step].
  destruct (setDate startDate (numZ (getDate startDate) + numZ 1)%D);
    repeat fresh_step.
Qed.

Lemma fresh_getDeviceAnalytics (now : Z) (user_id : string) (deviceId : nat)
    (days : double) :
  keeps keepsFresh (getDeviceAnalytics now user_id deviceId days).
Proof.
  unfold getDeviceAnalytics, summaryFindManyByDate.
  fresh_step; [|repeat fresh_step].
  destruct (setDate now (numZ (getDate now) - days)%D); repeat fresh_step.
Qed.

Lemma fresh_run (parseDate : string -> option Z) (c : Call) (db : Db) :
  keepsFresh db (run parseDate c db).
Proof.
  destruct c; unfold run, finalDb.
  - apply fresh_connectDevice.
  - apply fresh_disconnectDevice.
  - apply fresh_syncDeviceData.
  - apply fresh_bulkSyncDeviceData.
  - apply fresh_updateDeviceTokens.
  - apply fresh_syncWithDevice.
  - apply fresh_getDailyBalance.
  - apply fresh_getDeviceAnalytics.
Qed.

(** In every database reached from the empty one, the ids of the device
    rows lie below the next id to hand out. *)
Lemma runAll_idsFresh (parseDate : string -> option Z) (calls : list Call) :
  idsFresh (runAll parseDate calls emptyDb).
Proof.
  assert (Hall : forall db, keepsFresh db (runAll parseDate calls db)).
  { unfold runAll. induction calls as [|c rest IH]; intros db; simpl.
    - apply keepsFresh_refl.
    - eapply keepsFresh_trans; [apply fresh_run | apply IH]. }
  apply Hall. constructor.
Qed.

(** ** Listing devices and activity *)

Lemma insertNewest_perm (d : Device.t) (l : list Device.t) :
  Permutation (insertNewest d l) (d :: l).
Proof.
  induction l as [|x rest IH]; simpl; [reflexivity|].
  destruct (Device.created_at x <? Device.created_at d); [reflexivity|].
  rewrite IH. apply perm_swap.
Qed.

Lemma sortNewestFirst_perm (l : list Device.t) :
  Permutation (sortNewestFirst l) l.
Proof.
  unfold sortNewestFirst. induction l as [|d rest IH]; simpl; [reflexivity|].
  rewrite insertNewest_perm. constructor. exact IH.
Qed.

Lemma insertNewest_sorted (d : Device.t) (l : list Device.t) :
  Sorted (fun a b => Device.created_at b <= Device.created_at a) l ->
  Sorted (fun a b => Device.created_at b <= Device.created_at a)
    (insertNewest d l).
Proof.
  induction 1 as [|x rest Hrest IH Hhd]; simpl.
  - repeat constructor.
  - destruct (Device.created_at x <? Device.created_at d) eqn:E.
    + apply Z.ltb_lt in E. repeat constructor; auto; lia.
    + apply Z.ltb_ge in E. constructor; [exact IH|].
      destruct rest as [|y rest']; simpl.
      * constructor. exact E.
      * inversion Hhd; subst.
        destruct (Device.created_at y <? Device.created_at d);
          constructor; auto.
Qed.

Lemma sortNewestFirst_sorted (l : list Device.t) :
  StronglySorted (fun a b => Device.created_at b <= Device.created_at a)
    (sortNewestFirst l).
Proof.
  apply Sorted_StronglySorted.
  - intros a b c Hab Hbc. lia.
  - unfold sortNewestFirst. induction l as [|d rest IH]; simpl.
    + constructor.
    + apply insertNewest_sorted. exact IH.
Qed.

(** The list of devices never fails; it holds the rows of the owner, each
    once and no others, the most recently created first. *)
Theorem getUserDevices_newest_first (user_id : string) (db : Db) :
  exists devices,
    getUserDevices user_id db = (Ok devices, db)
    /\ Permutation devices
         (filter (fun d => (Device.user_id d =? user_id)%string)
            (connectedDevice db))
    /\ StronglySorted (fun a b => Device.created_at b <= Device.created_at a)
         devices.
Proof.
  eexists. split; [reflexivity|].
  split; [apply sortNewestFirst_perm | apply sortNewestFirst_sorted].
Qed.

Lemma insertLatestDate_perm (r : Summary.t) (l : list Summary.t) :
  Permutation (insertLatestDate r l) (r :: l).
Proof.
  induction l as [|x rest IH]; simpl; [reflexivity|].
  destruct (Summary.date x <? Summary.date r); [reflexivity|].
  rewrite IH. apply perm_swap.
Qed.

Lemma sortByDateDesc_perm (l : list Summary.t) :
  Permutation (sortByDateDesc l) l.
Proof.
  unfold sortByDateDesc. induction l as [|r rest IH]; simpl; [reflexivity|].
  rewrite insertLatestDate_perm. constructor. exact IH.
Qed.

Lemma insertLatestDate_sorted (r : Summary.t) (l : list Summary.t) :
  Sorted (fun a b => Summary.date b <= Summary.date a) l ->
  Sorted (fun a b => Summary.date b <= Summary.date a) (insertLatestDate r l).
Proof.
  induction 1 as [|x rest Hrest IH Hhd]; simpl.
  - repeat constructor.
  - destruct (Summary.date x <? Summary.date r) eqn:E.
    + apply Z.ltb_lt in E. repeat constructor; auto; lia.
    + apply Z.ltb_ge in E. constructor; [exact IH|].
      destruct rest as [|y rest']; simpl.
      * constructor. exact E.
      * inversion Hhd; subst.
        destruct (Summary.date y <? Summary.date r); constructor; auto.
Qed.

Lemma sortByDateDesc_sorted (l : list Summary.t) :
  StronglySorted (fun a b => Summary.date b <= Summary.date a)
    (sortByDateDesc l).
Proof.
  apply Sorted_StronglySorted.
  - intros a b c Hab Hbc. lia.
  - unfold sortByDateDesc. induction l as [|r rest IH]; simpl.
    + constructor.
    + apply insertLatestDate_sorted. exact IH.
Qed.

Lemma getActivityData_found (parseDate : string -> option Z)
    (user_id startDate endDate : string) (gte lte : Z) (db : Db) :
  parseDate startDate = Some gte ->
  parseDate endDate = Some lte ->
  exists rows,
    getActivityData parseDate user_id startDate endDate db = (Ok rows, db)
    /\ getHealthDataForDateRange parseDate user_id startDate endDate db
       = (Ok rows, db)
    /\ Permutation (map fst rows)
         (filter
            (fun r =>
               (Summary.user_id r =? user_id)%string
               && (gte <=? Summary.date r) && (Summary.date r <=? lte))
            (dailyActivitySummary db))
    /\ StronglySorted (fun a b => Summary.date b <= Summary.date a)
         (map fst rows)
    /\ Forall
         (fun row =>
            snd row
            = find (isDevice (Summary.device_id (fst row)))
                (connectedDevice db))
         rows.
Proof.
  intros Hs He.
  unfold getActivityData, getHealthDataForDateRange, tryCatch, summaryFindRange.
  rewrite Hs, He. eexists. split; [reflexivity|]. split; [reflexivity|].
  rewrite map_map. simpl. rewrite map_id.
  split; [apply sortByDateDesc_perm|].
  split; [apply sortByDateDesc_sorted|].
  apply Forall_map. apply Forall_forall. intros r _. reflexivity.
Qed.

(** An activity query whose start or end is no date throws.  Otherwise it
    returns the owner's rows dated from start to end, both ends included,
    each once and no others, the latest date first, each with the device it
    belongs to; the HealthKit range query returns the same. *)
Theorem getActivityData_range (parseDate : string -> option Z)
    (user_id startDate endDate : string) (db : Db) :
  (parseDate startDate = None \/ parseDate endDate = None ->
   getActivityData parseDate user_id startDate endDate db
   = (Throw "Failed to fetch activity data", db))
  /\ (forall gte lte,
         parseDate startDate = Some gte ->
         parseDate endDate = Some lte ->
         exists rows,
           getActivityData parseDate user_id startDate endDate db = (Ok rows, db)
           /\ getHealthDataForDateRange parseDate user_id startDate endDate db
              = (Ok rows, db)
           /\ Permutation (map fst rows)
                (filter
                   (fun r =>
                      (Summary.user_id r =? user_id)%string
                      && (gte <=? Summary.date r) && (Summary.date r <=? lte))
                   (dailyActivitySummary db))
           /\ StronglySorted (fun a b => Summary.date b <= Summary.date a)
                (map fst rows)
           /\ Forall
                (fun row =>
                   snd row
                   = find (isDevice (Summary.device_id (fst row)))
                       (connectedDevice db))
                rows).
Proof.
  split.
  - intros Hbad.
    unfold getActivityData, tryCatch, summaryFindRange.
    destruct Hbad as [Hbad | Hbad]; rewrite Hbad;
      [|destruct (parseDate startDate)]; reflexivity.
  - intros gte lte. apply getActivityData_found.
Qed.

(** What a sync of one's own device has written is found by an activity
    query over any range that contains the day of the sync: the returned
    row is among the rows of the answer, and the device that comes with it
    is marked CONNECTED. *)
Theorem syncDeviceData_then_getActivityData (parseDate : string -> option Z)
    (now : Z) (user_id : string) (deviceId : nat) (payload : ActivityData.t)
    (startDate endDate : string) (gte lte : Z) (db : Db) (device : Device.t)
    (Hfound : find (ownedDevice deviceId user_id) (connectedDevice db) = Some device)
    (Hstart : parseDate startDate = Some gte)
    (Hend : parseDate endDate = Some lte)
    (Hrange : gte <= utcMidnight now <= lte) :
  exists r db' rows joined,
    syncDeviceData now user_id deviceId payload db = (Ok r, db')
    /\ getActivityData parseDate user_id startDate endDate db' = (Ok rows, db')
    /\ In (r, Some joined) rows
    /\ Device.connected_device_id joined = deviceId
    /\ Device.connection_status joined = CONNECTED.
Proof.
  destruct (find_weaken (ownedDevice deviceId user_id) (isDevice deviceId)
              (connectedDevice db) device) as [first Hfirst]; auto.
  { intros y. unfold ownedDevice. rewrite andb_true_iff. tauto. }
  rewrite (syncDeviceData_owned now user_id deviceId payload db device Hfound).
  set (r := fst (mergeToday now user_id deviceId payload
                   (Device.device_name device) (dailyActivitySummary db))).
  set (db' := mkDb _ _ _ _).
  destruct (getActivityData_found parseDate user_id startDate endDate gte lte
              db' Hstart Hend)
    as [rows [Hcall [_ [Hperm [_ Hjoin]]]]].
  assert (Hkey : summaryKey user_id deviceId (utcMidnight now) r = true).
  { unfold r, mergeToday, upsertRows.
    destruct (find (summaryKey user_id deviceId (utcMidnight now))
                (dailyActivitySummary db)) eqn:F; simpl.
    - apply find_some in F. destruct F as [_ F]. exact F.
    - apply summaryKey_create. }
  pose proof Hkey as Hk. apply summaryKey_iff in Hk. unfold ledgerKey in Hk.
  injection Hk as Hu Hd Hday.
  assert (Hin : In r (dailyActivitySummary db')).
  { unfold db', r; simpl. unfold mergeToday, upsertRows.
    destruct (find (summaryKey user_id deviceId (utcMidnight now))
                (dailyActivitySummary db)) eqn:F; simpl.
    - unfold updateWhere. apply in_map_iff. exists t.
      apply find_some in F. destruct F as [Hin F]. rewrite F.
      split; [reflexivity | exact Hin].
    - apply in_or_app. right. left. reflexivity. }
  assert (Hrow : In r (map fst rows)).
  { eapply Permutation_in; [symmetry; exact Hperm|].
    apply filter_In. split; [exact Hin|].
    rewrite Hu, Hday, String.eqb_refl. simpl.
    apply andb_true_iff. split; apply Z.leb_le; lia. }
  apply in_map_iff in Hrow. destruct Hrow as [[r' joined] [Hr' Hpair]].
  simpl in Hr'. subst r'.
  rewrite Forall_forall in Hjoin. specialize (Hjoin _ Hpair).
  cbn [fst snd] in Hjoin.
  assert (Hdevice :
            find (isDevice (Summary.device_id r)) (connectedDevice db')
            = Some (touchSynced now first)).
  { rewrite Hd. unfold db'; simpl.
    rewrite find_updateWhere by reflexivity. rewrite Hfirst. simpl.
    apply find_some in Hfirst. destruct Hfirst as [_ Hid]. rewrite Hid.
    reflexivity. }
  rewrite Hdevice in Hjoin. subst joined.
  exists r, db', rows, (touchSynced now first).
  split; [reflexivity|]. split; [exact Hcall|]. split; [exact Hpair|].
  split; [|reflexivity]. simpl.
  apply find_some in Hfirst. destruct Hfirst as [_ Hid].
  unfold isDevice in Hid. apply Nat.eqb_eq in Hid. exact Hid.
Qed.

Lemma syncDeviceData_then_getActivityData_witness :
  exists r db' rows joined,
    syncDeviceData 1710158400000 "ana" 0 noonPayload marchDb = (Ok r, db')
    /\ getActivityData knownDates "ana" "2024-03-10" "2024-03-11" db'
       = (Ok rows, db')
    /\ In (r, Some joined) rows
    /\ Device.connected_device_id joined = 0%nat
    /\ Device.connection_status joined = CONNECTED.
Proof.
  apply (syncDeviceData_then_getActivityData knownDates 1710158400000 "ana" 0
           noonPayload "2024-03-10" "2024-03-11" 1710028800000 1710115200000
           marchDb marchDevice eq_refl eq_refl eq_refl).
  vm_compute. split; discriminate.
Defined.

(** ** The route that syncs all devices *)

Lemma mergeToday_written (now : Z) (user_id : string) (deviceId : nat)
    (payload : ActivityData.t) (source : string) (rows : list Summary.t) :
  In (user_id, deviceId, utcMidnight now)
    (map ledgerKey (snd (mergeToday now user_id deviceId payload source rows))).
Proof.
  unfold mergeToday, upsertRows.
  destruct (find (summaryKey user_id deviceId (utcMidnight now)) rows)
    as [r|] eqn:F; simpl.
  - rewrite (map_updateWhere_kept ledgerKey) by reflexivity.
    apply find_some in F. destruct F as [Hin Hkey].
    apply summaryKey_iff in Hkey. rewrite <- Hkey. apply in_map. exact Hin.
  - rewrite map_app. apply in_or_app. right. left. reflexivity.
Qed.

Lemma sameCore_owned (db db' : Db) (user_id : string) (deviceId : nat) :
  sameCore db db' ->
  find (ownedDevice deviceId user_id) (connectedDevice db) <> None ->
  find (ownedDevice deviceId user_id) (connectedDevice db') <> None.
Proof.
  intros [Hcore _] Hsome Hnone.
  pose proof (find_by_projection deviceCore (ownedDevice deviceId user_id) _ _
                (ownedDevice_core deviceId user_id) Hcore) as Hfind.
  rewrite Hnone in Hfind.
  destruct (find (ownedDevice deviceId user_id) (connectedDevice db));
    [discriminate | contradiction].
Qed.

Lemma extends_keys (db db' : Db) (key : string * nat * Z) :
  extends db db' ->
  In key (map ledgerKey (dailyActivitySummary db)) ->
  In key (map ledgerKey (dailyActivitySummary db')).
Proof.
  intros [_ [[keys Hkeys] _]] Hin. rewrite Hkeys.
  apply in_or_app. left. exact Hin.
Qed.

Lemma syncEachDevice_all (env : SyncEnv) (user_id : string)
    (devices : list Device.t) :
  forall i db,
    Forall
      (fun d =>
         find (ownedDevice (Device.connected_device_id d) user_id)
           (connectedDevice db) <> None)
      devices ->
    exists db',
      syncEachDevice env user_id i devices db
      = (Ok (List.length devices, 0%nat), db')
      /\ sameCore db db'
      /\ extends db db'
      /\ forall j d,
          nth_error devices j = Some d ->
          In (user_id, Device.connected_device_id d,
              utcMidnight (tick env (i + j)))
            (map ledgerKey (dailyActivitySummary db')).
Proof.
  induction devices as [|device rest IH]; intros i db Howned; simpl.
  - exists db. split; [reflexivity|]. split; [apply sameCore_refl|].
    split; [apply extends_refl|]. intros [|j] d H; discriminate.
  - inversion Howned as [|x l Hdevice Hrest]; subst.
    destruct (find (ownedDevice (Device.connected_device_id device) user_id)
                (connectedDevice db)) as [found|] eqn:F; [|contradiction].
    pose proof (syncDeviceData_core (tick env i) user_id
                  (Device.connected_device_id device)
                  (syncAllPayload (sample env i)) db) as Hcore.
    pose proof (effect_extends _ _
                  (writes_syncDeviceData (tick env i) user_id
                     (Device.connected_device_id device)
                     (syncAllPayload (sample env i)) db)) as Hext.
    unfold bind at 1. unfold tryCatch. unfold bind at 1.
    rewrite (syncDeviceData_owned (tick env i) user_id
               (Device.connected_device_id device)
               (syncAllPayload (sample env i)) db found F) in *.
    cbn [snd] in Hcore, Hext.
    set (db1 := mkDb _ _ _ _) in *.
    unfold ret at 1. unfold bind at 1.
    destruct (IH (S i) db1) as [db' [Hcall [Hcore' [Hext' Hkeys]]]].
    { eapply Forall_impl; [|exact Hrest].
      intros d Hd. eapply sameCore_owned; eassumption. }
    rewrite Hcall. unfold ret. exists db'.
    split; [reflexivity|].
    split; [eapply sameCore_trans; eassumption|].
    split; [eapply extends_trans; eassumption|].
    intros [|j] d Hnth; simpl in Hnth.
    + injection Hnth as <-. rewrite Nat.add_0_r.
      apply (extends_keys db1 db' _ Hext').
      unfold db1; simpl. apply mergeToday_written.
    + replace (i + S j)%nat with (S i + j)%nat by lia.
      apply Hkeys. exact Hnth.
Qed.

Lemma Permutation_filter_same {A : Type} (p : A -> bool) (l l' : list A) :
  Permutation l l' -> Permutation (filter p l) (filter p l').
Proof.
  induction 1 as [|x l l' _ IH|x y l|l1 l2 l3 _ IH12 _ IH23]; simpl.
  - constructor.
  - destruct (p x); [constructor|]; exact IH.
  - destruct (p x), (p y); try reflexivity. apply perm_swap.
  - etransitivity; eassumption.
Qed.

Lemma filter_twice {A : Type} (p q : A -> bool) (l : list A) :
  filter q (filter p l) = filter (fun x => p x && q x) l.
Proof.
  induction l as [|x rest IH]; simpl; [reflexivity|].
  destruct (p x); simpl; [destruct (q x)|]; rewrite IH; reflexivity.
Qed.

(** The sync-all route answers with its counts whatever the database holds.
    The devices it takes up are those of the caller that are marked
    CONNECTED, the most recently created first; each of them is synced, none
    fails, and each has a ledger row for the day of its sync afterwards.  No
    device is created, and no device loses its name, type or credentials. *)
Theorem syncAllRoute_syncs_connected (env : SyncEnv) (user_id : string) (db : Db) :
  exists db',
    syncAllRoute env user_id db
    = (Json (mkSyncAllData
               (deviceCountConnected db user_id)
               (deviceCountConnected db user_id) 0),
       db')
    /\ sameCore db db'
    /\ extends db db'
    /\ forall j d,
        nth_error (connectedDevicesOf db user_id) j = Some d ->
        In (user_id, Device.connected_device_id d, utcMidnight (tick env j))
          (map ledgerKey (dailyActivitySummary db')).
Proof.
  assert (Howned :
            Forall
              (fun d =>
                 find (ownedDevice (Device.connected_device_id d) user_id)
                   (connectedDevice db) <> None)
              (connectedDevicesOf db user_id)).
  { apply Forall_forall. intros d Hd Hnone.
    unfold connectedDevicesOf in Hd. apply filter_In in Hd.
    destruct Hd as [Hd _].
    apply (Permutation_in _ (sortNewestFirst_perm _)) in Hd.
    apply filter_In in Hd. destruct Hd as [Hin Huser].
    pose proof (find_none _ _ Hnone d Hin) as Hno.
    unfold ownedDevice, isDevice in Hno.
    rewrite Nat.eqb_refl, Huser in Hno. discriminate. }
  destruct (syncEachDevice_all env user_id (connectedDevicesOf db user_id) 0 db
              Howned) as [db' [Hcall [Hcore [Hext Hkeys]]]].
  exists db'. split; [|split; [exact Hcore | split; [exact Hext | exact Hkeys]]].
  unfold syncAllRoute, getUserDevices, tryCatch.
  unfold bind at 1. cbv beta iota. unfold bind at 1.
  fold (connectedDevicesOf db user_id). rewrite Hcall. unfold ret. simpl.
  unfold deviceCountConnected, connectedDevicesOf.
  rewrite (Permutation_length
             (Permutation_filter_same isConnected _ _
                (sortNewestFirst_perm
                   (filter (fun d => (Device.user_id d =? user_id)%string)
                      (connectedDevice db))))).
  rewrite filter_twice. reflexivity.
Qed.

(** ** Analytics *)

Lemma insertByDate_perm (r : Summary.t) (l : list Summary.t) :
  Permutation (insertByDate r l) (r :: l).
Proof.
  induction l as [|x rest IH]; simpl; [reflexivity|].
  destruct (Summary.date r <? Summary.date x); [reflexivity|].
  rewrite IH. apply perm_swap.
Qed.

Lemma sortByDate_perm (l : list Summary.t) : Permutation (sortByDate l) l.
Proof.
  unfold sortByDate. induction l as [|r rest IH]; simpl; [reflexivity|].
  rewrite insertByDate_perm. constructor. exact IH.
Qed.

(** When the window of the analytics has a start, the call returns what
    it was asked for, counts the rows of the window and lists them.  Over
    an empty window every average is 0; over a window of fewer than two
    rows both trends are stable. *)
Theorem getDeviceAnalytics_summary (now : Z) (user_id : string) (deviceId : nat)
    (days : double) (db : Db) (startDate : Z)
    (Hstart : setDate now (numZ (getDate now) - days)%D = Some startDate) :
  exists a,
    getDeviceAnalytics now user_id deviceId days db = (Ok a, db)
    /\ an_device_id a = deviceId
    /\ period_days a = days
    /\ total_records a
       = List.length (analyticsWindow db startDate now user_id deviceId)
    /\ Permutation (daily_data a)
         (analyticsWindow db startDate now user_id deviceId)
    /\ (analyticsWindow db startDate now user_id deviceId = [] ->
        avg_steps a = numZ 0 /\ avg_calories_burned a = numZ 0
        /\ avg_active_minutes a = numZ 0)
    /\ ((List.length (analyticsWindow db startDate now user_id deviceId) < 2)%nat ->
        steps_trend a = stable /\ calories_trend a = stable).
Proof.
  unfold getDeviceAnalytics, tryCatch, bind, summaryFindManyByDate, ret.
  rewrite Hstart.
  fold (analyticsWindow db startDate now user_id deviceId).
  set (window := analyticsWindow db startDate now user_id deviceId).
  eexists. split; [reflexivity|]. cbn [an_device_id period_days total_records
    daily_data avg_steps avg_calories_burned avg_active_minutes steps_trend
    calories_trend].
  split; [reflexivity|]. split; [reflexivity|].
  split; [apply Permutation_length, sortByDate_perm|].
  split; [apply sortByDate_perm|]. split.
  - intros Hempty. rewrite Hempty. repeat split; reflexivity.
  - intros Hshort.
    assert (Hlen : (List.length (sortByDate window) <? 2)%nat = true).
    { apply Nat.ltb_lt.
      rewrite (Permutation_length (sortByDate_perm window)). exact Hshort. }
    unfold calculateTrend. rewrite !length_map, Hlen. split; reflexivity.
Qed.

(** The thirty days before noon of 11 March 2024 on [marchDb]: one row,
    that of 10 March. *)
Lemma getDeviceAnalytics_summary_witness :
  exists a,
    getDeviceAnalytics 1710158400000 "ana" 0 (numZ 30) marchDb = (Ok a, marchDb)
    /\ total_records a = 1%nat
    /\ avg_steps a = numZ 8000
    /\ avg_calories_burned a = numZ 200
    /\ steps_trend a = stable.
Proof.
  destruct (getDeviceAnalytics_summary 1710158400000 "ana" 0 (numZ 30) marchDb
              1707566400000 eq_refl)
    as [a [Hcall [_ [_ [Hcount [_ [_ Htrend]]]]]]].
  exists a. split; [exact Hcall|].
  split; [rewrite Hcount; vm_compute; reflexivity|].
  assert (Ha : outcome (getDeviceAnalytics 1710158400000 "ana" 0 (numZ 30) marchDb)
               = Ok a) by (rewrite Hcall; reflexivity).
  vm_compute in Ha. injection Ha as Ha. rewrite <- Ha.
  repeat split.
Defined.

(** ** The HealthKit sync *)

Lemma deviceUpsert_registers (now : Z) (user ty : string) (db : Db) :
  exists device db1,
    deviceUpsert user ty (touchSynced now)
      (fun id =>
         Device.mk id user ty ty CONNECTED (Some now) true None None None now now)
      db = (Ok device, db1)
    /\ Device.user_id device = user
    /\ Device.device_type device = ty
    /\ Device.connection_status device = CONNECTED
    /\ (1 <= deviceCount db1 user ty)%nat
    /\ dailyActivitySummary db1 = dailyActivitySummary db
    /\ meal db1 = meal db.
Proof.
  unfold deviceUpsert.
  destruct (find (deviceOfType user ty) (connectedDevice db)) as [d|] eqn:E.
  - eexists. eexists. split; [reflexivity|].
    pose proof E as Hd. apply find_some in Hd. destruct Hd as [_ Hd].
    apply deviceOfType_iff in Hd. destruct Hd as [Hu Ht].
    repeat (split; [assumption || reflexivity|]).
    split; [|split; reflexivity].
    unfold deviceCount; simpl.
    rewrite filter_updateWhere by reflexivity. rewrite length_updateWhere.
    destruct (find_some_filter _ _ _ E) as [rest ->]. simpl. lia.
  - eexists. eexists. split; [reflexivity|].
    repeat (split; [reflexivity|]).
    split; [|split; reflexivity].
    unfold deviceCount; simpl. rewrite filter_app, length_app. simpl.
    unfold deviceOfType at 2. simpl. rewrite !String.eqb_refl. simpl. lia.
Qed.

